(** * workmate: the log-record model, the report generator and the loader

    A shallow embedding of [log_analyzer.py].  Python values are modelled
    as the interpreter has them: a [str] is a sequence of Unicode code
    points, an exception is a class with a message, a [dict] keeps its
    keys in insertion order, a [list] object lives at an address of a
    heap.  The functions of the interpreter's library that the module
    calls ([json.loads], [datetime.fromisoformat], [datetime.strptime],
    float arithmetic, the Unicode tables behind [\d] and [str.strip])
    are taken as parameters: every statement below holds for each
    implementation of them. *)

From stdpp Require Import base gmap.
From Stdlib Require Import Ascii String.
From Stdlib Require Import List Permutation ZArith NArith QArith Lia Bool.
From Stdlib Require Import Floats.
From Equations Require Import Equations.
Import ListNotations.

#[local] Unset Default Proof Using.
#[local] Set Warnings "-register-all".
#[local] Set Warnings "-inexact-float".

(** ** Strings *)

Definition codepoint := N.
Definition str := list codepoint.

(** A literal of the source, as code points. *)
Definition py (s : string) : str := List.map N_of_ascii (list_ascii_of_string s).

Definition str_eqb (a b : str) : bool := bool_decide (a = b).

(** [s.endswith(suffix)] *)
Definition endswith (s suffix : str) : bool :=
  (length suffix <=? length s)%nat
  && str_eqb (skipn (length s - length suffix) s) suffix.

(** [s[:-k]] for a positive [k] *)
Definition slice_to_minus (k : nat) (s : str) : str := firstn (length s - k) s.

(** [c in s] for a one-character string [c] *)
Definition contains_chr (c : codepoint) (s : str) : bool := existsb (N.eqb c) s.

(** [s.startswith(p)] and the substring test [p in s] *)
Fixpoint startswith (s p : str) : bool :=
  match p, s with
  | [], _ => true
  | _ :: _, [] => false
  | a :: p', b :: s' => N.eqb a b && startswith s' p'
  end.

Fixpoint contains (p s : str) : bool :=
  startswith s p || match s with [] => false | _ :: t => contains p t end.

(** [s.split(sep)] for a one-character separator: the pieces between the
    occurrences of [sep], never an empty list. *)
Fixpoint split_chr (sep : codepoint) (s : str) : list str :=
  match s with
  | [] => [[]]
  | c :: t =>
      if N.eqb c sep then [] :: split_chr sep t
      else match split_chr sep t with
           | piece :: pieces => (c :: piece) :: pieces
           | [] => [[c]]
           end
  end.

(** [s.replace(c, by)] for a one-character [c] *)
Definition replace_chr (c : codepoint) (by_ : str) (s : str) : str :=
  flat_map (fun x => if N.eqb x c then by_ else [x]) s.

Fixpoint dropwhile (f : codepoint -> bool) (s : str) : str :=
  match s with
  | [] => []
  | c :: t => if f c then dropwhile f t else s
  end.

Fixpoint takewhile (f : codepoint -> bool) (s : str) : str :=
  match s with
  | [] => []
  | c :: t => if f c then c :: takewhile f t else []
  end.

(** [s.strip()] for a given whitespace class *)
Definition strip (isspace : codepoint -> bool) (s : str) : str :=
  rev (dropwhile isspace (rev (dropwhile isspace s))).

Definition chr_slash : codepoint := 47%N.
Definition chr_question : codepoint := 63%N.
Definition chr_plus : codepoint := 43%N.
Definition chr_Z : codepoint := 90%N.

(** ** Exceptions *)

Inductive exn_class :=
| JSONDecodeError
| UnicodeDecodeError
| ValueError
| KeyError
| TypeError
| AttributeError
| OverflowError
| ZeroDivisionError
| RecursionError
| OSError
| Exception.

Definition exn_class_eqb (a b : exn_class) : bool :=
  match a, b with
  | JSONDecodeError, JSONDecodeError | UnicodeDecodeError, UnicodeDecodeError
  | ValueError, ValueError | KeyError, KeyError | TypeError, TypeError
  | AttributeError, AttributeError | OverflowError, OverflowError
  | ZeroDivisionError, ZeroDivisionError | RecursionError, RecursionError
  | OSError, OSError | Exception, Exception => true
  | _, _ => false
  end.

(** The direct base class, [None] for [Exception] itself.  [IOError] is an
    alias of [OSError]. *)
Definition base_class (c : exn_class) : option exn_class :=
  match c with
  | JSONDecodeError | UnicodeDecodeError => Some ValueError
  | ZeroDivisionError | OverflowError => Some Exception (* through ArithmeticError *)
  | KeyError => Some Exception (* through LookupError *)
  | RecursionError => Some Exception (* through RuntimeError *)
  | ValueError | TypeError | AttributeError | OSError => Some Exception
  | Exception => None
  end.

(** [issubclass(c, d)]; the hierarchy above has depth two. *)
Definition issubclass (c d : exn_class) : bool :=
  exn_class_eqb c d
  || match base_class c with
     | Some b =>
         exn_class_eqb b d
         || match base_class b with Some b' => exn_class_eqb b' d | None => false end
     | None => false
     end.

Record exn := mk_exn { exn_cls : exn_class; exn_msg : str }.

(** [except (c1, c2, ...)] *)
Definition caught_by (classes : list exn_class) (e : exn) : bool :=
  existsb (issubclass (exn_cls e)) classes.

Inductive result (A : Type) :=
| Ok (a : A)
| Raise (e : exn).
Arguments Ok {A} a.
Arguments Raise {A} e.

#[export] Instance result_ret : MRet result := fun A a => Ok a.

#[export] Instance result_bind : MBind result := fun A B k r =>
  match r with
  | Ok a => k a
  | Raise e => Raise e
  end.

Definition raise_ {A} (c : exn_class) (msg : str) : result A := Raise (mk_exn c msg).

(** ** Floats *)

(** Python's [float], with the operations the module uses.  [fdiv_int] is
    [float / int] for a non-zero divisor (a zero one raises, see
    [truediv]); [int_of_float] is [int(x)] and [float_of_int] is
    [float(n)], both raising for the values the interpreter refuses. *)
Class FloatOps := {
  F : Type;
  fzero : F;
  fadd : F -> F -> F;
  fdiv_int : F -> Z -> F;
  feq : F -> F -> bool;
  flt : F -> F -> bool;
  int_of_float : F -> result Z;
  float_of_int : Z -> result F;
}.

(** Among the floats that pass [ok], [<] is a strict weak order whose
    equivalence is [==].  For IEEE doubles [ok] is "not NaN": the floats
    as a whole do not satisfy it, since NaN is neither smaller than, equal
    to nor greater than any float. *)
Class FloatOrder `{FloatOps} (ok : F -> Prop) : Prop := {
  flt_irrefl : forall a, ok a -> flt a a = false;
  flt_trans :
    forall a b c, ok a -> ok b -> ok c -> flt a b = true -> flt b c = true -> flt a c = true;
  flt_cotrans :
    forall a b c, ok a -> ok b -> ok c -> flt a c = true -> flt a b = true \/ flt b c = true;
  feq_incomparable :
    forall a b, ok a -> ok b -> feq a b = negb (flt a b) && negb (flt b a);
}.

(** ** JSON values, as [json.loads] builds them *)

Inductive json `{FloatOps} :=
| JNull
| JBool (b : bool)
| JInt (z : Z)
| JFloat (f : F)
| JStr (s : str)
| JArr (items : list json)
| JObj (members : list (str * json)).

(** ** Dates *)

Record date := mk_date { year : Z; month : Z; day : Z }.

Record datetime := mk_datetime {
  dt_date : date;
  hour : Z;
  minute : Z;
  second : Z;
  microsecond : Z;
  utcoffset : option Z;
}.

Definition date_eqb (a b : date) : bool :=
  (year a =? year b)%Z && (month a =? month b)%Z && (day a =? day b)%Z.

(** ** The library *)

Class PyLib `{FloatOps} := {
  (** the decimal digits (category Nd) beyond ASCII, which [\d] matches in a
      [str] pattern *)
  nonascii_decimal : codepoint -> bool;
  (** [str.isspace] on one character *)
  isspace : codepoint -> bool;
  (** [json.loads] *)
  json_loads : str -> result json;
  (** [int(s)] and [float(s)] on a [str]; [None] is [ValueError] *)
  int_of_str : str -> option Z;
  float_of_str : str -> option F;
  (** [datetime.fromisoformat]; [None] is [ValueError] *)
  fromisoformat : str -> option datetime;
  (** [datetime.strptime(s, '%Y-%m-%dT%H:%M:%S')]; [None] is [ValueError] *)
  strptime_seconds : str -> option datetime;
}.

(** ** Dictionaries

    A [dict] keeps its keys in insertion order; assigning to a key that is
    present keeps the key's place. *)

Definition dict (V : Type) := list (str * V).

Fixpoint dict_get {V} (d : dict V) (k : str) : option V :=
  match d with
  | [] => None
  | (k', v) :: t => if str_eqb k' k then Some v else dict_get t k
  end.

(** [k in d] *)
Definition dict_contains {V} (d : dict V) (k : str) : bool :=
  match dict_get d k with Some _ => true | None => false end.

(** [d[k] = v] *)
Fixpoint dict_set {V} (d : dict V) (k : str) (v : V) : dict V :=
  match d with
  | [] => [(k, v)]
  | (k', v') :: t => if str_eqb k' k then (k', v) :: t else (k', v') :: dict_set t k v
  end.

(** [d[k]] *)
Definition dict_getitem {V} (d : dict V) (k : str) : result V :=
  match dict_get d k with
  | Some v => Ok v
  | None => raise_ KeyError k
  end.

(** [dict(items)] *)
Definition dict_of_items {V} (items : list (str * V)) : dict V :=
  fold_left (fun d item => dict_set d (fst item) (snd item)) items [].

(** [for x in xs: body], with the loop's variables as the state [s] *)
Fixpoint for_each {S A} (body : S -> A -> result S) (xs : list A) (s : S) : result S :=
  match xs with
  | [] => Ok s
  | x :: rest => s' ← body s x; for_each body rest s'
  end.

(** [sorted(xs, key=...)], by the keys' [<]: each element goes behind the
    elements already placed that it is not smaller than, so equal keys keep
    their order.  When [<] is a strict weak order on the keys of [xs] this
    is the list every stable sort returns, the interpreter's among them.
    It is also the interpreter's list for any one or two elements: there
    [sorted] makes the one comparison [key(xs[1]) < key(xs[0])] and swaps
    the two when it holds.  For three elements or more with a key that is
    NaN the interpreter's merge of runs may leave another order than this
    insertion; what is proved about the order below is for keys with no
    NaN, or for two elements. *)
Fixpoint insert_sorted {A} (lt : A -> A -> bool) (x : A) (l : list A) : list A :=
  match l with
  | [] => [x]
  | y :: t => if lt x y then x :: l else y :: insert_sorted lt x t
  end.

Definition sorted {A} (lt : A -> A -> bool) (xs : list A) : list A :=
  fold_left (fun placed x => insert_sorted lt x placed) xs [].

(** ** class LogEntry *)

Record LogEntry `{FloatOps} := mk_LogEntry {
  timestamp : datetime;
  status : Z;
  url : json;
  request_method : json;
  response_time : F;
  http_user_agent : json;
}.

Record stats `{FloatOps} := mk_stats { total_time : F; count : Z }.

Record report_entry `{FloatOps} := mk_entry { entry_count : Z; avg_response_time : F }.

Definition item0 (pieces : list str) : str := nth 0 pieces [].

Definition ascii_digit (c : codepoint) : bool := (48 <=? c)%N && (c <=? 57)%N.

Section RecordModel.
Context {fo : FloatOps} {lib : PyLib}.

(** The interpreter raises these with texts of its own, which are left
    empty here. *)
Definition no_attribute {A} : result A := raise_ AttributeError [].
Definition bad_type {A} : result A := raise_ TypeError [].
Definition bad_value {A} : result A := raise_ ValueError [].

Definition _parse_timestamp (timestamp_str : json) : result datetime :=
  match timestamp_str with
  | JStr timestamp_str =>
      let timestamp_str :=
        if endswith timestamp_str (py "+00:00")
        then slice_to_minus 6 timestamp_str ++ py "Z"
        else if contains_chr chr_plus timestamp_str
             then item0 (split_chr chr_plus timestamp_str) ++ py "Z"
             else timestamp_str in
      match fromisoformat (replace_chr chr_Z (py "+00:00") timestamp_str) with
      | Some parsed => Ok parsed
      | None =>
          match strptime_seconds (replace_chr chr_Z [] timestamp_str) with
          | Some parsed => Ok parsed
          | None => bad_value
          end
      end
  | _ => no_attribute
  end.

Definition LogEntry__init__ (timestamp : json) (status : Z) (url request_method : json)
    (response_time : F) (http_user_agent : json) : result LogEntry :=
  parsed ← _parse_timestamp timestamp;
  mret (mk_LogEntry _ parsed status url request_method response_time http_user_agent).

(** What [\d] matches in a [str] pattern: a Unicode decimal digit. *)
Definition re_digit (c : codepoint) : bool :=
  if (c <? 128)%N then ascii_digit c else nonascii_decimal c.

Definition starts_with_digit (s : str) : bool :=
  match s with
  | c :: _ => re_digit c
  | [] => false
  end.

(** [re.sub(r'/\d+', '/...', s)]: the matches are taken from left to right
    and do not overlap; [\d+] is greedy, so a match ends where the digits
    end. *)
Equations? re_sub_slash_digits (s : str) : str by wf (length s) lt :=
  re_sub_slash_digits [] := [];
  re_sub_slash_digits (c :: t) :=
    if N.eqb c chr_slash && starts_with_digit t
    then py "/..." ++ re_sub_slash_digits (dropwhile re_digit t)
    else c :: re_sub_slash_digits t.
Proof.
  clear re_sub_slash_digits. simpl.
  induction t as [|d t IH]; simpl; [lia|].
  destruct (re_digit d); simpl; lia.
Qed.

Definition get_endpoint (self : LogEntry) : result str :=
  match url self with
  | JStr url =>
      let url_path := item0 (split_chr chr_question url) in
      let url_path :=
        if endswith url_path (py "/") && (1 <? length url_path)%nat
        then slice_to_minus 1 url_path
        else url_path in
      let endpoint := re_sub_slash_digits url_path in
      Ok endpoint
  | _ => no_attribute
  end.

(** ** class AverageReportGenerator *)

(** [x / n] for a float [x] and an int [n] *)
Definition truediv (x : F) (n : Z) : result F :=
  if (n =? 0)%Z then raise_ ZeroDivisionError [] else Ok (fdiv_int x n).

(** The body of the first loop of [generate].  The two augmented
    assignments change the accumulator of the endpoint, which stays at its
    place in [endpoint_stats]. *)
Definition accumulate (endpoint_stats : dict stats) (entry : LogEntry) : result (dict stats) :=
  endpoint ← get_endpoint entry;
  let endpoint_stats :=
    if negb (dict_contains endpoint_stats endpoint)
    then dict_set endpoint_stats endpoint (mk_stats _ fzero 0)
    else endpoint_stats in
  s ← dict_getitem endpoint_stats endpoint;
  let endpoint_stats :=
    dict_set endpoint_stats endpoint
      (mk_stats _ (fadd (total_time s) (response_time entry)) (count s)) in
  s ← dict_getitem endpoint_stats endpoint;
  mret (dict_set endpoint_stats endpoint (mk_stats _ (total_time s) (count s + 1))).

(** The body of the second loop. *)
Definition average (result_ : dict report_entry) (item : str * stats) : result (dict report_entry) :=
  let endpoint := fst item in
  let s := snd item in
  avg ← truediv (total_time s) (count s);
  mret (dict_set result_ endpoint (mk_entry _ (count s) avg)).

(** [lambda x: (-x[1]['count'], x[1]['avg_response_time'])] *)
Definition sort_key (x : str * report_entry) : Z * F :=
  (- entry_count (snd x), avg_response_time (snd x))%Z.

(** [<] on the key tuples: decided by the first component in which the two
    differ. *)
Definition key_lt (a b : Z * F) : bool :=
  if negb (fst a =? fst b)%Z then (fst a <? fst b)%Z
  else if negb (feq (snd a) (snd b)) then flt (snd a) (snd b)
  else false.

Definition item_lt (x y : str * report_entry) : bool := key_lt (sort_key x) (sort_key y).

Definition generate (log_entries : list LogEntry) : result (dict report_entry) :=
  endpoint_stats ← for_each accumulate log_entries [];
  result_ ← for_each average endpoint_stats [];
  mret (dict_of_items (sorted item_lt result_)).

End RecordModel.

(** ** class LogAnalyzer *)

(** List objects live in a heap; an analyzer holds the address of its list
    in [_log_entries] and never rebinds it. *)
Definition loc := positive.

Record LogAnalyzer := mk_LogAnalyzer { _log_entries : loc }.

(** A line printed by [load_log_file]: the line number, the path and the
    exception that the warning's text is formatted from. *)
Inductive output :=
| Warning (line_num : N) (file_path : str) (e : exn).

Record world `{FloatOps} := mk_world {
  heap : gmap loc (list LogEntry);
  stdout : list output;
}.

(** What iterating over an opened file yields: a line, or an exception
    raised by the read. *)
Inductive read_event :=
| Line (text : str)
| ReadFault (e : exn).

(** What [open(file_path)] does. *)
Inductive source :=
| Unopenable (e : exn)
| Opened (events : list read_event).

Definition required_fields : list str :=
  [py "@timestamp"; py "status"; py "url"; py "request_method";
   py "response_time"; py "http_user_agent"].

Section Loader.
Context {fo : FloatOps} {lib : PyLib}.

(** [l.append(e)] *)
Definition list_append (l : loc) (e : LogEntry) (w : world) : world :=
  mk_world _ (alter (fun xs => xs ++ [e]) l (heap w)) (stdout w).

Definition print (o : output) (w : world) : world :=
  mk_world _ (heap w) (stdout w ++ [o]).

(** The list an address holds. *)
Definition contents (w : world) (l : loc) : list LogEntry :=
  default [] (heap w !! l).

Definition LogAnalyzer__init__ (w : world) : world * LogAnalyzer :=
  let l := fresh (dom (heap w)) in
  (mk_world _ (<[l := []]> (heap w)) (stdout w), mk_LogAnalyzer l).

(** [field in log_data] *)
Definition py_in (field : str) (log_data : json) : result bool :=
  match log_data with
  | JObj members => Ok (dict_contains members field)
  | JArr items =>
      Ok (existsb (fun v => match v with JStr s => str_eqb s field | _ => false end) items)
  | JStr s => Ok (contains field s)
  | _ => bad_type
  end.

(** [log_data[key]] for a [str] key *)
Definition getitem (log_data : json) (key : str) : result json :=
  match log_data with
  | JObj members => dict_getitem members key
  | _ => bad_type
  end.

(** [int(v)] *)
Definition py_int (v : json) : result Z :=
  match v with
  | JInt z => Ok z
  | JBool b => Ok (if b then 1 else 0)%Z
  | JFloat f => int_of_float f
  | JStr s => match int_of_str s with Some z => Ok z | None => bad_value end
  | _ => bad_type
  end.

(** [float(v)] *)
Definition py_float (v : json) : result F :=
  match v with
  | JFloat f => Ok f
  | JInt z => float_of_int z
  | JBool b => float_of_int (if b then 1 else 0)%Z
  | JStr s => match float_of_str s with Some f => Ok f | None => bad_value end
  | _ => bad_type
  end.

Fixpoint check_required (fields : list str) (log_data : json) : result unit :=
  match fields with
  | [] => Ok tt
  | field :: rest =>
      present ← py_in field log_data;
      if negb present
      then raise_ KeyError (py "Missing required field: " ++ field)
      else check_required rest log_data
  end.

Definition _create_log_entry (log_data : json) : result LogEntry :=
  _ ← check_required required_fields log_data;
  timestamp ← getitem log_data (py "@timestamp");
  status ← (v ← getitem log_data (py "status"); py_int v);
  url ← getitem log_data (py "url");
  request_method ← getitem log_data (py "request_method");
  response_time ← (v ← getitem log_data (py "response_time"); py_float v);
  http_user_agent ← getitem log_data (py "http_user_agent");
  LogEntry__init__ timestamp status url request_method response_time http_user_agent.

(** The body of the loop of [load_log_file], for one line read: the world
    after it, and whether the loop goes on ([Ok]) or an exception leaves
    it. *)
Definition load_line (self : LogAnalyzer) (file_path : str) (filter_date : option datetime)
    (line_num : N) (line : str) (w : world) : world * result unit :=
  let line := strip isspace line in
  match line with
  | [] => (w, Ok tt)
  | _ :: _ =>
      match log_data ← json_loads line; _create_log_entry log_data with
      | Ok entry =>
          match filter_date with
          | Some filter_date =>
              if negb (date_eqb (dt_date (timestamp entry)) (dt_date filter_date))
              then (w, Ok tt)
              else (list_append (_log_entries self) entry w, Ok tt)
          | None => (list_append (_log_entries self) entry w, Ok tt)
          end
      | Raise e =>
          if caught_by [JSONDecodeError; KeyError; ValueError] e
          then (print (Warning line_num file_path e) w, Ok tt)
          else (w, Raise e)
      end
  end.

(** [for line_num, line in enumerate(f, 1)] *)
Fixpoint read_lines (self : LogAnalyzer) (file_path : str) (filter_date : option datetime)
    (line_num : N) (events : list read_event) (w : world) : world * result unit :=
  match events with
  | [] => (w, Ok tt)
  | ReadFault e :: _ => (w, Raise e)
  | Line line :: rest =>
      match load_line self file_path filter_date line_num line w with
      | (w', Ok _) => read_lines self file_path filter_date (line_num + 1) rest w'
      | (w', Raise e) => (w', Raise e)
      end
  end.

Definition load_log_file (fs : str -> source) (self : LogAnalyzer) (file_path : str)
    (filter_date : option datetime) (w : world) : world * result unit :=
  let '(w', r) :=
    match fs file_path with
    | Unopenable e => (w, Raise e)
    | Opened events => read_lines self file_path filter_date 1 events w
    end in
  match r with
  | Ok _ => (w', Ok tt)
  | Raise e =>
      if caught_by [OSError] e
      then (w', raise_ Exception (py "Failed to read file " ++ file_path ++ py ": " ++ exn_msg e))
      else (w', Raise e)
  end.

(** [self._log_entries.copy()]: a new list object with the same items. *)
Definition get_log_entries (self : LogAnalyzer) (w : world) : world * loc :=
  let copy := fresh (dom (heap w)) in
  (mk_world _ (<[copy := contents w (_log_entries self)]> (heap w)) (stdout w), copy).

Definition clear (self : LogAnalyzer) (w : world) : world :=
  mk_world _ (<[_log_entries self := []]> (heap w)) (stdout w).

(** Any change a caller makes to the list object at [l] in place
    ([append], [pop], [sort], item assignment, ...). *)
Definition mutate_list (l : loc) (change : list LogEntry -> list LogEntry) (w : world) : world :=
  mk_world _ (alter change l (heap w)) (stdout w).

End Loader.

(** ** The loop of [load_log_file], read line by line *)

Section LoaderReadings.
Context {fo : FloatOps} {lib : PyLib}.

(** What a line holds: nothing when it is blank, else the record built
    from it or the exception that building it raises. *)
Definition parse_line (line : str) : option (result LogEntry) :=
  match strip isspace line with
  | [] => None
  | c :: s => Some (log_data ← json_loads (c :: s); _create_log_entry log_data)
  end.

(** The records that pass the date filter. *)
Definition kept (filter_date : option datetime) (entries : list LogEntry) : list LogEntry :=
  match filter_date with
  | Some d => List.filter (fun e => date_eqb (dt_date (timestamp e)) (dt_date d)) entries
  | None => entries
  end.

(** The exception that [load_log_file] raises for a source it cannot
    read. *)
Definition read_failure (file_path : str) (e : exn) : exn :=
  mk_exn Exception (py "Failed to read file " ++ file_path ++ py ": " ++ exn_msg e).

(** The classes that the handler of a line catches. *)
Definition line_errors : list exn_class := [JSONDecodeError; KeyError; ValueError].

(** The records of the lines that hold one. *)
Fixpoint loaded (lines : list str) : list LogEntry :=
  match lines with
  | [] => []
  | line :: rest =>
      match parse_line line with
      | Some (Ok entry) => entry :: loaded rest
      | _ => loaded rest
      end
  end.

(** The warnings for the lines whose parse raises, the first line being
    number [line_num]. *)
Fixpoint warnings (file_path : str) (line_num : N) (lines : list str) : list output :=
  match lines with
  | [] => []
  | line :: rest =>
      match parse_line line with
      | Some (Raise e) => Warning line_num file_path e :: warnings file_path (line_num + 1) rest
      | _ => warnings file_path (line_num + 1) rest
      end
  end.

(** The world after the list at [l] has been given the items [store]. *)
Definition with_store (l : loc) (store : list LogEntry) (w : world) : world :=
  mk_world _ (<[l := store]> (heap w)) (stdout w).

End LoaderReadings.

(** ** The specification's wording

    The definitions of this module follow the sentences of the
    specification, not the code; the theorems compare the two. *)
Module Spec.

(** "Truncate at the first [c]." *)
Definition truncate_at_first (c : codepoint) (s : str) : str :=
  takewhile (fun x => negb (N.eqb x c)) s.

(** "If the remaining path ends with [/] and has length > 1, drop the
    trailing [/]." *)
Definition drop_trailing_slash (path : str) : str :=
  match rev path with
  | c :: (_ :: _) as before => if N.eqb c chr_slash then rev before else path
  | _ => path
  end.

(** The maximal runs of digits and of other characters, in order, each with
    the flag "is a run of digits". *)
Fixpoint group_runs (digit : codepoint -> bool) (s : str) : list (bool * str) :=
  match s with
  | [] => []
  | c :: t =>
      match group_runs digit t with
      | (flag, run) :: runs =>
          if Bool.eqb flag (digit c) then (flag, c :: run) :: runs
          else (digit c, [c]) :: (flag, run) :: runs
      | [] => [(digit c, [c])]
      end
  end.

Definition ends_with_slash (run : str) : bool :=
  match rev run with
  | c :: _ => N.eqb c chr_slash
  | [] => false
  end.

(** "Replace every maximal run of digits immediately preceded by [/] with
    [/...]": the slash and the run give way to the placeholder. *)
Fixpoint collapse_runs (runs : list (bool * str)) : str :=
  match runs with
  | [] => []
  | (false, run) :: (true, digits) :: rest =>
      if ends_with_slash run
      then removelast run ++ py "/..." ++ collapse_runs rest
      else run ++ digits ++ collapse_runs rest
  | (_, run) :: rest => run ++ collapse_runs rest
  end.

Definition canonical_endpoint (digit : codepoint -> bool) (url : str) : str :=
  collapse_runs (group_runs digit (drop_trailing_slash (truncate_at_first chr_question url))).

Fixpoint strip_prefix (p s : str) : option str :=
  match p, s with
  | [], _ => Some s
  | _ :: _, [] => None
  | a :: p', b :: s' => if N.eqb a b then strip_prefix p' s' else None
  end.

(** [s] without the suffix, when it ends with it. *)
Definition strip_suffix (suffix s : str) : option str :=
  option_map (@rev codepoint) (strip_prefix (rev suffix) (rev s)).

(** "If the string ends with [+00:00], replace that suffix with [Z]; else
    if it contains [+] anywhere, truncate at the first [+] and append
    [Z]." *)
Definition normalize_offset (s : str) : str :=
  match strip_suffix (py "+00:00") s with
  | Some body => body ++ py "Z"
  | None =>
      if existsb (N.eqb chr_plus) s
      then truncate_at_first chr_plus s ++ py "Z"
      else s
  end.

Section Timestamp.
Context {fo : FloatOps} {lib : PyLib}.

(** "Attempt a general ISO-8601 parse treating [Z] as UTC." *)
Definition parse_iso8601 (s : str) : option datetime :=
  fromisoformat (flat_map (fun c => if N.eqb c chr_Z then py "+00:00" else [c]) s).

(** "Fall back to a strict second-precision parse with [Z] removed." *)
Definition parse_strict (s : str) : option datetime :=
  strptime_seconds (List.filter (fun c => negb (N.eqb c chr_Z)) s).

Definition parse_timestamp (s : str) : option datetime :=
  let normalized := normalize_offset s in
  match parse_iso8601 normalized with
  | Some instant => Some instant
  | None => parse_strict normalized
  end.

End Timestamp.

Section Aggregate.
Context {fo : FloatOps} {lib : PyLib}.

(** "The input records whose canonical endpoint equals E." *)
Definition records_of (E : str) (records : list LogEntry) : list LogEntry :=
  List.filter
    (fun r => match get_endpoint r with Ok k => str_eqb k E | Raise _ => false end)
    records.

(** "The arithmetic mean": the sum, taken in order from [0.0], over the
    number of terms. *)
Definition mean (xs : list F) : F :=
  fdiv_int (fold_left fadd xs fzero) (Z.of_nat (length xs)).

(** The position of the first record of endpoint [E] (the number of
    records when there is none). *)
Fixpoint first_record (E : str) (records : list LogEntry) : nat :=
  match records with
  | [] => 0
  | r :: rest =>
      match get_endpoint r with
      | Ok k => if str_eqb k E then 0 else S (first_record E rest)
      | Raise _ => S (first_record E rest)
      end
  end.

Definition fle (a b : F) : bool := flt a b || feq a b.

(** "A precedes B" in an ordered mapping. *)
Definition precedes {V} (d : dict V) (a b : str * V) : Prop :=
  exists i j, (i < j)%nat /\ nth_error d i = Some a /\ nth_error d j = Some b.

(** The sort order as the specification words it: "A precedes B iff
    count(A) > count(B), or count(A) == count(B) and avg(A) <= avg(B)". *)
Definition ordered_as_worded (report : dict report_entry) : Prop :=
  forall a b, In a report -> In b report -> fst a <> fst b ->
    (precedes report a b <->
     (entry_count (snd a) > entry_count (snd b))%Z
     \/ (entry_count (snd a) = entry_count (snd b)
         /\ fle (avg_response_time (snd a)) (avg_response_time (snd b)) = true)).

End Aggregate.

End Spec.

(** ** Instances for the examples *)

(** Binary64 floats, as the interpreter's. *)
Definition float64_of_Z (z : Z) : float := SF2Prim (binary_normalize prec emax z 0 false).

Definition int_of_float64 (f : float) : result Z :=
  match Prim2SF f with
  | S754_zero _ => Ok 0%Z
  | S754_infinity _ => raise_ OverflowError []
  | S754_nan => raise_ ValueError []
  | S754_finite s m e =>
      let a := if (0 <=? e)%Z then Z.shiftl (Zpos m) e else Z.shiftr (Zpos m) (- e) in
      Ok (if s then (- a)%Z else a)
  end.

Definition float64 : FloatOps := {|
  F := float;
  fzero := 0%float;
  fadd := PrimFloat.add;
  fdiv_int x n := PrimFloat.div x (float64_of_Z n);
  feq := PrimFloat.eqb;
  flt := PrimFloat.ltb;
  int_of_float := int_of_float64;
  float_of_int z :=
    let f := float64_of_Z z in
    if PrimFloat.is_infinity f then raise_ OverflowError [] else Ok f;
|}.

(** The place of a float that is not NaN on the line: its sign class,
    then its exponent, then its mantissa; the two zeros share a place. *)
Definition sf_rank (f : spec_float) : Z * Z * Z :=
  match f with
  | S754_infinity true => (-2, 0, 0)
  | S754_finite true m e => (-1, - e, - Z.pos m)
  | S754_zero _ | S754_nan => (0, 0, 0)
  | S754_finite false m e => (1, e, Z.pos m)
  | S754_infinity false => (2, 0, 0)
  end%Z.

Definition rank_lt (a b : Z * Z * Z) : Prop :=
  (fst (fst a) < fst (fst b)
   \/ (fst (fst a) = fst (fst b)
       /\ (snd (fst a) < snd (fst b)
           \/ (snd (fst a) = snd (fst b) /\ snd a < snd b))))%Z.

(** Exact rational arithmetic: an order with no NaN. *)
Definition rational : FloatOps := {|
  F := Q;
  fzero := 0%Q;
  fadd := Qplus;
  fdiv_int x n := Qdiv x (inject_Z n);
  feq := Qeq_bool;
  flt a b := negb (Qle_bool b a);
  int_of_float q := Ok (Z.quot (Qnum q) (Zpos (Qden q)));
  float_of_int z := Ok (inject_Z z);
|}.

(** JSON text, written with ['] for the double quote. *)
Definition json_text (s : string) : str :=
  List.map (fun c => if N.eqb c 39 then 34%N else c) (py s).

(** A library for the examples: [json.loads] and [fromisoformat] as finite
    tables of the documents and the timestamps that occur in them, the
    Unicode tables with the digits of the Arabic-Indic, Extended
    Arabic-Indic and fullwidth blocks. *)
Definition table_lib {fo : FloatOps} (documents : dict json) (timestamps : dict datetime) : PyLib := {|
  nonascii_decimal c :=
    ((0x660 <=? c) && (c <=? 0x669) || (0x6F0 <=? c) && (c <=? 0x6F9)
     || (0xFF10 <=? c) && (c <=? 0xFF19))%N;
  isspace c :=
    ((9 <=? c) && (c <=? 13) || (28 <=? c) && (c <=? 32) || (c =? 0x85) || (c =? 0xA0)
     || (c =? 0x1680) || (0x2000 <=? c) && (c <=? 0x200A) || (c =? 0x2028) || (c =? 0x2029)
     || (c =? 0x202F) || (c =? 0x205F) || (c =? 0x3000))%N;
  json_loads s :=
    match dict_get documents s with
    | Some v => Ok v
    | None => raise_ JSONDecodeError []
    end;
  int_of_str _ := None;
  float_of_str _ := None;
  fromisoformat s := dict_get timestamps s;
  strptime_seconds _ := None;
|}.

(** [a] occurs in [l] with [b] somewhere behind it. *)
Fixpoint before {A} (l : list A) (a b : A) : Prop :=
  match l with
  | [] => False
  | x :: t => (x = a /\ In b t) \/ before t a b
  end.

(** No element of [l] is smaller than one in front of it. *)
Definition ordered {A} (lt : A -> A -> bool) (l : list A) : Prop :=
  forall a b, before l a b -> lt b a = false.

(** ** The loops of [generate], read as functions *)

Section Readings.
Context {fo : FloatOps} {lib : PyLib}.

Definition has_endpoint (r : LogEntry) : Prop := exists k, get_endpoint r = Ok k.

Definition endpoint_of (r : LogEntry) : str :=
  match get_endpoint r with
  | Ok k => k
  | Raise _ => []
  end.

Definition no_stats : stats := mk_stats _ fzero 0.

Definition add_record (s : stats) (r : LogEntry) : stats :=
  mk_stats _ (fadd (total_time s) (response_time r)) (count s + 1).

(** The first loop: one pass over the records. *)
Definition tally (d : dict stats) (records : list LogEntry) : dict stats :=
  fold_left
    (fun d r =>
       dict_set d (endpoint_of r) (add_record (default no_stats (dict_get d (endpoint_of r))) r))
    records d.

(** The second loop: one report entry for each accumulator. *)
Definition averaged (d : dict stats) : dict report_entry :=
  map (fun item =>
         (fst item,
          mk_entry _ (count (snd item)) (fdiv_int (total_time (snd item)) (count (snd item)))))
      d.

End Readings.

(** A record as the tests build them. *)
Definition example_instant : datetime :=
  mk_datetime (mk_date 2025 6 22) 13 57 32 0 (Some 0%Z).

Definition example_record {fo : FloatOps} (url : str) (response_time : F) : LogEntry :=
  mk_LogEntry _ example_instant 200 (JStr url) (JStr (py "GET")) response_time
    (JStr (py "Agent")).

(** The two lines of the date-filter test, and a line whose status is
    [null]. *)
Definition example_instant2 : datetime :=
  mk_datetime (mk_date 2025 6 23) 13 57 33 0 (Some 0%Z).

Definition example_line1 : str :=
  json_text "{'@timestamp': '2025-06-22T13:57:32+00:00', 'status': 200, 'url': '/api/test1', 'request_method': 'GET', 'response_time': 0.024, 'http_user_agent': 'TestAgent/1.0'}".

Definition example_line2 : str :=
  json_text "{'@timestamp': '2025-06-23T13:57:33+00:00', 'status': 404, 'url': '/api/test2', 'request_method': 'POST', 'response_time': 0.056, 'http_user_agent': 'TestAgent/2.0'}".

Definition example_line_null : str :=
  json_text "{'@timestamp': '2025-06-22T13:57:32+00:00', 'status': null, 'url': '/api/test1', 'request_method': 'GET', 'response_time': 0.024, 'http_user_agent': 'TestAgent/1.0'}".

Definition example_document (timestamp : string) (status : @json float64) (url method : string)
    (response_time : float) (agent : string) : @json float64 :=
  @JObj float64
    [(py "@timestamp", JStr (py timestamp)); (py "status", status);
     (py "url", JStr (py url)); (py "request_method", JStr (py method));
     (py "response_time", @JFloat float64 response_time);
     (py "http_user_agent", JStr (py agent))].

Definition example_lib : @PyLib float64 :=
  table_lib
    [(example_line1,
      example_document "2025-06-22T13:57:32+00:00" (JInt 200) "/api/test1" "GET"
        0.024%float "TestAgent/1.0");
     (example_line2,
      example_document "2025-06-23T13:57:33+00:00" (JInt 404) "/api/test2" "POST"
        0.056%float "TestAgent/2.0");
     (example_line_null,
      example_document "2025-06-22T13:57:32+00:00" JNull "/api/test1" "GET"
        0.024%float "TestAgent/1.0")]
    [(py "2025-06-22T13:57:32+00:00", example_instant);
     (py "2025-06-23T13:57:33+00:00", example_instant2)].

Definition example_entry1 : @LogEntry float64 :=
  mk_LogEntry float64 example_instant 200 (JStr (py "/api/test1")) (JStr (py "GET")) 0.024%float
    (JStr (py "TestAgent/1.0")).

Definition example_entry2 : @LogEntry float64 :=
  mk_LogEntry float64 example_instant2 404 (JStr (py "/api/test2")) (JStr (py "POST")) 0.056%float
    (JStr (py "TestAgent/2.0")).

Definition newline : codepoint := 10%N.

(** Four paths: a log of the two lines, a log with a line that is not JSON
    between them, a log whose first line has the [null] status, and a path
    that cannot be opened. *)
Definition example_fs (file_path : str) : source :=
  if str_eqb file_path (py "access.log")
  then Opened [Line (example_line1 ++ [newline]); Line (example_line2 ++ [newline])]
  else if str_eqb file_path (py "mixed.log")
  then Opened [Line (example_line1 ++ [newline]); Line (py "invalid json line" ++ [newline]);
               Line (example_line2 ++ [newline])]
  else if str_eqb file_path (py "null.log")
  then Opened [Line (example_line_null ++ [newline]); Line (example_line1 ++ [newline])]
  else Unopenable (mk_exn OSError (py "[Errno 2] No such file or directory")).

(** A fresh analyzer in an empty world. *)
Definition example_world : @world float64 := mk_world float64 (<[1%positive := []]> ∅) [].

Definition example_analyzer : LogAnalyzer := mk_LogAnalyzer 1%positive.

Definition rational_lib : @PyLib rational := table_lib [] [].

(** U+0663, ARABIC-INDIC DIGIT THREE *)
Definition arabic_indic_three : codepoint := 0x663%N.

(** ** Further readings and examples *)

(** The JSON values that are neither containers nor strings. *)
Definition is_scalar {fo : FloatOps} (v : json) : bool :=
  match v with
  | JNull | JBool _ | JInt _ | JFloat _ => true
  | JStr _ | JArr _ | JObj _ => false
  end.

(** A library that reads the documents [null] and [42]. *)
Definition scalar_lib : @PyLib float64 :=
  table_lib [(py "null", @JNull float64); (py "42", @JInt float64 42)] [].

Definition scalar_fs (file_path : str) : source :=
  Opened [Line (py "null" ++ [newline]); Line (example_line1 ++ [newline])].

(** The world [w] with [added] behind the items of the list at [l] and
    [out] behind what was printed. *)
Definition grown {fo : FloatOps} (l : loc) (store added : list LogEntry) (out : list output)
    (w : world) : world :=
  mk_world _ (<[l := store ++ added]> (heap w)) (stdout w ++ out).

(** The sum of the counts of a report. *)
Definition total_count {fo : FloatOps} (report : dict report_entry) : Z :=
  fold_right (fun item total => (entry_count (snd item) + total)%Z) 0%Z report.

(** [s] has a [/] with a character of [digit] right behind it. *)
Fixpoint has_slash_digit (digit : codepoint -> bool) (s : str) : bool :=
  match s with
  | [] => false
  | c :: t =>
      (N.eqb c chr_slash && match t with d :: _ => digit d | [] => false end)
      || has_slash_digit digit t
  end.

(** The sum of the counts of the accumulators. *)
Definition sum_counts {fo : FloatOps} (d : dict stats) : Z :=
  fold_right (fun item total => (count (snd item) + total)%Z) 0%Z d.

(** ** main.py

    The command line: the files are checked, the date is parsed, every
    file is loaded into one analyzer and the report is printed.  What is
    printed is kept as the sequence of the [print] calls, each with the
    values its text is formatted from. *)

(** The functions of the library that [main.py] calls: the text of
    [Path(s)], [Path(s).name], and [datetime.strptime(s, '%Y-%m-%d')]
    ([None] is [ValueError]). *)
Class OsLib := {
  path_str : str -> str;
  path_name : str -> str;
  strptime_date : str -> option datetime;
}.

(** What the paths lead to: [Path.exists], [Path.is_file],
    [Path.stat().st_size] and [open]. *)
Record filesystem := mk_filesystem {
  fs_exists : str -> bool;
  fs_is_file : str -> bool;
  fs_size : str -> Z;
  fs_open : str -> source;
}.

Inductive printed {fo : FloatOps} :=
| Loader (o : output)                     (* a line of [load_log_file] *)
| FileMissing (file_path : str)           (* Error: File '...' does not exist *)
| NotAFile (file_path : str)              (* Error: '...' is not a file *)
| EmptyFile (file_path : str)             (* Warning: File '...' is empty *)
| BadDate (date_str : str)                (* Error: Invalid date format '...' *)
| LoadError (file_path : str) (e : exn)   (* Error loading file '...': ... *)
| NoData                                  (* No data found for the specified criteria *)
| Title (report : str)                    (* the report's name in upper case, REPORT *)
| Rule                                    (* fifty [=] *)
| FilteredBy (d : datetime)               (* Filtered by date: ... *)
| FilesProcessed (names : list str)       (* Files processed: ... *)
| Blank
| Table (rows : list (str * Z * F))       (* the grid of [tabulate] *)
| Unexpected (e : exn)                    (* Unexpected error: ... *)
| HelpText.                               (* the help of argparse, for [-h] *)

(** How [main] ends: it returns, [sys.exit] ends the process with a
    code, or an exception leaves it. *)
Inductive completion :=
| Returned
| Exited (code : Z)
| Uncaught (e : exn).

Section Main.
Context {fo : FloatOps} {lib : PyLib} {os : OsLib}.

(** The loop of [validate_files], with the paths validated so far. *)
Fixpoint validate_files_from (fsys : filesystem) (file_paths validated_paths : list str)
    (console : list printed) : list printed * (list str + Z) :=
  match file_paths with
  | [] => (console, inl validated_paths)
  | file_path :: rest =>
      let path := path_str file_path in
      if negb (fs_exists fsys path) then (console ++ [FileMissing file_path], inr 1%Z)
      else if negb (fs_is_file fsys path) then (console ++ [NotAFile file_path], inr 1%Z)
      else
        let console :=
          if negb (0 <? fs_size fsys path)%Z then console ++ [EmptyFile file_path]
          else console in
        validate_files_from fsys rest (validated_paths ++ [path]) console
  end.

Definition validate_files (fsys : filesystem) (file_paths : list str)
    (console : list printed) : list printed * (list str + Z) :=
  validate_files_from fsys file_paths [] console.

Definition validate_date (date_str : option str) (console : list printed)
    : list printed * (option datetime + Z) :=
  match date_str with
  | None => (console, inl None)
  | Some date_str =>
      match strptime_date date_str with
      | Some d => (console, inl (Some d))
      | None => (console ++ [BadDate date_str], inr 1%Z)
      end
  end.

(** The loop of [main] over the validated paths. *)
Fixpoint load_files (fsys : filesystem) (analyzer : LogAnalyzer) (file_paths : list str)
    (filter_date : option datetime) (h : gmap loc (list LogEntry)) (console : list printed)
    : gmap loc (list LogEntry) * list printed * option completion :=
  match file_paths with
  | [] => (h, console, None)
  | file_path :: rest =>
      let loaded_ := load_log_file (fs_open fsys) analyzer file_path filter_date (mk_world _ h []) in
      let console := console ++ map Loader (stdout (fst loaded_)) in
      match snd loaded_ with
      | Ok _ => load_files fsys analyzer rest filter_date (heap (fst loaded_)) console
      | Raise e =>
          if caught_by [Exception] e
          then (heap (fst loaded_), console ++ [LoadError file_path e], Some (Exited 1))
          else (heap (fst loaded_), console, Some (Uncaught e))
      end
  end.

(** [[endpoint, data["count"], f"{data['avg_response_time']:.3f}"]] *)
Definition table_row (item : str * report_entry) : str * Z * F :=
  (fst item, entry_count (snd item), avg_response_time (snd item)).

(** The body of [main] from the value of [parse_arguments()] on: the
    three arguments are [args.files], [args.report] and [args.date].  On a
    run [args.report] is [average], the one choice that [parse_arguments]
    lets through; [main_from_argv] below is the whole of [main]. *)
Definition main (fsys : filesystem) (files : list str) (report : str) (date : option str)
    : list printed * completion :=
  match validate_files fsys files [] with
  | (console, inr code) => (console, Exited code)
  | (console, inl file_paths) =>
      match validate_date date console with
      | (console, inr code) => (console, Exited code)
      | (console, inl filter_date) =>
          let created := LogAnalyzer__init__ (mk_world _ ∅ []) in
          let analyzer := snd created in
          match load_files fsys analyzer file_paths filter_date (heap (fst created)) console with
          | (_, console, Some st) => (console, st)
          | (h, console, None) =>
              if str_eqb report (py "average")
              then
                let copied := get_log_entries analyzer (mk_world _ h []) in
                match generate (contents (fst copied) (snd copied)) with
                | Raise e =>
                    if caught_by [Exception] e
                    then (console ++ [Unexpected e], Exited 1)
                    else (console, Uncaught e)
                | Ok [] => (console ++ [NoData], Returned)
                | Ok report_data =>
                    (console
                     ++ [Title report; Rule]
                     ++ match filter_date with Some d => [FilteredBy d] | None => [] end
                     ++ [FilesProcessed (map path_name file_paths); Blank;
                         Table (map table_row report_data); Blank],
                     Returned)
                end
              else (console, Returned)
          end
      end
  end.

End Main.

(** What [parse_arguments] makes of a command line: the namespace with
    the values of [--file] (one for each occurrence), [--report] and
    [--date], or the end of the process by argparse: with status 2 and a
    message on the standard error for a command line that it rejects, with
    status 0 and the help on the standard output for [-h]. *)
Inductive parsed :=
| Namespace (files : list str) (report : str) (date : option str)
| UsageError
| HelpShown.



(** ** Readings of [main] *)

Section MainReadings.
Context {fo : FloatOps} {lib : PyLib} {os : OsLib}.

(** The path passes the two tests of [validate_files]. *)
Definition is_valid (fsys : filesystem) (file_path : str) : bool :=
  fs_exists fsys (path_str file_path) && fs_is_file fsys (path_str file_path).

(** The warnings of [validate_files] for the files of size zero. *)
Definition size_warnings (fsys : filesystem) (file_paths : list str) : list printed :=
  flat_map
    (fun file_path =>
       if (0 <? fs_size fsys (path_str file_path))%Z then [] else [EmptyFile file_path])
    file_paths.

(** The error of [validate_files] for a path that fails a test. *)
Definition rejection (fsys : filesystem) (file_path : str) : printed :=
  if fs_exists fsys (path_str file_path) then NotAFile file_path else FileMissing file_path.

(** The value of [args.date] as [validate_date] returns it, when it
    returns. *)
Definition parsed_date (date : option str) : option (option datetime) :=
  match date with
  | None => Some None
  | Some date_str =>
      match strptime_date date_str with
      | Some d => Some (Some d)
      | None => None
      end
  end.

(** No line fails outside the classes that the handler of a line
    catches. *)
Definition skippable (lines : list str) : Prop :=
  Forall (fun line => forall e, parse_line line = Some (Raise e) ->
                                caught_by line_errors e = true) lines.

(** The file at [path] opens, is read to its end and holds [lines], all
    of them skippable. *)
Definition holds (fsys : filesystem) (path : str) (lines : list str) : Prop :=
  fs_open fsys path = Opened (map Line lines) /\ skippable lines.

(** The records of several files that pass the filter, file after file. *)
Definition all_records (filter_date : option datetime) (liness : list (list str))
    : list LogEntry :=
  flat_map (fun lines => kept filter_date (loaded lines)) liness.

(** The warnings of several files, file after file. *)
Fixpoint all_warnings (paths : list str) (liness : list (list str)) : list printed :=
  match paths, liness with
  | path :: paths, lines :: liness =>
      map Loader (warnings path 1 lines) ++ all_warnings paths liness
  | _, _ => []
  end.

(** The exception that leaves [load_log_file] when [e] is raised under
    its [try]. *)
Definition load_failure (file_path : str) (e : exn) : exn :=
  if caught_by [OSError] e then read_failure file_path e else e.



(** What [main] prints for a report that is not empty. *)
Definition report_lines (report : str) (filter_date : option datetime) (paths : list str)
    (report_data : dict report_entry) : list printed :=
  [Title report; Rule]
  ++ match filter_date with Some d => [FilteredBy d] | None => [] end
  ++ [FilesProcessed (map path_name paths); Blank; Table (map table_row report_data); Blank].

End MainReadings.

(** Paths with no directory part, and the one date of the examples. *)
Definition example_os : OsLib :=
  {| path_str := fun s => s;
     path_name := fun s => s;
     strptime_date := fun s =>
       if str_eqb s (py "2025-06-22")
       then Some (mk_datetime (mk_date 2025 6 22) 0 0 0 0 None)
       else None |}.

(** A directory [logs], an empty file, a file that cannot be opened and
    the logs of [example_fs]; [missing.log] does not exist. *)
Definition example_disk : filesystem :=
  mk_filesystem
    (fun path => negb (str_eqb path (py "missing.log")))
    (fun path => negb (str_eqb path (py "logs")))
    (fun path => if str_eqb path (py "empty.log") then 0%Z else 4096%Z)
    (fun path =>
       if str_eqb path (py "empty.log") then Opened []
       else if str_eqb path (py "locked.log")
       then Unopenable (mk_exn OSError (py "[Errno 13] Permission denied: 'locked.log'"))
       else example_fs path).

(** A line whose [url] is a number, a library that reads it and a disk
    where every path leads to a file of that line. *)
Definition example_line_untyped : str :=
  json_text "{'@timestamp': '2025-06-22T13:57:32+00:00', 'status': 200, 'url': 7, 'request_method': 'GET', 'response_time': 0.024, 'http_user_agent': 'TestAgent/1.0'}".

Definition untyped_lib : @PyLib float64 :=
  table_lib
    [(example_line_untyped,
      @JObj float64
        [(py "@timestamp", JStr (py "2025-06-22T13:57:32+00:00")); (py "status", JInt 200);
         (py "url", JInt 7); (py "request_method", JStr (py "GET"));
         (py "response_time", @JFloat float64 0.024%float);
         (py "http_user_agent", JStr (py "TestAgent/1.0"))])]
    [(py "2025-06-22T13:57:32+00:00", example_instant)].



Definition untyped_disk : filesystem :=
  mk_filesystem (fun _ => true) (fun _ => true) (fun _ => 4096%Z)
    (fun _ => Opened [Line (example_line_untyped ++ [newline])]).

(** * Verification *)

(** ** Strings *)

Lemma str_eqb_eq (a b : str) : str_eqb a b = true <-> a = b.
Proof. unfold str_eqb. apply bool_decide_eq_true. Qed.

Lemma str_eqb_refl (a : str) : str_eqb a a = true.
Proof. apply str_eqb_eq. reflexivity. Qed.

Lemma str_eqb_neq (a b : str) : str_eqb a b = false <-> a <> b.
Proof. unfold str_eqb. apply bool_decide_eq_false. Qed.

Lemma str_eqb_sym (a b : str) : str_eqb a b = str_eqb b a.
Proof.
  destruct (str_eqb b a) eqn:E.
  - apply str_eqb_eq in E. subst. apply str_eqb_refl.
  - apply str_eqb_neq. apply str_eqb_neq in E. congruence.
Qed.

Lemma item0_split_chr (c : codepoint) (s : str) :
  item0 (split_chr c s) = Spec.truncate_at_first c s.
Proof.
  unfold item0, Spec.truncate_at_first.
  induction s as [|x t IH]; simpl; [reflexivity|].
  destruct (N.eqb x c); simpl; [reflexivity|].
  destruct (split_chr c t) as [|piece pieces]; simpl in *; congruence.
Qed.

Lemma endswith_snoc (q : str) (c d : codepoint) :
  endswith (q ++ [c]) [d] = N.eqb c d.
Proof.
  unfold endswith. rewrite length_app. simpl length.
  assert ((1 <=? length q + 1)%nat = true) as -> by (apply Nat.leb_le; lia).
  replace (length q + 1 - 1)%nat with (length q) by lia.
  rewrite skipn_app, skipn_all, Nat.sub_diag. simpl. unfold str_eqb.
  destruct (N.eqb c d) eqn:E.
  - apply N.eqb_eq in E. subst. apply bool_decide_eq_true. reflexivity.
  - apply N.eqb_neq in E. apply bool_decide_eq_false. congruence.
Qed.

Lemma drop_trailing_slash_code (path : str) :
  (if endswith path (py "/") && (1 <? length path)%nat
   then slice_to_minus 1 path else path)
  = Spec.drop_trailing_slash path.
Proof.
  unfold Spec.drop_trailing_slash.
  destruct path as [|x p] using rev_ind; [reflexivity|].
  clear IHp. change (py "/") with [chr_slash].
  rewrite endswith_snoc, rev_app_distr. simpl.
  unfold slice_to_minus. rewrite length_app. simpl.
  replace (length p + 1 - 1)%nat with (length p) by lia.
  rewrite firstn_app, firstn_all, Nat.sub_diag. simpl. rewrite app_nil_r.
  destruct (rev p) as [|y r] eqn:E.
  - assert (p = []) as -> by (apply (f_equal (@rev _)) in E; rewrite rev_involutive in E; exact E).
    simpl. rewrite andb_false_r. reflexivity.
  - rewrite <- E, rev_involutive.
    assert ((1 <? length p + 1)%nat = true) as ->.
    { apply Nat.ltb_lt. apply (f_equal (@length _)) in E. rewrite length_rev in E. simpl in E. lia. }
    rewrite andb_true_r. reflexivity.
Qed.

(** ** Endpoints *)

Section EndpointFacts.
Context {fo : FloatOps} {lib : PyLib}.

Lemma re_digit_slash : re_digit chr_slash = false.
Proof. reflexivity. Qed.

Lemma group_runs_head (s : str) (flag : bool) (run : str) (runs : list (bool * str)) :
  Spec.group_runs re_digit s = (flag, run) :: runs ->
  exists c t, s = c :: t /\ flag = re_digit c /\ run <> [].
Proof.
  destruct s as [|c t]; simpl; [discriminate|].
  intros E. exists c, t. split; [reflexivity|].
  destruct (Spec.group_runs re_digit t) as [|[f r] rs].
  - inversion E; subst. split; [reflexivity | discriminate].
  - destruct (Bool.eqb f (re_digit c)) eqn:Ef; inversion E; subst.
    + apply eqb_prop in Ef. split; [exact Ef | discriminate].
    + split; [reflexivity | discriminate].
Qed.

Lemma group_runs_nonempty (c : codepoint) (t : str) :
  Spec.group_runs re_digit (c :: t) <> [].
Proof.
  simpl. destruct (Spec.group_runs re_digit t) as [|[f r] rs]; [discriminate|].
  destruct (Bool.eqb f (re_digit c)); discriminate.
Qed.

(** A digit heads the run of all the digits that follow it. *)
Lemma group_runs_digits (d : codepoint) (t : str) :
  re_digit d = true ->
  Spec.group_runs re_digit (d :: t)
  = (true, d :: takewhile re_digit t) :: Spec.group_runs re_digit (dropwhile re_digit t).
Proof.
  revert d. induction t as [|c t IH]; intros d Hd.
  - simpl. rewrite Hd. reflexivity.
  - destruct (re_digit c) eqn:Hc.
    + change (Spec.group_runs re_digit (d :: c :: t)) with
        (match Spec.group_runs re_digit (c :: t) with
         | (flag, run) :: runs =>
             if Bool.eqb flag (re_digit d) then (flag, d :: run) :: runs
             else (re_digit d, [d]) :: (flag, run) :: runs
         | [] => [(re_digit d, [d])]
         end).
      rewrite (IH c Hc), Hd. simpl. rewrite Hc. reflexivity.
    + change (Spec.group_runs re_digit (d :: c :: t)) with
        (match Spec.group_runs re_digit (c :: t) with
         | (flag, run) :: runs =>
             if Bool.eqb flag (re_digit d) then (flag, d :: run) :: runs
             else (re_digit d, [d]) :: (flag, run) :: runs
         | [] => [(re_digit d, [d])]
         end).
      simpl dropwhile. simpl takewhile. rewrite Hc.
      destruct (Spec.group_runs re_digit (c :: t)) as [|[f r] rs] eqn:E.
      * exfalso. exact (group_runs_nonempty c t E).
      * destruct (group_runs_head _ _ _ _ E) as (c' & t' & Hs & Hf & _).
        inversion Hs; subst c' t'. rewrite Hf, Hc, Hd. reflexivity.
Qed.

Lemma ends_with_slash_cons (c : codepoint) (run : str) :
  run <> [] -> Spec.ends_with_slash (c :: run) = Spec.ends_with_slash run.
Proof.
  intros Hr. unfold Spec.ends_with_slash. simpl.
  destruct run as [|x r] using rev_ind; [congruence|].
  rewrite rev_app_distr. reflexivity.
Qed.

Lemma removelast_cons (c : codepoint) (run : str) :
  run <> [] -> removelast (c :: run) = c :: removelast run.
Proof. destruct run; [congruence | reflexivity]. Qed.

(** A character that starts no match is copied. *)
Lemma collapse_runs_copy (c : codepoint) (t : str) :
  N.eqb c chr_slash && starts_with_digit t = false ->
  Spec.collapse_runs (Spec.group_runs re_digit (c :: t))
  = c :: Spec.collapse_runs (Spec.group_runs re_digit t).
Proof.
  intros Hno. simpl Spec.group_runs.
  destruct (Spec.group_runs re_digit t) as [|[f r] G] eqn:E.
  - simpl. destruct (re_digit c); reflexivity.
  - destruct (group_runs_head _ _ _ _ E) as (c' & t' & Hs & Hf & Hr). subst t.
    simpl in Hno.
    destruct f, (re_digit c) eqn:Hc; cbn [Bool.eqb].
    + reflexivity.
    + rewrite <- Hf, andb_true_r in Hno.
      cbn [Spec.collapse_runs]. unfold Spec.ends_with_slash. simpl. rewrite Hno. reflexivity.
    + reflexivity.
    + destruct G as [|[[] r2] G2]; cbn [Spec.collapse_runs].
      * reflexivity.
      * rewrite (ends_with_slash_cons c r Hr), (removelast_cons c r Hr).
        destruct (Spec.ends_with_slash r); reflexivity.
      * reflexivity.
Qed.

Lemma dropwhile_length (f : codepoint -> bool) (s : str) :
  (length (dropwhile f s) <= length s)%nat.
Proof.
  induction s as [|c t IH]; simpl; [lia|].
  destruct (f c); simpl; lia.
Qed.

Lemma re_sub_collapses_runs (s : str) :
  re_sub_slash_digits s = Spec.collapse_runs (Spec.group_runs re_digit s).
Proof.
  remember (length s) as n eqn:Hn.
  assert (length s <= n)%nat as Hle by lia. clear Hn.
  revert s Hle. induction n as [|n IH]; intros s Hle.
  - destruct s; [reflexivity | simpl in Hle; lia].
  - destruct s as [|c t]; [reflexivity|].
    simpl in Hle. rewrite re_sub_slash_digits_equation_2.
    destruct (N.eqb c chr_slash && starts_with_digit t) eqn:Hm.
    + apply andb_true_iff in Hm. destruct Hm as [Hc Hd].
      apply N.eqb_eq in Hc. subst c.
      destruct t as [|d t]; [discriminate|]. simpl in Hd.
      rewrite IH by (pose proof (dropwhile_length re_digit (d :: t)); simpl in *; lia).
      simpl dropwhile. rewrite Hd.
      change (Spec.group_runs re_digit (chr_slash :: d :: t)) with
        (match Spec.group_runs re_digit (d :: t) with
         | (flag, run) :: runs =>
             if Bool.eqb flag (re_digit chr_slash) then (flag, chr_slash :: run) :: runs
             else (re_digit chr_slash, [chr_slash]) :: (flag, run) :: runs
         | [] => [(re_digit chr_slash, [chr_slash])]
         end).
      rewrite (group_runs_digits d t Hd), re_digit_slash. reflexivity.
    + rewrite (collapse_runs_copy c t Hm), IH by lia. reflexivity.
Qed.

(** The code computes the canonical endpoint of the specification, with
    the digits that [\d] matches. *)
Lemma get_endpoint_refines (ts : datetime) (st : Z) (u : str) (m : json) (rt : F) (ua : json) :
  get_endpoint (mk_LogEntry _ ts st (JStr u) m rt ua)
  = Ok (Spec.canonical_endpoint re_digit u).
Proof.
  unfold get_endpoint, Spec.canonical_endpoint. cbn [url]. cbv zeta.
  rewrite item0_split_chr, drop_trailing_slash_code, re_sub_collapses_runs.
  reflexivity.
Qed.

End EndpointFacts.

(** C3 (amended): for every url string, [get_endpoint] returns the url
    truncated at the first [?], without one trailing [/] when the
    remaining path ends with [/] and is longer than one character, and
    with every [/] followed by a maximal run of decimal digits replaced by
    [/...]; the digits are those that [\d] matches in a [str] pattern, the
    Unicode decimal digits, ASCII [0]-[9] among them.  The three examples
    of the specification hold. *)
Theorem get_endpoint_canonical {fo : FloatOps} {lib : PyLib}
    (ts : datetime) (st : Z) (m : json) (rt : F) (ua : json) :
  (forall u : str,
     get_endpoint (mk_LogEntry _ ts st (JStr u) m rt ua)
     = Ok (Spec.canonical_endpoint re_digit u))
  /\ get_endpoint (mk_LogEntry _ ts st (JStr (py "/api/users/123/posts/456?x=1")) m rt ua)
     = Ok (py "/api/users/.../posts/...")
  /\ get_endpoint (mk_LogEntry _ ts st (JStr (py "/api/users/")) m rt ua)
     = Ok (py "/api/users")
  /\ get_endpoint (mk_LogEntry _ ts st (JStr (py "/")) m rt ua) = Ok (py "/").
Proof.
  split; [intros u; apply get_endpoint_refines|].
  rewrite !get_endpoint_refines. repeat split; reflexivity.
Qed.

(** C3, as the specification states it, fails on a url with a decimal
    digit that is not ASCII: [/api/] followed by U+0663 is mapped to
    [/api/...]. *)
Lemma get_endpoint_not_ascii_only :
  get_endpoint (lib := example_lib)
    (@example_record float64 (py "/api/" ++ [arabic_indic_three]) 0.1%float)
  <> Ok (Spec.canonical_endpoint ascii_digit (py "/api/" ++ [arabic_indic_three])).
Proof. vm_compute. intros E. discriminate E. Qed.

(** C4 (amended): the url [/api/v2/item42] is its own endpoint: no digit
    of it follows a [/]. *)
Theorem get_endpoint_item42 {fo : FloatOps} {lib : PyLib}
    (ts : datetime) (st : Z) (m : json) (rt : F) (ua : json) :
  get_endpoint (mk_LogEntry _ ts st (JStr (py "/api/v2/item42")) m rt ua)
  = Ok (py "/api/v2/item42").
Proof. rewrite get_endpoint_refines. reflexivity. Qed.

(** C4, as stated, fails: the endpoint is not [/api/v2/item...]. *)
Lemma get_endpoint_item42_not_collapsed :
  get_endpoint (lib := example_lib) (@example_record float64 (py "/api/v2/item42") 0.1%float)
  <> Ok (py "/api/v2/item...").
Proof. vm_compute. intros E. discriminate E. Qed.

(** ** Timestamps *)

Lemma strip_prefix_app (p r : str) : Spec.strip_prefix p (p ++ r) = Some r.
Proof.
  induction p as [|a p IH]; simpl; [destruct r; reflexivity|].
  rewrite N.eqb_refl. exact IH.
Qed.

Lemma strip_prefix_some (p s r : str) : Spec.strip_prefix p s = Some r -> s = p ++ r.
Proof.
  revert s. induction p as [|a p IH]; intros s; simpl.
  - destruct s; intros E; inversion E; reflexivity.
  - destruct s as [|b s]; [discriminate|].
    destruct (N.eqb a b) eqn:Eab; [|discriminate].
    apply N.eqb_eq in Eab. subst b. intros E. rewrite (IH s E). reflexivity.
Qed.

Lemma endswith_true (s suffix : str) :
  endswith s suffix = true -> s = slice_to_minus (length suffix) s ++ suffix.
Proof.
  unfold endswith, slice_to_minus. intros E.
  apply andb_true_iff in E. destruct E as [_ E]. apply str_eqb_eq in E.
  etransitivity; [symmetry; apply (firstn_skipn (length s - length suffix))|].
  f_equal. exact E.
Qed.

Lemma endswith_app (body suffix : str) : endswith (body ++ suffix) suffix = true.
Proof.
  unfold endswith. rewrite length_app.
  apply andb_true_iff. split; [apply Nat.leb_le; lia|].
  replace (length body + length suffix - length suffix)%nat with (length body) by lia.
  rewrite skipn_app, skipn_all, Nat.sub_diag. apply str_eqb_refl.
Qed.

Lemma strip_suffix_code (s suffix : str) :
  Spec.strip_suffix suffix s
  = if endswith s suffix then Some (slice_to_minus (length suffix) s) else None.
Proof.
  unfold Spec.strip_suffix.
  destruct (endswith s suffix) eqn:E.
  - apply endswith_true in E. rewrite E at 1.
    rewrite rev_app_distr, strip_prefix_app. simpl. rewrite rev_involutive. reflexivity.
  - destruct (Spec.strip_prefix (rev suffix) (rev s)) as [r|] eqn:Er; [|reflexivity].
    apply strip_prefix_some in Er.
    apply (f_equal (@rev _)) in Er. rewrite rev_involutive, rev_app_distr, rev_involutive in Er.
    subst s. rewrite endswith_app in E. discriminate.
Qed.

Lemma replace_chr_remove (c : codepoint) (s : str) :
  replace_chr c [] s = List.filter (fun x => negb (N.eqb x c)) s.
Proof.
  unfold replace_chr. induction s as [|x t IH]; [reflexivity|].
  cbn [flat_map List.filter]. rewrite IH.
  destruct (N.eqb x c); reflexivity.
Qed.

Section TimestampFacts.
Context {fo : FloatOps} {lib : PyLib}.

Lemma parse_timestamp_refines (s : str) :
  _parse_timestamp (JStr s)
  = match Spec.parse_timestamp s with
    | Some instant => Ok instant
    | None => raise_ ValueError []
    end.
Proof.
  unfold _parse_timestamp, Spec.parse_timestamp, Spec.normalize_offset,
    Spec.parse_iso8601, Spec.parse_strict.
  rewrite strip_suffix_code, item0_split_chr, !replace_chr_remove.
  change (length (py "+00:00")) with 6%nat.
  unfold contains_chr, replace_chr.
  destruct (endswith s (py "+00:00")); [|destruct (existsb (N.eqb chr_plus) s)].
  all: match goal with |- context [fromisoformat ?x] => destruct (fromisoformat x) end;
    [reflexivity|].
  all: match goal with |- context [strptime_seconds ?x] => destruct (strptime_seconds x) end;
    reflexivity.
Qed.

End TimestampFacts.



(** ** Dictionaries *)

Section DictFacts.
Context {V : Type}.
Implicit Types (d : dict V) (k : str) (v : V).

Lemma dict_get_set d k v k' :
  dict_get (dict_set d k v) k' = if str_eqb k k' then Some v else dict_get d k'.
Proof.
  induction d as [|[k0 v0] d IH]; simpl.
  - reflexivity.
  - destruct (str_eqb k0 k) eqn:E0; simpl.
    + apply str_eqb_eq in E0. subst k0. destruct (str_eqb k k'); reflexivity.
    + destruct (str_eqb k0 k') eqn:E1.
      * apply str_eqb_eq in E1. subst k'. rewrite str_eqb_sym, E0. reflexivity.
      * exact IH.
Qed.

Lemma dict_get_none d k : dict_get d k = None <-> ~ In k (map fst d).
Proof.
  induction d as [|[k0 v0] d IH]; simpl.
  - tauto.
  - destruct (str_eqb k0 k) eqn:E.
    + apply str_eqb_eq in E. split; [discriminate | tauto].
    + apply str_eqb_neq in E. tauto.
Qed.

Lemma dict_get_in d k v : dict_get d k = Some v -> In (k, v) d.
Proof.
  induction d as [|[k0 v0] d IH]; simpl; [discriminate|].
  destruct (str_eqb k0 k) eqn:E.
  - apply str_eqb_eq in E. intros [= ->]. left. congruence.
  - auto.
Qed.

Lemma in_dict_get d k v : NoDup (map fst d) -> In (k, v) d -> dict_get d k = Some v.
Proof.
  induction d as [|[k0 v0] d IH]; simpl; [tauto|].
  intros Hnd [Hin|Hin].
  - inversion Hin; subst. rewrite str_eqb_refl. reflexivity.
  - inversion Hnd as [|? ? Hk0 Hd]; subst.
    destruct (str_eqb k0 k) eqn:E; [|auto].
    apply str_eqb_eq in E. subst k0.
    exfalso. apply Hk0. apply (in_map fst) in Hin. exact Hin.
Qed.

Lemma dict_set_fresh d k v : dict_get d k = None -> dict_set d k v = d ++ [(k, v)].
Proof.
  induction d as [|[k0 v0] d IH]; simpl; [reflexivity|].
  destruct (str_eqb k0 k); [discriminate|].
  intros H. rewrite (IH H). reflexivity.
Qed.

Lemma dict_set_keys_present d k v :
  dict_get d k <> None -> map fst (dict_set d k v) = map fst d.
Proof.
  induction d as [|[k0 v0] d IH]; simpl; [congruence|].
  destruct (str_eqb k0 k); simpl; [reflexivity|].
  intros H. rewrite (IH H). reflexivity.
Qed.

Lemma dict_set_keys d k v :
  map fst (dict_set d k v)
  = if dict_contains d k then map fst d else map fst d ++ [k].
Proof.
  unfold dict_contains. destruct (dict_get d k) eqn:E.
  - apply dict_set_keys_present. congruence.
  - rewrite (dict_set_fresh _ _ _ E), map_app. reflexivity.
Qed.

Lemma dict_set_nodup d k v : NoDup (map fst d) -> NoDup (map fst (dict_set d k v)).
Proof.
  intros Hnd. rewrite dict_set_keys. unfold dict_contains.
  destruct (dict_get d k) eqn:E; [exact Hnd|].
  apply dict_get_none in E.
  apply NoDup_app; [exact Hnd | constructor; [simpl; tauto | constructor] |].
  intros x Hx [<-|[]]. exact (E Hx).
Qed.

Lemma dict_set_set d k v v' : dict_set (dict_set d k v) k v' = dict_set d k v'.
Proof.
  induction d as [|[k0 v0] d IH]; simpl.
  - rewrite str_eqb_refl. reflexivity.
  - destruct (str_eqb k0 k) eqn:E; simpl; rewrite E; [reflexivity|].
    rewrite IH. reflexivity.
Qed.

Lemma dict_getitem_set d k v : dict_getitem (dict_set d k v) k = Ok v.
Proof. unfold dict_getitem. rewrite dict_get_set, str_eqb_refl. reflexivity. Qed.

Lemma dict_of_items_from (items acc : list (str * V)) :
  NoDup (map fst (acc ++ items)) ->
  fold_left (fun d item => dict_set d (fst item) (snd item)) items acc = acc ++ items.
Proof.
  revert acc. induction items as [|[k v] items IH]; intros acc Hnd; simpl.
  - rewrite app_nil_r. reflexivity.
  - rewrite dict_set_fresh.
    + rewrite IH; rewrite <- app_assoc; [reflexivity | exact Hnd].
    + apply dict_get_none. rewrite map_app in Hnd. simpl in Hnd.
      apply NoDup_remove_2 in Hnd. intros Hin. apply Hnd, in_or_app. left. exact Hin.
Qed.

Lemma dict_of_items_nodup (items : list (str * V)) :
  NoDup (map fst items) -> dict_of_items items = items.
Proof. intros Hnd. apply (dict_of_items_from items []). exact Hnd. Qed.

End DictFacts.

(** ** Sorting *)

Section SortFacts.
Context {A : Type} (lt : A -> A -> bool).

Lemma insert_sorted_perm (x : A) (l : list A) : Permutation (insert_sorted lt x l) (x :: l).
Proof.
  induction l as [|y t IH]; simpl; [reflexivity|].
  destruct (lt x y); [reflexivity|].
  rewrite IH. apply perm_swap.
Qed.

Lemma sorted_snoc (l : list A) (x : A) :
  sorted lt (l ++ [x]) = insert_sorted lt x (sorted lt l).
Proof. unfold sorted. rewrite fold_left_app. reflexivity. Qed.

Lemma sorted_perm (l : list A) : Permutation (sorted lt l) l.
Proof.
  induction l as [|x l IH] using rev_ind; [reflexivity|].
  rewrite sorted_snoc, insert_sorted_perm, IH.
  apply Permutation_cons_append.
Qed.

End SortFacts.

(** ** The report *)

Section GenerateFacts.
Context {fo : FloatOps} {lib : PyLib}.

Lemma typed_has_endpoint (r : LogEntry) : (exists u, url r = JStr u) -> has_endpoint r.
Proof.
  intros [u Hu]. destruct r as [ts st ur m rt ua]. simpl in Hu. subst ur.
  eexists. apply get_endpoint_refines.
Qed.

Lemma accumulate_ok (d : dict stats) (r : LogEntry) (k : str) :
  get_endpoint r = Ok k ->
  accumulate d r = Ok (dict_set d k (add_record (default no_stats (dict_get d k)) r)).
Proof.
  intros Hk. unfold accumulate. rewrite Hk. unfold mbind, mret, result_bind, result_ret.
  unfold dict_contains. destruct (dict_get d k) as [s|] eqn:E; cbn [negb].
  - unfold dict_getitem at 1. rewrite E. rewrite dict_getitem_set, dict_set_set. reflexivity.
  - rewrite !dict_getitem_set, !dict_set_set. reflexivity.
Qed.

Lemma accumulate_raise (d : dict stats) (r : LogEntry) (e : exn) :
  get_endpoint r = Raise e -> accumulate d r = Raise e.
Proof. intros Hr. unfold accumulate. rewrite Hr. reflexivity. Qed.

Lemma for_each_accumulate (records : list LogEntry) (d : dict stats) :
  Forall has_endpoint records -> for_each accumulate records d = Ok (tally d records).
Proof.
  intros H. revert d. induction H as [|r rs [k Hk] _ IH]; intros d; simpl; [reflexivity|].
  rewrite (accumulate_ok d r k Hk). unfold mbind, result_bind. rewrite IH.
  unfold endpoint_of. rewrite Hk. reflexivity.
Qed.

Lemma for_each_accumulate_inv (records : list LogEntry) (d d' : dict stats) :
  for_each accumulate records d = Ok d' -> Forall has_endpoint records.
Proof.
  revert d. induction records as [|r rs IH]; intros d; simpl; [constructor|].
  destruct (get_endpoint r) as [k|e] eqn:Hk.
  - rewrite (accumulate_ok d r k Hk). unfold mbind, result_bind. intros H.
    constructor; [exists k; exact Hk | exact (IH _ H)].
  - rewrite (accumulate_raise d r e Hk). discriminate.
Qed.

Lemma records_of_cons (E : str) (r : LogEntry) (rs : list LogEntry) (k : str) :
  get_endpoint r = Ok k ->
  Spec.records_of E (r :: rs)
  = if str_eqb k E then r :: Spec.records_of E rs else Spec.records_of E rs.
Proof. intros Hk. unfold Spec.records_of. simpl. rewrite Hk. reflexivity. Qed.

(** What the first loop leaves under a key: the fold of the key's
    records, started from what the key held. *)
Lemma tally_get (records : list LogEntry) (d : dict stats) (E : str) :
  Forall has_endpoint records ->
  dict_get (tally d records) E
  = match Spec.records_of E records with
    | [] => dict_get d E
    | _ :: _ =>
        Some (fold_left add_record (Spec.records_of E records)
                (default no_stats (dict_get d E)))
    end.
Proof.
  intros H. revert d. induction H as [|r rs [k Hk] _ IH]; intros d; [reflexivity|].
  unfold tally in *. cbn [fold_left]. rewrite IH. clear IH.
  rewrite (records_of_cons E r rs k Hk).
  unfold endpoint_of. rewrite Hk. rewrite dict_get_set.
  destruct (str_eqb k E) eqn:EkE.
  - apply str_eqb_eq in EkE. subst k.
    destruct (Spec.records_of E rs); reflexivity.
  - reflexivity.
Qed.

Lemma tally_nodup (records : list LogEntry) (d : dict stats) :
  NoDup (map fst d) -> NoDup (map fst (tally d records)).
Proof.
  revert d. induction records as [|r rs IH]; intros d Hd; [exact Hd|].
  unfold tally in *. cbn [fold_left]. apply IH, dict_set_nodup, Hd.
Qed.

Lemma fold_add_record (rs : list LogEntry) (s : stats) :
  fold_left add_record rs s
  = mk_stats _ (fold_left fadd (map response_time rs) (total_time s))
      (count s + Z.of_nat (length rs)).
Proof.
  revert s. induction rs as [|r rs IH]; intros s.
  - simpl. rewrite Z.add_0_r. destruct s; reflexivity.
  - cbn [fold_left map length]. rewrite IH. cbn [add_record total_time count].
    f_equal. lia.
Qed.

(** The accumulator of an endpoint: the sum and the number of its
    records, of which there is at least one. *)
Lemma tally_stats (records : list LogEntry) (E : str) (s : stats) :
  Forall has_endpoint records ->
  In (E, s) (tally [] records) ->
  Spec.records_of E records <> []
  /\ s = mk_stats _ (fold_left fadd (map response_time (Spec.records_of E records)) fzero)
           (Z.of_nat (length (Spec.records_of E records))).
Proof.
  intros H Hin.
  apply in_dict_get in Hin; [|apply tally_nodup; constructor].
  rewrite (tally_get records [] E H) in Hin.
  destruct (Spec.records_of E records) as [|r rs] eqn:Ers; [discriminate|].
  split; [discriminate|].
  injection Hin as <-. rewrite fold_add_record.
  f_equal; try reflexivity. cbn [add_record no_stats count length]. lia.
Qed.

Lemma tally_keys (records : list LogEntry) (E : str) :
  Forall has_endpoint records ->
  In E (map fst (tally [] records)) <-> exists r, In r records /\ get_endpoint r = Ok E.
Proof.
  intros H. split.
  - intros Hin. apply in_map_iff in Hin. destruct Hin as ([k s] & Hk & Hin).
    simpl in Hk. subst k.
    destruct (tally_stats records E s H Hin) as [Hne _].
    destruct (Spec.records_of E records) as [|r rs] eqn:Ers; [congruence|].
    assert (In r (Spec.records_of E records)) as Hr by (rewrite Ers; left; reflexivity).
    apply filter_In in Hr. destruct Hr as [Hr Hk]. exists r. split; [exact Hr|].
    destruct (get_endpoint r) as [k|]; [|discriminate].
    apply str_eqb_eq in Hk. congruence.
  - intros (r & Hr & Hk).
    destruct (dict_get (tally [] records) E) as [s|] eqn:Eg.
    + apply dict_get_in in Eg. apply (in_map fst) in Eg. exact Eg.
    + exfalso. rewrite (tally_get records [] E H) in Eg.
      assert (In r (Spec.records_of E records)) as Hin.
      { apply filter_In. split; [exact Hr|]. rewrite Hk. apply str_eqb_refl. }
      destruct (Spec.records_of E records); [destruct Hin | discriminate].
Qed.

Lemma averaged_keys (d : dict stats) : map fst (averaged d) = map fst d.
Proof. unfold averaged. rewrite map_map. reflexivity. Qed.

Lemma average_ok (acc : dict report_entry) (k : str) (s : stats) :
  count s <> 0%Z ->
  average acc (k, s)
  = Ok (dict_set acc k (mk_entry _ (count s) (fdiv_int (total_time s) (count s)))).
Proof.
  intros Hs. unfold average, truediv. cbn [fst snd].
  apply Z.eqb_neq in Hs. rewrite Hs. reflexivity.
Qed.

Lemma for_each_average (d : dict stats) (acc : dict report_entry) :
  (forall item, In item d -> count (snd item) <> 0%Z) ->
  NoDup (map fst acc ++ map fst d) ->
  for_each average d acc = Ok (acc ++ averaged d).
Proof.
  revert acc. induction d as [|[k s] d IH]; intros acc Hc Hnd.
  - simpl. rewrite app_nil_r. reflexivity.
  - cbn [for_each].
    assert (count s <> 0%Z) as Hs by (apply (Hc (k, s)); left; reflexivity).
    rewrite (average_ok acc k s Hs). unfold mbind, result_bind.
    rewrite dict_set_fresh.
    + rewrite IH.
      * rewrite <- app_assoc. reflexivity.
      * intros item Hi. apply Hc. right. exact Hi.
      * rewrite map_app, <- app_assoc. exact Hnd.
    + apply dict_get_none. simpl in Hnd. apply NoDup_remove_2 in Hnd.
      intros Hin. apply Hnd, in_or_app. left. exact Hin.
Qed.

Lemma tally_counts (records : list LogEntry) (item : str * stats) :
  Forall has_endpoint records -> In item (tally [] records) -> (1 <= count (snd item))%Z.
Proof.
  intros H Hin. destruct item as [E s].
  destruct (tally_stats records E s H Hin) as [Hne ->]. simpl.
  destruct (Spec.records_of E records); [congruence | simpl length; lia].
Qed.

Lemma sorted_keys_nodup (d : dict report_entry) :
  NoDup (map fst d) -> NoDup (map fst (sorted item_lt d)).
Proof.
  apply Permutation_NoDup. apply Permutation_map. symmetry. apply sorted_perm.
Qed.

(** The report is the sorted list of the averages of the tallies. *)
Lemma generate_ok (records : list LogEntry) :
  Forall has_endpoint records ->
  generate records = Ok (sorted item_lt (averaged (tally [] records))).
Proof.
  intros H. unfold generate. rewrite (for_each_accumulate records [] H).
  unfold mbind, mret, result_bind, result_ret.
  rewrite for_each_average.
  - simpl app. rewrite dict_of_items_nodup; [reflexivity|].
    apply sorted_keys_nodup. rewrite averaged_keys. apply tally_nodup. constructor.
  - intros item Hin. pose proof (tally_counts records item H Hin). lia.
  - simpl. apply tally_nodup. constructor.
Qed.

End GenerateFacts.

(** C1: for records whose [url] is a string, as the record model types
    it, [generate] returns a mapping with one entry for each canonical
    endpoint of the records and no other; the entry's count is the number
    of records of the endpoint, and its average is their mean response
    time (the float sum, taken in input order from [0.0], over the count).
    The empty sequence gives the empty mapping. *)
Theorem generate_counts_and_means {fo : FloatOps} {lib : PyLib} (records : list LogEntry)
    (Htyped : Forall (fun r => exists u, url r = JStr u) records) :
  generate [] = Ok []
  /\ exists report,
       generate records = Ok report
       /\ NoDup (map fst report)
       /\ (forall E, In E (map fst report)
                     <-> exists r, In r records /\ get_endpoint r = Ok E)
       /\ (forall E entry, In (E, entry) report ->
             entry_count entry = Z.of_nat (length (Spec.records_of E records))
             /\ avg_response_time entry
                = Spec.mean (map response_time (Spec.records_of E records))).
Proof.
  split; [reflexivity|].
  assert (Forall has_endpoint records) as H.
  { eapply Forall_impl; [|exact Htyped]. intros r. apply typed_has_endpoint. }
  exists (sorted item_lt (averaged (tally [] records))).
  split; [apply generate_ok, H|].
  split; [apply sorted_keys_nodup; rewrite averaged_keys; apply tally_nodup; constructor|].
  split.
  - intros E. rewrite <- (tally_keys records E H), <- averaged_keys.
    split; apply Permutation_in, Permutation_map;
      [apply sorted_perm | symmetry; apply sorted_perm].
  - intros E entry Hin.
    apply (Permutation_in _ (sorted_perm item_lt _)) in Hin.
    apply in_map_iff in Hin. destruct Hin as ([k s] & Heq & Hin).
    cbn [fst snd] in Heq. injection Heq as -> <-.
    destruct (tally_stats records E s H Hin) as [_ ->].
    cbn [entry_count avg_response_time total_time count].
    unfold Spec.mean. rewrite length_map. split; reflexivity.
Qed.

Lemma generate_counts_and_means_witness :
  exists report,
    generate (lib := example_lib)
      [@example_record float64 (py "/api/users") 0.1%float;
       @example_record float64 (py "/api/posts") 0.2%float;
       @example_record float64 (py "/api/users") 0.3%float] = Ok report
    /\ forall entry, In (py "/api/users", entry) report ->
         entry_count entry = 2%Z /\ avg_response_time entry = 0.2%float.
Proof.
  destruct (generate_counts_and_means (lib := example_lib)
              [@example_record float64 (py "/api/users") 0.1%float;
               @example_record float64 (py "/api/posts") 0.2%float;
               @example_record float64 (py "/api/users") 0.3%float])
    as (_ & report & Hgen & _ & _ & Hentries).
  - repeat constructor; eexists; reflexivity.
  - exists report. split; [exact Hgen|].
    intros entry Hin. exact (Hentries _ _ Hin).
Defined.

(** C9: when the first loop of [generate] has run, every key of the
    accumulator has a count of at least one, so no division of the second
    loop is by zero: the loop runs to its end, and [generate] raises no
    [ZeroDivisionError]. *)
Theorem accumulated_counts_positive {fo : FloatOps} {lib : PyLib}
    (records : list LogEntry) (endpoint_stats : dict stats)
    (Hloop : for_each accumulate records [] = Ok endpoint_stats) :
  (forall E s, In (E, s) endpoint_stats ->
     (1 <= count s)%Z /\ truediv (total_time s) (count s) = Ok (fdiv_int (total_time s) (count s)))
  /\ (exists result_, for_each average endpoint_stats [] = Ok result_)
  /\ (forall e, generate records = Raise e -> exn_cls e <> ZeroDivisionError).
Proof.
  pose proof (for_each_accumulate_inv records [] endpoint_stats Hloop) as H.
  rewrite (for_each_accumulate records [] H) in Hloop. injection Hloop as <-.
  split; [|split].
  - intros E s Hin. pose proof (tally_counts records (E, s) H Hin) as Hc. simpl in Hc.
    split; [exact Hc|]. unfold truediv.
    assert ((count s =? 0)%Z = false) as -> by (apply Z.eqb_neq; lia). reflexivity.
  - exists ([] ++ averaged (tally [] records)). apply for_each_average.
    + intros item Hin. pose proof (tally_counts records item H Hin). lia.
    + simpl. apply tally_nodup. constructor.
  - intros e He. rewrite (generate_ok records H) in He. discriminate.
Qed.

Lemma accumulated_counts_positive_witness :
  Forall (fun item => (1 <= count (snd item))%Z)
    (tally (lib := example_lib) []
       [@example_record float64 (py "/api/users") 0.1%float;
        @example_record float64 (py "/api/users") 0.2%float]).
Proof.
  apply Forall_forall. intros [E s] Hin.
  exact (proj1 (proj1 (accumulated_counts_positive (lib := example_lib)
           [@example_record float64 (py "/api/users") 0.1%float;
            @example_record float64 (py "/api/users") 0.2%float] _ eq_refl) E s Hin)).
Defined.

(** ** The order of the report *)

Section BeforeFacts.
Context {A : Type}.
Implicit Types (l : list A) (a b x : A).

Lemma before_in l a b : before l a b -> In a l /\ In b l.
Proof.
  induction l as [|x t IH]; simpl; [tauto|].
  intros [[-> Hb]|H]; [tauto|]. destruct (IH H). tauto.
Qed.

Lemma before_app l1 l2 a b :
  before (l1 ++ l2) a b <-> before l1 a b \/ (In a l1 /\ In b l2) \/ before l2 a b.
Proof.
  induction l1 as [|x t IH]; simpl; [tauto|].
  rewrite IH, in_app_iff. clear IH. split.
  - intros [[-> [Hb|Hb]]|[H|[[Ha Hb]|H]]]; tauto.
  - intros [[[-> Hb]|H]|[[[->|Ha] Hb]|H]]; tauto.
Qed.

Lemma before_snoc l x a b :
  before (l ++ [x]) a b <-> before l a b \/ (In a l /\ b = x).
Proof. rewrite before_app. simpl. intuition congruence. Qed.

(** [before] is "at a smaller index". *)
Lemma before_precedes l a b :
  before l a b
  <-> exists i j, (i < j)%nat /\ nth_error l i = Some a /\ nth_error l j = Some b.
Proof.
  induction l as [|x t IH]; simpl.
  - split; [tauto|]. intros (i & j & _ & Hi & _). destruct i; discriminate.
  - rewrite IH. clear IH. split.
    + intros [[-> Hb]|(i & j & Hij & Hi & Hj)].
      * apply In_nth_error in Hb. destruct Hb as [j Hj].
        exists 0%nat, (S j). split; [lia|]. split; [reflexivity | exact Hj].
      * exists (S i), (S j). split; [lia|]. split; assumption.
    + intros (i & j & Hij & Hi & Hj).
      destruct j as [|j]; [lia|]. simpl in Hj.
      destruct i as [|i]; simpl in Hi.
      * left. split; [congruence|]. eapply nth_error_In, Hj.
      * right. exists i, j. split; [lia|]. split; assumption.
Qed.

Lemma before_irrefl_nodup l a b : NoDup l -> before l a b -> a <> b.
Proof.
  induction l as [|x t IH]; simpl; [tauto|].
  intros Hnd [[-> Hb]|H].
  - inversion Hnd; subst. congruence.
  - inversion Hnd; subst. auto.
Qed.

End BeforeFacts.

Lemma before_map {A B : Type} (f : A -> B) (l : list A) (a b : A) :
  before l a b -> before (map f l) (f a) (f b).
Proof.
  induction l as [|x t IH]; simpl; [tauto|].
  intros [[-> Hb]|H]; [left | right; auto].
  split; [reflexivity | apply in_map, Hb].
Qed.

Lemma before_map_inv {A B : Type} (f : A -> B) (l : list A) (a b : A) :
  NoDup (map f l) -> In a l -> In b l ->
  before (map f l) (f a) (f b) -> before l a b.
Proof.
  induction l as [|x t IH]; simpl; [tauto|].
  intros Hnd Ha Hb H. inversion Hnd as [|? ? Hx Ht]; subst.
  destruct H as [[Hfx Hfb]|H].
  - left. destruct Ha as [->|Ha].
    + split; [reflexivity|]. destruct Hb as [->|Hb]; [|exact Hb].
      exfalso. exact (Hx Hfb).
    + exfalso. apply Hx. rewrite Hfx. apply in_map, Ha.
  - destruct (before_in _ _ _ H) as [Hfa Hfb].
    right. apply IH; [exact Ht| | |exact H].
    + destruct Ha as [->|Ha]; [exfalso; exact (Hx Hfa) | exact Ha].
    + destruct Hb as [->|Hb]; [exfalso; exact (Hx Hfb) | exact Hb].
Qed.

(** Insertion sort by a comparison that is a strict weak order on the
    elements that pass [ok]. *)
Section StableSort.
Context {A : Type} (lt : A -> A -> bool) (ok : A -> Prop).
Hypothesis lt_irrefl : forall a, ok a -> lt a a = false.
Hypothesis lt_trans :
  forall a b c, ok a -> ok b -> ok c -> lt a b = true -> lt b c = true -> lt a c = true.
Hypothesis lt_cotrans :
  forall a b c, ok a -> ok b -> ok c -> lt a c = true -> lt a b = true \/ lt b c = true.

Lemma lt_asym (a b : A) : ok a -> ok b -> lt a b = true -> lt b a = false.
Proof.
  intros Ha Hb Hab. destruct (lt b a) eqn:Hba; [|reflexivity].
  rewrite <- (lt_irrefl a Ha). symmetry. exact (lt_trans a b a Ha Hb Ha Hab Hba).
Qed.

Lemma ordered_tail (x : A) (l : list A) : ordered lt (x :: l) -> ordered lt l.
Proof. intros H a b Hab. apply H. right. exact Hab. Qed.

Lemma insert_sorted_in (x a : A) (l : list A) :
  In a (insert_sorted lt x l) <-> a = x \/ In a l.
Proof.
  split; intros H.
  - apply (Permutation_in _ (insert_sorted_perm lt x l)) in H. simpl in H.
    destruct H; [left; congruence | right; assumption].
  - apply (Permutation_in _ (Permutation_sym (insert_sorted_perm lt x l))). simpl.
    destruct H; [left; congruence | right; assumption].
Qed.

(** Where the new element lands among those placed before it. *)
Lemma insert_sorted_before (x : A) (l : list A) (a b : A) :
  ok x -> Forall ok l -> ordered lt l -> ~ In x l ->
  (before (insert_sorted lt x l) a b
   <-> before l a b
       \/ (a = x /\ In b l /\ lt x b = true)
       \/ (In a l /\ b = x /\ lt x a = false)).
Proof.
  intros Hokx. induction l as [|y t IH]; intros Hok Hord Hx.
  - simpl. tauto.
  - pose proof (Forall_inv Hok) as Hoky. pose proof (Forall_inv_tail Hok) as Hokt.
    cbn [insert_sorted]. destruct (lt x y) eqn:Hxy.
    + (* x goes in front: it is smaller than every element *)
      assert (forall z, In z (y :: t) -> lt x z = true) as Hall.
      { intros z [<-|Hz]; [exact Hxy|].
        assert (ok z) as Hokz by (exact (proj1 (Forall_forall ok t) Hokt z Hz)).
        destruct (lt_cotrans x z y Hokx Hokz Hoky Hxy) as [H|H]; [exact H|].
        assert (lt z y = false) as Hzy by (apply Hord; left; split; [reflexivity | exact Hz]).
        congruence. }
      change (before (x :: y :: t) a b) with ((x = a /\ In b (y :: t)) \/ before (y :: t) a b).
      split.
      * intros [[<- Hb]|H]; [|tauto].
        right. left. split; [reflexivity|]. split; [exact Hb | apply Hall, Hb].
      * intros [H|[(-> & Hb & _)|(Ha & -> & Hf)]]; [tauto | tauto |].
        rewrite (Hall a Ha) in Hf. discriminate.
    + (* x goes behind y *)
      change (before (y :: insert_sorted lt x t) a b)
        with ((y = a /\ In b (insert_sorted lt x t)) \/ before (insert_sorted lt x t) a b).
      rewrite insert_sorted_in.
      rewrite (IH Hokt (ordered_tail y t Hord)) by (simpl in Hx; tauto).
      simpl in Hx. simpl. split.
      * intros [[<- [->|Hb]]|[H|[(-> & Hb & Hl)|(Ha & -> & Hf)]]]; tauto.
      * intros [[[<- Hb]|H]|[(-> & [<-|Hb] & Hl)|([<-|Ha] & -> & Hf)]];
          first [tauto | congruence].
Qed.

Lemma insert_sorted_ordered (x : A) (l : list A) :
  ok x -> Forall ok l -> ordered lt l -> ~ In x l -> ordered lt (insert_sorted lt x l).
Proof.
  intros Hokx Hok Hord Hx a b H. apply (insert_sorted_before x l a b Hokx Hok Hord Hx) in H.
  destruct H as [H|[(-> & Hb & Hl)|(_ & -> & Hf)]].
  - apply Hord, H.
  - apply lt_asym; [exact Hokx | exact (proj1 (Forall_forall ok l) Hok b Hb) | exact Hl].
  - exact Hf.
Qed.

Lemma sorted_in (l : list A) (a : A) : In a (sorted lt l) <-> In a l.
Proof.
  split; apply Permutation_in; [|symmetry]; apply sorted_perm.
Qed.

Lemma sorted_ok (l : list A) : Forall ok l -> Forall ok (sorted lt l).
Proof.
  intros H. apply Forall_forall. intros a Ha. apply (proj1 (sorted_in l a)) in Ha.
  exact (proj1 (Forall_forall ok l) H a Ha).
Qed.

Lemma sorted_ordered (l : list A) : Forall ok l -> NoDup l -> ordered lt (sorted lt l).
Proof.
  induction l as [|x l IH] using rev_ind; intros Hok Hnd.
  - intros a b [].
  - rewrite sorted_snoc.
    apply NoDup_remove in Hnd. rewrite app_nil_r in Hnd. destruct Hnd as [Hl Hx].
    apply Forall_app in Hok. destruct Hok as [Hokl Hokx].
    apply insert_sorted_ordered;
      [exact (Forall_inv Hokx) | apply sorted_ok, Hokl | apply IH; assumption
      | rewrite sorted_in; exact Hx].
Qed.

(** A stable sort: of two elements the smaller comes first, and of two
    that compare alike the one that came first. *)
Lemma sorted_before (l : list A) (a b : A) :
  Forall ok l -> NoDup l -> In a l -> In b l -> a <> b ->
  (before (sorted lt l) a b
   <-> lt a b = true \/ (lt b a = false /\ before l a b)).
Proof.
  induction l as [|x l IH] using rev_ind; intros Hok Hnd Ha Hb Hab; [destruct Ha|].
  apply NoDup_remove in Hnd. rewrite app_nil_r in Hnd. destruct Hnd as [Hl Hx].
  apply Forall_app in Hok. destruct Hok as [Hokl Hokx]. apply Forall_inv in Hokx.
  rewrite sorted_snoc, insert_sorted_before, before_snoc, !sorted_in;
    [|exact Hokx | apply sorted_ok, Hokl | apply sorted_ordered; assumption
     | rewrite sorted_in; exact Hx].
  apply in_app_iff in Ha, Hb. simpl in Ha, Hb.
  destruct Ha as [Ha|[Ha|[]]], Hb as [Hb|[Hb|[]]].
  - specialize (IH Hokl Hl Ha Hb Hab).
    assert (a <> x) by congruence. assert (b <> x) by congruence.
    rewrite IH. tauto.
  - subst b. split.
    + intros [H|[(Hax & _)|(_ & _ & Hf)]].
      * apply before_in in H. rewrite !sorted_in in H. tauto.
      * congruence.
      * destruct (lt a x) eqn:E; [left; reflexivity | right]. tauto.
    + intros [H|[Hf _]]; right; right.
      * split; [exact Ha|]. split; [reflexivity|].
        apply lt_asym; [exact (proj1 (Forall_forall ok l) Hokl a Ha) | exact Hokx | exact H].
      * tauto.
  - subst a. split.
    + intros [H|[(_ & _ & Hl')|(Hxl & _)]].
      * apply before_in in H. rewrite !sorted_in in H. tauto.
      * left. exact Hl'.
      * tauto.
    + intros [H|[_ [H|[Hxl _]]]].
      * right. left. tauto.
      * apply before_in in H. tauto.
      * tauto.
  - congruence.
Qed.

End StableSort.

Section KeyOrder.
Context {fo : FloatOps} (ok : F -> Prop) {ord : FloatOrder ok}.

Lemma key_lt_true (a b : Z * F) :
  ok (snd a) -> ok (snd b) ->
  (key_lt a b = true
   <-> (fst a < fst b)%Z \/ (fst a = fst b /\ flt (snd a) (snd b) = true)).
Proof.
  intros Ha Hb. unfold key_lt. destruct (fst a =? fst b)%Z eqn:E; cbn [negb].
  - apply Z.eqb_eq in E. rewrite (feq_incomparable _ _ Ha Hb).
    destruct (flt (snd a) (snd b)), (flt (snd b) (snd a)); cbn; split;
      first [tauto | intuition (discriminate || lia)].
  - apply Z.eqb_neq in E. rewrite Z.ltb_lt. intuition lia.
Qed.

Lemma key_lt_false (a b : Z * F) :
  ok (snd a) -> ok (snd b) ->
  (key_lt a b = false
   <-> (fst b <= fst a)%Z /\ (fst a = fst b -> flt (snd a) (snd b) = false)).
Proof.
  intros Ha Hb. destruct (key_lt a b) eqn:E.
  - apply (key_lt_true a b Ha Hb) in E. split; [discriminate|].
    intros [Hle Hf]. destruct E as [E|[E1 E2]]; [lia|]. rewrite (Hf E1) in E2. discriminate.
  - split; [|reflexivity]. intros _.
    assert (~ ((fst a < fst b)%Z \/ (fst a = fst b /\ flt (snd a) (snd b) = true))) as Hn.
    { rewrite <- (key_lt_true a b Ha Hb), E. discriminate. }
    split; [lia|]. intros Heq. destruct (flt (snd a) (snd b)); [tauto | reflexivity].
Qed.

Lemma item_lt_irrefl (x : str * report_entry) :
  ok (avg_response_time (snd x)) -> item_lt x x = false.
Proof.
  intros Hx. unfold item_lt. apply (key_lt_false (sort_key x) (sort_key x) Hx Hx).
  split; [lia|]. intros _. apply flt_irrefl, Hx.
Qed.

Lemma item_lt_trans (x y z : str * report_entry) :
  ok (avg_response_time (snd x)) -> ok (avg_response_time (snd y)) ->
  ok (avg_response_time (snd z)) ->
  item_lt x y = true -> item_lt y z = true -> item_lt x z = true.
Proof.
  intros Hx Hy Hz. unfold item_lt.
  rewrite (key_lt_true (sort_key x) (sort_key y) Hx Hy),
          (key_lt_true (sort_key y) (sort_key z) Hy Hz),
          (key_lt_true (sort_key x) (sort_key z) Hx Hz).
  intros [H1|[H1 F1]] [H2|[H2 F2]]; [left; lia | left; lia | left; lia |].
  right. split; [congruence|]. exact (flt_trans _ _ _ Hx Hy Hz F1 F2).
Qed.

Lemma item_lt_cotrans (x y z : str * report_entry) :
  ok (avg_response_time (snd x)) -> ok (avg_response_time (snd y)) ->
  ok (avg_response_time (snd z)) ->
  item_lt x z = true -> item_lt x y = true \/ item_lt y z = true.
Proof.
  intros Hx Hy Hz. unfold item_lt.
  rewrite (key_lt_true (sort_key x) (sort_key y) Hx Hy),
          (key_lt_true (sort_key y) (sort_key z) Hy Hz),
          (key_lt_true (sort_key x) (sort_key z) Hx Hz).
  destruct (Z.lt_total (fst (sort_key x)) (fst (sort_key y))) as [H|[H|H]];
    [tauto| |intros [H1|[H1 _]]; right; left; lia].
  destruct (Z.lt_total (fst (sort_key y)) (fst (sort_key z))) as [H'|[H'|H']];
    [tauto| |intros [H1|[H1 _]]; lia].
  intros [H1|[H1 F1]]; [lia|].
  destruct (flt_cotrans _ (snd (sort_key y)) _ Hx Hy Hz F1); tauto.
Qed.

End KeyOrder.

Section ReportOrder.
Context {fo : FloatOps} {lib : PyLib}.

Lemma first_record_cons (E : str) (r : LogEntry) (rs : list LogEntry) (k : str) :
  get_endpoint r = Ok k ->
  Spec.first_record E (r :: rs)
  = if str_eqb k E then 0%nat else S (Spec.first_record E rs).
Proof. intros Hk. simpl. rewrite Hk. reflexivity. Qed.

(** The keys of the accumulator stand in the order in which the endpoints
    first occur. *)
Lemma tally_order (records : list LogEntry) (d : dict stats) (A B : str) :
  Forall has_endpoint records -> NoDup (map fst d) -> A <> B ->
  In A (map fst (tally d records)) -> In B (map fst (tally d records)) ->
  (before (map fst (tally d records)) A B
   <-> before (map fst d) A B
       \/ (In A (map fst d) /\ ~ In B (map fst d))
       \/ (~ In A (map fst d) /\ ~ In B (map fst d)
           /\ (Spec.first_record A records < Spec.first_record B records)%nat)).
Proof.
  intros H. revert d. induction H as [|r rs [k Hk] _ IH]; intros d Hnd Hab HA HB.
  - unfold tally in *. simpl in *. tauto.
  - change (tally d (r :: rs)) with
      (tally (dict_set d (endpoint_of r)
                (add_record (default no_stats (dict_get d (endpoint_of r))) r)) rs) in *.
    unfold endpoint_of in *. rewrite Hk in *.
    set (d1 := dict_set d k _) in *.
    rewrite (IH d1 (dict_set_nodup _ _ _ Hnd) Hab HA HB).
    rewrite !(first_record_cons _ r rs k Hk).
    assert (map fst d1 = if dict_contains d k then map fst d else map fst d ++ [k]) as ->
      by apply dict_set_keys.
    pose proof (before_in (map fst d) A B) as Hin.
    unfold dict_contains. destruct (dict_get d k) as [s|] eqn:Eg.
    + assert (In k (map fst d)) as Hkd.
      { apply dict_get_in in Eg. apply (in_map fst) in Eg. exact Eg. }
      destruct (str_eqb k A) eqn:EA; [apply str_eqb_eq in EA; subst; tauto|].
      destruct (str_eqb k B) eqn:EB; [apply str_eqb_eq in EB; subst; tauto|].
      intuition lia.
    + apply dict_get_none in Eg.
      rewrite before_snoc, !in_app_iff. simpl.
      destruct (str_eqb k A) eqn:EA, (str_eqb k B) eqn:EB.
      * apply str_eqb_eq in EA, EB. congruence.
      * apply str_eqb_eq in EA. apply (proj1 (str_eqb_neq _ _)) in EB.
        subst k. intuition (try lia; try congruence).
      * apply (proj1 (str_eqb_neq _ _)) in EA. apply str_eqb_eq in EB.
        subst k. intuition (try lia; try congruence).
      * apply (proj1 (str_eqb_neq _ _)) in EA, EB.
        intuition (try lia; try congruence).
Qed.

End ReportOrder.

Section ReportOrderTheorem.
Context {fo : FloatOps} {lib : PyLib} (ok : F -> Prop) {ord : FloatOrder ok}.

Lemma averaged_nodup (d : dict stats) : NoDup (map fst d) -> NoDup (averaged d).
Proof. intros H. apply (NoDup_map_inv fst). rewrite averaged_keys. exact H. Qed.

(** The order of the report, for records that all have an endpoint and
    averages that all pass [ok]. *)
Lemma report_order (records : list LogEntry) (a b : str * report_entry) :
  Forall has_endpoint records ->
  Forall (fun item => ok (avg_response_time (snd item)))
    (sorted item_lt (averaged (tally [] records))) ->
  In a (sorted item_lt (averaged (tally [] records))) ->
  In b (sorted item_lt (averaged (tally [] records))) ->
  fst a <> fst b ->
  (before (sorted item_lt (averaged (tally [] records))) a b
   <-> (entry_count (snd a) > entry_count (snd b))%Z
       \/ (entry_count (snd a) = entry_count (snd b)
           /\ flt (avg_response_time (snd a)) (avg_response_time (snd b)) = true)
       \/ (entry_count (snd a) = entry_count (snd b)
           /\ feq (avg_response_time (snd a)) (avg_response_time (snd b)) = true
           /\ (Spec.first_record (fst a) records < Spec.first_record (fst b) records)%nat)).
Proof.
  intros H Hok Ha Hb Hab.
  assert (NoDup (map fst (tally [] records))) as Hnd by (apply tally_nodup; constructor).
  assert (ok (avg_response_time (snd a))) as Hoka
    by exact (proj1 (Forall_forall _ _) Hok a Ha).
  assert (ok (avg_response_time (snd b))) as Hokb
    by exact (proj1 (Forall_forall _ _) Hok b Hb).
  assert (Forall (fun item => ok (avg_response_time (snd item)))
            (averaged (tally [] records))) as Hok'.
  { apply Forall_forall. intros x Hx.
    apply (proj1 (Forall_forall _ _) Hok x). apply (proj2 (sorted_in item_lt _ x)), Hx. }
  apply sorted_in in Ha, Hb.
  rewrite (sorted_before item_lt (fun item => ok (avg_response_time (snd item)))
             (item_lt_irrefl ok) (item_lt_trans ok) (item_lt_cotrans ok)
             _ a b Hok' (averaged_nodup _ Hnd) Ha Hb) by congruence.
  assert (before (averaged (tally [] records)) a b
          <-> (Spec.first_record (fst a) records < Spec.first_record (fst b) records)%nat)
    as ->.
  { assert (In (fst a) (map fst (tally [] records))) as Hka
      by (rewrite <- averaged_keys; apply in_map, Ha).
    assert (In (fst b) (map fst (tally [] records))) as Hkb
      by (rewrite <- averaged_keys; apply in_map, Hb).
    pose proof (tally_order records [] (fst a) (fst b) H (NoDup_nil _) Hab Hka Hkb) as Ht.
    simpl in Ht. split.
    - intros Hbef. apply (before_map fst) in Hbef. rewrite averaged_keys in Hbef.
      apply Ht in Hbef. tauto.
    - intros Hlt. apply (before_map_inv fst); [rewrite averaged_keys; exact Hnd | exact Ha | exact Hb |].
      rewrite averaged_keys. apply Ht. tauto. }
  unfold item_lt.
  rewrite (key_lt_true ok (sort_key a) (sort_key b) Hoka Hokb),
          (key_lt_false ok (sort_key b) (sort_key a) Hokb Hoka).
  unfold sort_key. cbn [fst snd].
  rewrite (feq_incomparable (avg_response_time (snd a)) (avg_response_time (snd b)) Hoka Hokb).
  destruct (flt (avg_response_time (snd a)) (avg_response_time (snd b))) eqn:Fab,
           (flt (avg_response_time (snd b)) (avg_response_time (snd a))) eqn:Fba;
    cbn [negb andb]; intuition (try lia; try discriminate).
Qed.

End ReportOrderTheorem.

(** ** Binary64 floats that are not NaN *)

Lemma SFltb_rank (x y : spec_float) :
  x <> S754_nan -> y <> S754_nan ->
  (SFltb x y = true <-> rank_lt (sf_rank x) (sf_rank y)).
Proof.
  intros Hx Hy. unfold SFltb, rank_lt.
  destruct x as [sx|sx| |sx mx ex], y as [sy|sy| |sy my ey]; try congruence;
    try destruct sx; try destruct sy; cbn [SFcompare sf_rank fst snd];
    try (split; [discriminate | lia]);
    try (split; [intros _; lia | reflexivity]).
  - change (Pos.compare_cont Eq mx my) with (Pos.compare mx my).
    destruct (Z.compare_spec ex ey), (Pos.compare_spec mx my); cbn [CompOpp];
      split; first [discriminate | lia | reflexivity | intros _; lia].
  - change (Pos.compare_cont Eq mx my) with (Pos.compare mx my).
    destruct (Z.compare_spec ex ey), (Pos.compare_spec mx my);
      split; first [discriminate | lia | reflexivity | intros _; lia].
Qed.

Lemma SFeqb_rank (x y : spec_float) :
  x <> S754_nan -> y <> S754_nan ->
  (SFeqb x y = true <-> sf_rank x = sf_rank y).
Proof.
  intros Hx Hy. unfold SFeqb.
  destruct x as [sx|sx| |sx mx ex], y as [sy|sy| |sy my ey]; try congruence;
    try destruct sx; try destruct sy; cbn [SFcompare sf_rank];
    try (split; [discriminate | intros [=]; lia]);
    try (split; [reflexivity | reflexivity]).
  - change (Pos.compare_cont Eq mx my) with (Pos.compare mx my).
    destruct (Z.compare_spec ex ey), (Pos.compare_spec mx my); cbn [CompOpp];
      split;
      first [discriminate | intros [=]; lia | intros _; f_equal; [f_equal|]; lia | reflexivity].
  - change (Pos.compare_cont Eq mx my) with (Pos.compare mx my).
    destruct (Z.compare_spec ex ey), (Pos.compare_spec mx my);
      split;
      first [discriminate | intros [=]; lia | intros _; f_equal; [f_equal|]; lia | reflexivity].
Qed.

Lemma not_nan_spec (x : float) : PrimFloat.is_nan x = false -> Prim2SF x <> S754_nan.
Proof.
  unfold PrimFloat.is_nan. rewrite eqb_spec. intros H E. rewrite E in H. discriminate H.
Qed.

Lemma float_ltb_rank (x y : float) :
  PrimFloat.is_nan x = false -> PrimFloat.is_nan y = false ->
  (PrimFloat.ltb x y = true <-> rank_lt (sf_rank (Prim2SF x)) (sf_rank (Prim2SF y))).
Proof. intros Hx Hy. rewrite ltb_spec. apply SFltb_rank; apply not_nan_spec; assumption. Qed.

Lemma float_eqb_rank (x y : float) :
  PrimFloat.is_nan x = false -> PrimFloat.is_nan y = false ->
  (PrimFloat.eqb x y = true <-> sf_rank (Prim2SF x) = sf_rank (Prim2SF y)).
Proof. intros Hx Hy. rewrite eqb_spec. apply SFeqb_rank; apply not_nan_spec; assumption. Qed.

Lemma float_ltb_rank_false (x y : float) :
  PrimFloat.is_nan x = false -> PrimFloat.is_nan y = false ->
  (PrimFloat.ltb x y = false <-> ~ rank_lt (sf_rank (Prim2SF x)) (sf_rank (Prim2SF y))).
Proof.
  intros Hx Hy. rewrite <- (float_ltb_rank x y Hx Hy).
  destruct (PrimFloat.ltb x y); split; congruence.
Qed.

(** The binary64 floats that are not NaN are ordered by [<] as numbers
    are, with [==] for the floats of the same place. *)
Lemma float64_order : @FloatOrder float64 (fun x => PrimFloat.is_nan x = false).
Proof.
  split; cbn [F flt feq float64].
  - intros a Ha. apply (float_ltb_rank_false a a Ha Ha). unfold rank_lt. lia.
  - intros a b c Ha Hb Hc.
    rewrite (float_ltb_rank a b Ha Hb), (float_ltb_rank b c Hb Hc), (float_ltb_rank a c Ha Hc).
    unfold rank_lt. lia.
  - intros a b c Ha Hb Hc.
    rewrite (float_ltb_rank a b Ha Hb), (float_ltb_rank b c Hb Hc), (float_ltb_rank a c Ha Hc).
    unfold rank_lt. lia.
  - intros a b Ha Hb. apply eq_true_iff_eq.
    rewrite andb_true_iff, !negb_true_iff.
    rewrite (float_eqb_rank a b Ha Hb), (float_ltb_rank_false a b Ha Hb),
            (float_ltb_rank_false b a Hb Ha).
    destruct (sf_rank (Prim2SF a)) as [[a1 a2] a3], (sf_rank (Prim2SF b)) as [[b1 b2] b3].
    unfold rank_lt. cbn [fst snd]. split.
    + intros [= -> -> ->]. lia.
    + intros [H1 H2]. f_equal; [f_equal|]; lia.
Qed.

(** The floats as a whole are not ordered so: NaN is not equal to
    itself. *)
Lemma float64_nan_unordered : ~ @FloatOrder float64 (fun _ => True).
Proof.
  intros ord.
  pose proof (@feq_incomparable float64 _ ord PrimFloat.nan PrimFloat.nan I I) as H.
  discriminate H.
Qed.

(** C2 (amended): for records whose [url] is a string, [generate] returns
    a report, and when no average of it is NaN the report is ordered so
    that for any two endpoints A and B of it, A precedes B iff count(A) >
    count(B), or the counts are equal and avg(A) < avg(B), or counts and
    averages are equal and the first record of A comes before the first
    record of B in the input: the sort is stable, and the mapping returned
    keeps the sorted order as its insertion order.  The floats are the
    binary64 floats of the interpreter, with their [<] and [==]. *)
Theorem generate_sort_order {lib : @PyLib float64} (records : list (@LogEntry float64))
    (Htyped : Forall (fun r => exists u, url r = JStr u) records) :
  exists report,
    generate records = Ok report
    /\ (Forall (fun item : str * @report_entry float64 =>
                   PrimFloat.is_nan (avg_response_time (snd item)) = false) report ->
        forall a b : str * @report_entry float64,
          In a report -> In b report -> fst a <> fst b ->
          (Spec.precedes report a b
           <-> (entry_count (snd a) > entry_count (snd b))%Z
               \/ (entry_count (snd a) = entry_count (snd b)
                   /\ PrimFloat.ltb (avg_response_time (snd a)) (avg_response_time (snd b))
                      = true)
               \/ (entry_count (snd a) = entry_count (snd b)
                   /\ PrimFloat.eqb (avg_response_time (snd a)) (avg_response_time (snd b))
                      = true
                   /\ (Spec.first_record (fst a) records
                       < Spec.first_record (fst b) records)%nat))).
Proof.
  assert (Forall has_endpoint records) as H.
  { eapply Forall_impl; [|exact Htyped]. intros r. apply typed_has_endpoint. }
  exists (sorted item_lt (averaged (tally [] records))).
  split; [apply generate_ok, H|].
  intros Hnan a b Ha Hb Hab. unfold Spec.precedes.
  rewrite <- before_precedes.
  exact (report_order (fo := float64) (fun x : float => PrimFloat.is_nan x = false)
           (ord := float64_order) records a b H Hnan Ha Hb Hab).
Qed.

(** Three endpoints of one record each: the averages decide, and no
    average is NaN. *)
Lemma generate_sort_order_witness :
  exists report,
    generate (lib := example_lib)
      [@example_record float64 (py "/api/slow") 0.5%float;
       @example_record float64 (py "/api/fast") 0.1%float;
       @example_record float64 (py "/api/mid") 0.25%float] = Ok report
    /\ Forall (fun item : str * @report_entry float64 =>
                  PrimFloat.is_nan (avg_response_time (snd item)) = false) report
    /\ Spec.precedes report
         (py "/api/fast", mk_entry float64 1 0.1%float)
         (py "/api/mid", mk_entry float64 1 0.25%float)
    /\ Spec.precedes report
         (py "/api/mid", mk_entry float64 1 0.25%float)
         (py "/api/slow", mk_entry float64 1 0.5%float).
Proof.
  destruct (generate_sort_order (lib := example_lib)
              [@example_record float64 (py "/api/slow") 0.5%float;
               @example_record float64 (py "/api/fast") 0.1%float;
               @example_record float64 (py "/api/mid") 0.25%float])
    as (report & Hgen & Horder).
  - repeat constructor; eexists; reflexivity.
  - assert (generate (lib := example_lib)
              [@example_record float64 (py "/api/slow") 0.5%float;
               @example_record float64 (py "/api/fast") 0.1%float;
               @example_record float64 (py "/api/mid") 0.25%float]
            = Ok [(py "/api/fast", mk_entry float64 1 0.1%float);
                  (py "/api/mid", mk_entry float64 1 0.25%float);
                  (py "/api/slow", mk_entry float64 1 0.5%float)]) as Hrun by reflexivity.
    exists report. split; [exact Hgen|].
    rewrite Hrun in Hgen. injection Hgen as <-.
    assert (Forall (fun item : str * @report_entry float64 =>
                      PrimFloat.is_nan (avg_response_time (snd item)) = false)
              [(py "/api/fast", mk_entry float64 1 0.1%float);
               (py "/api/mid", mk_entry float64 1 0.25%float);
               (py "/api/slow", mk_entry float64 1 0.5%float)]) as Hnan
      by (repeat constructor).
    split; [exact Hnan|]. split.
    + refine (proj2 (Horder Hnan _ _ _ _ _) _).
      * left. reflexivity.
      * right. left. reflexivity.
      * cbn [fst]. intros E. discriminate E.
      * right. left. split; reflexivity.
    + refine (proj2 (Horder Hnan _ _ _ _ _) _).
      * right. left. reflexivity.
      * right. right. left. reflexivity.
      * cbn [fst]. intros E. discriminate E.
      * right. left. split; reflexivity.
Defined.

(** The exclusion of NaN is needed.  A response time that is NaN (the
    JSON reader accepts [NaN]) gives an average that is NaN; with the two
    endpoints below the one comparison of [sorted], [key(/b) < key(/a)],
    is false, so [/a] stays in front of [/b], though neither is its
    count greater nor its average smaller or equal. *)
Lemma generate_order_with_nan :
  exists (report : dict (@report_entry float64)) (a b : str * @report_entry float64),
    generate (lib := example_lib)
      [@example_record float64 (py "/a") PrimFloat.nan;
       @example_record float64 (py "/b") 0.1%float] = Ok report
    /\ In a report /\ In b report /\ fst a <> fst b
    /\ PrimFloat.is_nan (avg_response_time (snd a)) = true
    /\ Spec.precedes report a b
    /\ ~ ((entry_count (snd a) > entry_count (snd b))%Z
          \/ (entry_count (snd a) = entry_count (snd b)
              /\ PrimFloat.ltb (avg_response_time (snd a)) (avg_response_time (snd b)) = true)
          \/ (entry_count (snd a) = entry_count (snd b)
              /\ PrimFloat.eqb (avg_response_time (snd a)) (avg_response_time (snd b))
                 = true
              /\ (Spec.first_record (lib := example_lib) (fst a)
                    [@example_record float64 (py "/a") PrimFloat.nan;
                     @example_record float64 (py "/b") 0.1%float]
                  < Spec.first_record (lib := example_lib) (fst b)
                      [@example_record float64 (py "/a") PrimFloat.nan;
                       @example_record float64 (py "/b") 0.1%float])%nat)).
Proof.
  exists [(py "/a", mk_entry float64 1 PrimFloat.nan); (py "/b", mk_entry float64 1 0.1%float)],
         (py "/a", mk_entry float64 1 PrimFloat.nan), (py "/b", mk_entry float64 1 0.1%float).
  split; [reflexivity|]. split; [left; reflexivity|]. split; [right; left; reflexivity|].
  split; [cbn [fst]; intros E; discriminate E|]. split; [reflexivity|]. split.
  - exists 0%nat, 1%nat. split; [lia|]. split; reflexivity.
  - cbn [snd entry_count avg_response_time].
    intros [H|[[_ H]|[_ [H _]]]]; [lia | discriminate H | discriminate H].
Qed.

(** C2, as the specification words it, fails for two endpoints with equal
    counts and equal averages: [/b] does not precede [/a], though its
    average is [<=] that of [/a]. *)
Lemma generate_order_not_as_worded :
  exists report,
    generate (lib := example_lib)
      [@example_record float64 (py "/a") 0.1%float;
       @example_record float64 (py "/b") 0.1%float] = Ok report
    /\ ~ Spec.ordered_as_worded report.
Proof.
  exists [(py "/a", mk_entry float64 1 0.1%float); (py "/b", mk_entry float64 1 0.1%float)].
  split; [reflexivity|].
  intros H.
  specialize (H (py "/b", mk_entry float64 1 0.1%float) (py "/a", mk_entry float64 1 0.1%float)).
  destruct H as [_ H].
  - right. left. reflexivity.
  - left. reflexivity.
  - cbn [fst]. intros E. discriminate E.
  - destruct H as (i & j & Hij & Hi & Hj).
    + right. split; reflexivity.
    + destruct i as [|[|i]]; [discriminate Hi| |destruct i; discriminate Hi].
      destruct j as [|[|j]]; [lia | lia | destruct j; discriminate Hj].
Qed.

(** ** Loading *)

Section LoaderFacts.
Context {fo : FloatOps} {lib : PyLib}.
Implicit Types (w : world) (self : LogAnalyzer).

Lemma load_line_reading self (file_path : str) (filter_date : option datetime)
    (line_num : N) (line : str) w :
  load_line self file_path filter_date line_num line w
  = match parse_line line with
    | None => (w, Ok tt)
    | Some (Ok entry) =>
        (match filter_date with
         | Some d =>
             if date_eqb (dt_date (timestamp entry)) (dt_date d)
             then list_append (_log_entries self) entry w
             else w
         | None => list_append (_log_entries self) entry w
         end, Ok tt)
    | Some (Raise e) =>
        if caught_by [JSONDecodeError; KeyError; ValueError] e
        then (print (Warning line_num file_path e) w, Ok tt)
        else (w, Raise e)
    end.
Proof.
  unfold load_line, parse_line. destruct (strip isspace line) as [|c s]; [reflexivity|].
  destruct (log_data ← json_loads (c :: s); _create_log_entry log_data) as [entry|e];
    [|reflexivity].
  destruct filter_date as [d|]; [|reflexivity].
  destruct (date_eqb (dt_date (timestamp entry)) (dt_date d)); reflexivity.
Qed.

Lemma world_eta w : mk_world _ (heap w) (stdout w) = w.
Proof. destruct w; reflexivity. Qed.

Lemma with_store_id (l : loc) (store : list LogEntry) w :
  heap w !! l = Some store -> with_store l store w = w.
Proof. intros H. unfold with_store. rewrite (insert_id _ _ _ H). apply world_eta. Qed.

Lemma with_store_append (l : loc) (store rest : list LogEntry) (entry : LogEntry) w :
  with_store l (store ++ entry :: rest) (list_append l entry w)
  = with_store l (store ++ entry :: rest) w.
Proof. unfold with_store, list_append. cbn [heap stdout]. rewrite insert_alter_eq. reflexivity. Qed.

Lemma list_append_lookup (l : loc) (store : list LogEntry) (entry : LogEntry) w :
  heap w !! l = Some store -> heap (list_append l entry w) !! l = Some (store ++ [entry]).
Proof. intros H. unfold list_append. cbn [heap]. rewrite lookup_alter_eq, H. reflexivity. Qed.

(** A file of well-formed lines: the records that pass the filter are
    appended, in order, and nothing is printed. *)
Lemma read_lines_records self (file_path : str) (filter_date : option datetime)
    (lines : list str) (entries : list LogEntry) :
  Forall2 (fun line entry => parse_line line = Some (Ok entry)) lines entries ->
  forall (line_num : N) w (store : list LogEntry),
    heap w !! _log_entries self = Some store ->
    read_lines self file_path filter_date line_num (map Line lines) w
    = (with_store (_log_entries self) (store ++ kept filter_date entries) w, Ok tt).
Proof.
  induction 1 as [|line entry lines entries Hline _ IH]; intros line_num w store Hstore.
  - simpl. destruct filter_date; simpl; rewrite app_nil_r, (with_store_id _ _ _ Hstore);
      reflexivity.
  - cbn [map read_lines]. rewrite load_line_reading, Hline.
    destruct filter_date as [d|]; cbn [kept List.filter].
    + destruct (date_eqb (dt_date (timestamp entry)) (dt_date d)).
      * rewrite (IH _ _ _ (list_append_lookup _ _ entry _ Hstore)).
        cbn [kept]. rewrite <- app_assoc. cbn [app]. rewrite with_store_append. reflexivity.
      * rewrite (IH _ _ _ Hstore). reflexivity.
    + rewrite (IH _ _ _ (list_append_lookup _ _ entry _ Hstore)).
      cbn [kept]. rewrite <- app_assoc. cbn [app]. rewrite with_store_append. reflexivity.
Qed.

Lemma read_lines_app self (file_path : str) (filter_date : option datetime)
    (events1 events2 : list read_event) (line_num : N) w :
  read_lines self file_path filter_date line_num (events1 ++ events2) w
  = match read_lines self file_path filter_date line_num events1 w with
    | (w', Ok _) =>
        read_lines self file_path filter_date (line_num + N.of_nat (length events1)) events2 w'
    | (w', Raise e) => (w', Raise e)
    end.
Proof.
  revert line_num w. induction events1 as [|ev events1 IH]; intros line_num w.
  - simpl. rewrite N.add_0_r. reflexivity.
  - destruct ev as [line|e]; [|reflexivity].
    cbn [app read_lines].
    destruct (load_line self file_path filter_date line_num line w) as [w' [[]|e]];
      [|reflexivity].
    rewrite IH. cbn [length]. rewrite Nat2N.inj_succ.
    replace (line_num + 1 + N.of_nat (length events1))%N
      with (line_num + N.succ (N.of_nat (length events1)))%N by lia.
    reflexivity.
Qed.

(** A change of another list commutes with the loop. *)
Lemma mutate_list_load_line self (copy : loc) (change : list LogEntry -> list LogEntry)
    (file_path : str) (filter_date : option datetime) (line_num : N) (line : str) w :
  copy <> _log_entries self ->
  load_line self file_path filter_date line_num line (mutate_list copy change w)
  = (mutate_list copy change (fst (load_line self file_path filter_date line_num line w)),
     snd (load_line self file_path filter_date line_num line w)).
Proof.
  intros Hne. rewrite !load_line_reading.
  assert (forall entry,
            list_append (_log_entries self) entry (mutate_list copy change w)
            = mutate_list copy change (list_append (_log_entries self) entry w)) as Happ.
  { intros entry. unfold list_append, mutate_list. cbn [heap stdout].
    rewrite alter_alter_ne by congruence. reflexivity. }
  destruct (parse_line line) as [[entry|e]|]; cbn [fst snd].
  - destruct filter_date as [d|]; [|rewrite Happ; reflexivity].
    destruct (date_eqb (dt_date (timestamp entry)) (dt_date d)); [rewrite Happ|]; reflexivity.
  - destruct (caught_by [JSONDecodeError; KeyError; ValueError] e); reflexivity.
  - reflexivity.
Qed.

Lemma mutate_list_read_lines self (copy : loc) (change : list LogEntry -> list LogEntry)
    (file_path : str) (filter_date : option datetime) (events : list read_event)
    (line_num : N) w :
  copy <> _log_entries self ->
  read_lines self file_path filter_date line_num events (mutate_list copy change w)
  = (mutate_list copy change (fst (read_lines self file_path filter_date line_num events w)),
     snd (read_lines self file_path filter_date line_num events w)).
Proof.
  intros Hne. revert line_num w. induction events as [|[line|e] events IH]; intros line_num w;
    [reflexivity| |reflexivity].
  cbn [read_lines]. rewrite (mutate_list_load_line _ _ _ _ _ _ _ _ Hne).
  destruct (load_line self file_path filter_date line_num line w) as [w' [[]|e]]; cbn [fst snd];
    [apply IH | reflexivity].
Qed.

Lemma mutate_list_load self (copy : loc) (change : list LogEntry -> list LogEntry)
    (fs : str -> source) (file_path : str) (filter_date : option datetime) w :
  copy <> _log_entries self ->
  load_log_file fs self file_path filter_date (mutate_list copy change w)
  = (mutate_list copy change (fst (load_log_file fs self file_path filter_date w)),
     snd (load_log_file fs self file_path filter_date w)).
Proof.
  intros Hne. unfold load_log_file. destruct (fs file_path) as [e|events].
  - destruct (caught_by [OSError] e); reflexivity.
  - rewrite (mutate_list_read_lines _ _ _ _ _ _ _ _ Hne).
    destruct (read_lines self file_path filter_date 1 events w) as [w' [[]|e]]; cbn [fst snd];
      [reflexivity|].
    destruct (caught_by [OSError] e); reflexivity.
Qed.

End LoaderFacts.

Lemma date_eqb_eq (a b : date) : date_eqb a b = true <-> a = b.
Proof.
  unfold date_eqb. rewrite !andb_true_iff, !Z.eqb_eq.
  destruct a, b; simpl. split; [intros [[-> ->] ->]; reflexivity | intros [= -> -> ->]; tauto].
Qed.

(** C6 fails on the code: a line whose [status] is [null] makes
    [int(None)] raise a [TypeError], which no handler of [load_log_file]
    catches; it leaves the function, nothing is printed, and the lines
    behind it are not read. *)
Theorem load_raises_on_null_status {fo : FloatOps} {lib : PyLib}
    (fs : str -> source) (self : LogAnalyzer) (file_path : str)
    (filter_date : option datetime) (w : world)
    (line : str) (rest : list read_event) (ts u m rt ua : json)
    (Hopen : fs file_path = Opened (Line line :: rest))
    (Hline : strip isspace line <> [])
    (Hjson : json_loads (strip isspace line)
             = Ok (JObj [(py "@timestamp", ts); (py "status", JNull); (py "url", u);
                         (py "request_method", m); (py "response_time", rt);
                         (py "http_user_agent", ua)])) :
  load_log_file fs self file_path filter_date w = (w, raise_ TypeError []).
Proof.
  unfold load_log_file. rewrite Hopen. cbn [read_lines].
  rewrite load_line_reading. unfold parse_line.
  destruct (strip isspace line) as [|c s] eqn:E; [congruence|].
  rewrite Hjson. reflexivity.
Qed.

Lemma load_raises_on_null_status_witness :
  load_log_file (lib := example_lib) example_fs example_analyzer (py "null.log") None
    example_world
  = (example_world, raise_ TypeError []).
Proof.
  apply (load_raises_on_null_status (lib := example_lib) example_fs example_analyzer
           (py "null.log") None example_world (example_line_null ++ [newline])
           [Line (example_line1 ++ [newline])]
           (JStr (py "2025-06-22T13:57:32+00:00")) (JStr (py "/api/test1")) (JStr (py "GET"))
           (@JFloat float64 0.024%float) (JStr (py "TestAgent/1.0"))).
  - reflexivity.
  - discriminate.
  - reflexivity.
Defined.

(** C7: a source that cannot be opened, or whose read fails, makes
    [load_log_file] raise an [Exception] whose message holds the path; no
    warning is printed for it: the world is the one the lines read before
    the failure have left. *)
Theorem load_unreadable_source {fo : FloatOps} {lib : PyLib}
    (fs : str -> source) (self : LogAnalyzer) (file_path : str)
    (filter_date : option datetime) (w : world) (e : exn)
    (He : exn_cls e = OSError) :
  (fs file_path = Unopenable e ->
   load_log_file fs self file_path filter_date w = (w, Raise (read_failure file_path e)))
  /\ (forall (lines : list str) (rest : list read_event) (w' : world),
        fs file_path = Opened (map Line lines ++ ReadFault e :: rest) ->
        read_lines self file_path filter_date 1 (map Line lines) w = (w', Ok tt) ->
        load_log_file fs self file_path filter_date w = (w', Raise (read_failure file_path e)))
  /\ exists before_ after_,
       exn_msg (read_failure file_path e) = before_ ++ file_path ++ after_.
Proof.
  assert (caught_by [OSError] e = true) as Hc.
  { unfold caught_by. simpl. rewrite He. reflexivity. }
  split; [|split].
  - intros Hopen. unfold load_log_file. rewrite Hopen, Hc. reflexivity.
  - intros lines rest w' Hopen Hread. unfold load_log_file.
    rewrite Hopen, read_lines_app, Hread. cbn [read_lines]. rewrite Hc. reflexivity.
  - exists (py "Failed to read file "), (py ": " ++ exn_msg e). reflexivity.
Qed.

Lemma load_unreadable_source_witness :
  load_log_file (lib := example_lib) example_fs example_analyzer (py "missing.log") None
    example_world
  = (example_world,
     raise_ Exception
       (py "Failed to read file missing.log: [Errno 2] No such file or directory")).
Proof.
  apply (proj1 (load_unreadable_source (lib := example_lib) example_fs example_analyzer
                  (py "missing.log") None example_world
                  (mk_exn OSError (py "[Errno 2] No such file or directory")) eq_refl)).
  reflexivity.
Defined.

(** C8: with a date filter, a file of well-formed records leaves in the
    store, behind what it held, exactly the records whose timestamp has
    the date of the filter, in order; nothing is printed for the others.
    Of two records of 2025-06-22 and 2025-06-23, the filter 2025-06-22
    keeps the first. *)
Theorem load_with_date_filter {fo : FloatOps} {lib : PyLib}
    (fs : str -> source) (self : LogAnalyzer) (file_path : str)
    (filter_date : datetime) (w : world)
    (lines : list str) (entries store : list LogEntry)
    (Hopen : fs file_path = Opened (map Line lines))
    (Hlines : Forall2 (fun line entry => parse_line line = Some (Ok entry)) lines entries)
    (Hstore : heap w !! _log_entries self = Some store) :
  load_log_file fs self file_path (Some filter_date) w
  = (with_store (_log_entries self) (store ++ kept (Some filter_date) entries) w, Ok tt)
  /\ (forall e, In e (kept (Some filter_date) entries)
                <-> In e entries /\ dt_date (timestamp e) = dt_date filter_date)
  /\ stdout (fst (load_log_file fs self file_path (Some filter_date) w)) = stdout w
  /\ (forall e1 e2,
        entries = [e1; e2] ->
        dt_date (timestamp e1) = mk_date 2025 6 22 ->
        dt_date (timestamp e2) = mk_date 2025 6 23 ->
        dt_date filter_date = mk_date 2025 6 22 ->
        contents (fst (load_log_file fs self file_path (Some filter_date) w))
          (_log_entries self)
        = store ++ [e1]).
Proof.
  assert (load_log_file fs self file_path (Some filter_date) w
          = (with_store (_log_entries self) (store ++ kept (Some filter_date) entries) w, Ok tt))
    as Hload.
  { unfold load_log_file. rewrite Hopen.
    rewrite (read_lines_records self file_path (Some filter_date) lines entries Hlines
               1%N w store Hstore). reflexivity. }
  split; [exact Hload|]. split; [|split].
  - intros e. cbn [kept]. rewrite filter_In, date_eqb_eq. tauto.
  - rewrite Hload. reflexivity.
  - intros e1 e2 -> H1 H2 Hf. rewrite Hload. cbn [fst kept List.filter].
    rewrite H1, H2, Hf. cbn [date_eqb year month day Z.eqb Pos.eqb andb].
    unfold contents, with_store. cbn [heap]. rewrite lookup_insert_eq. reflexivity.
Qed.

Lemma load_with_date_filter_witness :
  contents
    (fst (load_log_file (lib := example_lib) example_fs example_analyzer (py "access.log")
            (Some (mk_datetime (mk_date 2025 6 22) 0 0 0 0 None)) example_world))
    1%positive
  = [example_entry1].
Proof.
  assert (Forall2 (fun line entry => parse_line (lib := example_lib) line = Some (Ok entry))
            [example_line1 ++ [newline]; example_line2 ++ [newline]]
            [example_entry1; example_entry2]) as Hlines
    by (repeat constructor).
  apply (proj2 (proj2 (proj2
           (load_with_date_filter (lib := example_lib) example_fs example_analyzer
              (py "access.log") (mk_datetime (mk_date 2025 6 22) 0 0 0 0 None) example_world
              [example_line1 ++ [newline]; example_line2 ++ [newline]]
              [example_entry1; example_entry2] [] eq_refl Hlines eq_refl)))
         example_entry1 example_entry2); reflexivity.
Defined.

(** C10: [get_log_entries] returns a new list with the items of the
    store, in order; whatever is then done to that list, the store holds
    the same items, so that a later [get_log_entries] returns them again
    and a later load ends with the same store and the same outcome as if
    the returned list had not been touched. *)
Theorem get_log_entries_copy {fo : FloatOps} {lib : PyLib}
    (self : LogAnalyzer) (w : world) (store : list LogEntry)
    (Hstore : heap w !! _log_entries self = Some store) :
  let w1 := fst (get_log_entries self w) in
  let copy := snd (get_log_entries self w) in
  copy <> _log_entries self
  /\ heap w1 !! copy = Some store
  /\ heap w1 !! _log_entries self = Some store
  /\ (forall l, l <> copy -> heap w1 !! l = heap w !! l)
  /\ forall change : list LogEntry -> list LogEntry,
       let w2 := mutate_list copy change w1 in
       heap w2 !! _log_entries self = Some store
       /\ heap (fst (get_log_entries self w2)) !! snd (get_log_entries self w2) = Some store
       /\ forall (fs : str -> source) (file_path : str) (filter_date : option datetime),
            heap (fst (load_log_file fs self file_path filter_date w2)) !! _log_entries self
            = heap (fst (load_log_file fs self file_path filter_date w1)) !! _log_entries self
            /\ snd (load_log_file fs self file_path filter_date w2)
               = snd (load_log_file fs self file_path filter_date w1).
Proof.
  cbv zeta. unfold get_log_entries. cbn [fst snd].
  assert (contents w (_log_entries self) = store) as Hc
    by (unfold contents; rewrite Hstore; reflexivity).
  rewrite !Hc. clear Hc.
  set (copy := fresh (dom (heap w))).
  assert (copy <> _log_entries self) as Hne.
  { intros Heq. apply (is_fresh (dom (heap w))). fold copy. rewrite Heq.
    apply elem_of_dom. exists store. exact Hstore. }
  set (w1 := mk_world _ (<[copy := store]> (heap w)) (stdout w)).
  assert (heap w1 !! _log_entries self = Some store) as H1.
  { unfold w1. cbn [heap]. rewrite lookup_insert_ne by exact Hne. exact Hstore. }
  split; [exact Hne|].
  split; [unfold w1; cbn [heap]; apply lookup_insert_eq|].
  split; [exact H1|].
  split; [intros l Hl; unfold w1; cbn [heap]; apply lookup_insert_ne; congruence|].
  intros edit.
  assert (heap (mutate_list copy edit w1) !! _log_entries self = Some store) as H2.
  { unfold mutate_list. cbn [heap]. rewrite lookup_alter_ne by exact Hne. exact H1. }
  split; [exact H2|]. split.
  - match goal with |- heap (mk_world _ (<[?c := ?x]> ?h) ?o) !! ?c = _ =>
      change (heap (mk_world _ (<[c := x]> h) o)) with (<[c := x]> h)
    end.
    rewrite lookup_insert_eq. unfold contents. rewrite H2. reflexivity.
  - intros fs file_path filter_date.
    rewrite (mutate_list_load self copy edit fs file_path filter_date w1 Hne).
    cbn [fst snd]. split; [|reflexivity].
    unfold mutate_list. cbn [heap]. apply lookup_alter_ne. exact Hne.
Qed.

Lemma get_log_entries_copy_witness :
  contents
    (mutate_list
       (snd (get_log_entries example_analyzer (with_store 1%positive [example_entry1] example_world)))
       (fun _ => [])
       (fst (get_log_entries example_analyzer (with_store 1%positive [example_entry1] example_world))))
    1%positive
  = [example_entry1].
Proof.
  pose proof (get_log_entries_copy (lib := example_lib) example_analyzer
                (with_store 1%positive [example_entry1] example_world) [example_entry1] eq_refl)
    as (_ & _ & _ & _ & H).
  destruct (H (fun _ => [])) as (H2 & _).
  exact (f_equal (default []) H2).
Defined.

Section SkippedLines.
Context {fo : FloatOps} {lib : PyLib}.

Lemma kept_app (filter_date : option datetime) (xs ys : list LogEntry) :
  kept filter_date (xs ++ ys) = kept filter_date xs ++ kept filter_date ys.
Proof. destruct filter_date; [apply filter_app | reflexivity]. Qed.

(** A file in which every failing line fails with an exception of a
    caught class: the loop reaches the end, the records that pass the
    filter are appended in order, and each failing line is reported once,
    under its number. *)
Lemma read_lines_skips (self : LogAnalyzer) (file_path : str)
    (filter_date : option datetime) (lines : list str) :
  Forall (fun line => forall e, parse_line line = Some (Raise e) ->
                                caught_by line_errors e = true) lines ->
  forall (line_num : N) (w : world) (store : list LogEntry),
    heap w !! _log_entries self = Some store ->
    read_lines self file_path filter_date line_num (map Line lines) w
    = (mk_world _
         (<[_log_entries self := store ++ kept filter_date (loaded lines)]> (heap w))
         (stdout w ++ warnings file_path line_num lines),
       Ok tt).
Proof.
  induction 1 as [|line lines Hline _ IH]; intros line_num w store Hstore.
  - cbn [map read_lines loaded warnings]. destruct filter_date; cbn [kept List.filter];
      rewrite !app_nil_r, (insert_id _ _ _ Hstore), world_eta; reflexivity.
  - cbn [map read_lines loaded warnings]. rewrite load_line_reading.
    destruct (parse_line line) as [[entry|e]|] eqn:Hp.
    + change (entry :: loaded lines) with ([entry] ++ loaded lines). rewrite kept_app.
      destruct filter_date as [d|]; cbn [kept List.filter app].
      * destruct (date_eqb (dt_date (timestamp entry)) (dt_date d)).
        -- rewrite (IH _ _ _ (list_append_lookup _ _ entry _ Hstore)).
           unfold list_append. cbn [heap stdout kept app].
           rewrite insert_alter_eq, <- app_assoc. reflexivity.
        -- rewrite (IH _ _ _ Hstore). reflexivity.
      * rewrite (IH _ _ _ (list_append_lookup _ _ entry _ Hstore)).
        unfold list_append. cbn [heap stdout kept app].
        rewrite insert_alter_eq, <- app_assoc. reflexivity.
    + fold line_errors. rewrite (Hline e eq_refl).
      rewrite (IH (line_num + 1)%N (print (Warning line_num file_path e) w) store Hstore).
      unfold print. cbn [heap stdout]. rewrite <- app_assoc. reflexivity.
    + rewrite (IH _ _ _ Hstore). reflexivity.
Qed.

End SkippedLines.

(** X1: when every line of a file that fails does so with a
    [JSONDecodeError], a [KeyError] or a [ValueError], [load_log_file]
    raises nothing: the failing lines are skipped, each with one warning
    that names the file and the 1-based number of the line, and the
    records of the other lines that pass the filter are appended to the
    store in the order of the file. *)
Theorem load_skips_caught_lines {fo : FloatOps} {lib : PyLib}
    (fs : str -> source) (self : LogAnalyzer) (file_path : str)
    (filter_date : option datetime) (w : world) (lines : list str) (store : list LogEntry)
    (Hopen : fs file_path = Opened (map Line lines))
    (Hcaught : Forall (fun line => forall e, parse_line line = Some (Raise e) ->
                                             caught_by line_errors e = true) lines)
    (Hstore : heap w !! _log_entries self = Some store) :
  load_log_file fs self file_path filter_date w
  = (mk_world _
       (<[_log_entries self := store ++ kept filter_date (loaded lines)]> (heap w))
       (stdout w ++ warnings file_path 1 lines),
     Ok tt).
Proof.
  unfold load_log_file. rewrite Hopen.
  rewrite (read_lines_skips self file_path filter_date lines Hcaught 1%N w store Hstore).
  reflexivity.
Qed.

Lemma load_skips_caught_lines_witness :
  load_log_file (lib := example_lib) example_fs example_analyzer (py "mixed.log") None
    example_world
  = (mk_world float64 (<[1%positive := [example_entry1; example_entry2]]> (heap example_world))
       [Warning 2 (py "mixed.log") (mk_exn JSONDecodeError [])],
     Ok tt).
Proof.
  assert (Forall (fun line => forall e, parse_line (lib := example_lib) line = Some (Raise e) ->
                                        caught_by line_errors e = true)
            [example_line1 ++ [newline]; py "invalid json line" ++ [newline];
             example_line2 ++ [newline]]) as Hcaught.
  { repeat constructor; intros e He.
    - assert (parse_line (lib := example_lib) (example_line1 ++ [newline])
              = Some (Ok example_entry1)) as Hp by reflexivity.
      rewrite Hp in He. discriminate He.
    - assert (parse_line (lib := example_lib) (py "invalid json line" ++ [newline])
              = Some (Raise (mk_exn JSONDecodeError []))) as Hp by reflexivity.
      rewrite Hp in He. injection He as <-. reflexivity.
    - assert (parse_line (lib := example_lib) (example_line2 ++ [newline])
              = Some (Ok example_entry2)) as Hp by reflexivity.
      rewrite Hp in He. discriminate He. }
  exact (load_skips_caught_lines (lib := example_lib) example_fs example_analyzer
           (py "mixed.log") None example_world
           [example_line1 ++ [newline]; py "invalid json line" ++ [newline];
            example_line2 ++ [newline]] [] eq_refl Hcaught eq_refl).
Defined.

(** ** Urls of ASCII characters *)

Lemma group_runs_ext (d1 d2 : codepoint -> bool) (s : str) :
  Forall (fun c => d1 c = d2 c) s -> Spec.group_runs d1 s = Spec.group_runs d2 s.
Proof.
  induction 1 as [|c t Hc _ IH]; [reflexivity|].
  simpl. rewrite IH, Hc. reflexivity.
Qed.

Lemma takewhile_forall (P : codepoint -> Prop) (f : codepoint -> bool) (s : str) :
  Forall P s -> Forall P (takewhile f s).
Proof.
  induction 1 as [|c t Hc _ IH]; simpl; [constructor|].
  destruct (f c); constructor; assumption.
Qed.

Lemma drop_trailing_slash_forall (P : codepoint -> Prop) (path : str) :
  Forall P path -> Forall P (Spec.drop_trailing_slash path).
Proof.
  intros H. unfold Spec.drop_trailing_slash.
  destruct (rev path) as [|c [|d r]] eqn:E; try exact H.
  destruct (N.eqb c chr_slash); [|exact H].
  apply Forall_rev. apply Forall_rev in H. rewrite E in H.
  inversion H; assumption.
Qed.

(** X2: on a url of ASCII characters the digits that [\d] matches are the
    ASCII digits, and [get_endpoint] is the canonical endpoint as the
    specification words it. *)
Theorem get_endpoint_ascii {fo : FloatOps} {lib : PyLib}
    (ts : datetime) (st : Z) (m : json) (rt : F) (ua : json) (u : str)
    (Hascii : Forall (fun c => (c < 128)%N) u) :
  get_endpoint (mk_LogEntry _ ts st (JStr u) m rt ua)
  = Ok (Spec.canonical_endpoint ascii_digit u).
Proof.
  rewrite get_endpoint_refines. unfold Spec.canonical_endpoint. f_equal. f_equal.
  apply group_runs_ext, drop_trailing_slash_forall, takewhile_forall.
  eapply Forall_impl; [|exact Hascii].
  intros c Hc. unfold re_digit. apply N.ltb_lt in Hc. rewrite Hc. reflexivity.
Qed.

Lemma get_endpoint_ascii_witness :
  get_endpoint (lib := example_lib) (@example_record float64 (py "/api/users/123/") 0.1%float)
  = Ok (py "/api/users/...").
Proof.
  apply (get_endpoint_ascii (lib := example_lib) example_instant 200 (JStr (py "GET"))
           0.1%float (JStr (py "Agent")) (py "/api/users/123/")).
  repeat constructor.
Defined.

(** * Further properties of the code *)

(** ** Building a record from a JSON value *)

Section CreateLogEntryFacts.
Context {fo : FloatOps} {lib : PyLib}.

Lemma check_required_missing (members : dict json) (present rest : list str) (field : str) :
  Forall (fun f => dict_contains members f = true) present ->
  dict_contains members field = false ->
  check_required (present ++ field :: rest) (JObj members)
  = raise_ KeyError (py "Missing required field: " ++ field).
Proof.
  intros Hpresent Hmissing. induction Hpresent as [|f present Hf _ IH].
  - cbn [app check_required py_in]. unfold mbind, result_bind. rewrite Hmissing. reflexivity.
  - cbn [app check_required py_in]. unfold mbind, result_bind. rewrite Hf. exact IH.
Qed.

End CreateLogEntryFacts.

(** X3: for a JSON object that lacks a required field, [_create_log_entry]
    raises a [KeyError] that names the first field missing, in the order
    [@timestamp], [status], [url], [request_method], [response_time],
    [http_user_agent]; no value of the object is looked at.  A line of a
    log that holds such an object is skipped with a warning. *)
Theorem create_log_entry_missing_field {fo : FloatOps} {lib : PyLib}
    (members : dict json) (present rest : list str) (field : str)
    (Hfields : required_fields = present ++ field :: rest)
    (Hpresent : Forall (fun f => dict_contains members f = true) present)
    (Hmissing : dict_contains members field = false) :
  _create_log_entry (JObj members)
  = raise_ KeyError (py "Missing required field: " ++ field)
  /\ forall (self : LogAnalyzer) (file_path : str) (filter_date : option datetime)
            (line_num : N) (line : str) (w : world),
       strip isspace line <> [] ->
       json_loads (strip isspace line) = Ok (JObj members) ->
       load_line self file_path filter_date line_num line w
       = (print (Warning line_num file_path
                   (mk_exn KeyError (py "Missing required field: " ++ field))) w,
          Ok tt).
Proof.
  assert (_create_log_entry (JObj members)
          = raise_ KeyError (py "Missing required field: " ++ field)) as Hraise.
  { unfold _create_log_entry. rewrite Hfields.
    rewrite (check_required_missing members present rest field Hpresent Hmissing).
    reflexivity. }
  split; [exact Hraise|].
  intros self file_path filter_date line_num line w Hline Hjson.
  rewrite load_line_reading. unfold parse_line.
  destruct (strip isspace line) as [|c s]; [congruence|].
  rewrite Hjson. unfold mbind at 1, result_bind at 1. rewrite Hraise. reflexivity.
Qed.

Lemma create_log_entry_missing_field_witness :
  _create_log_entry (lib := example_lib)
    (@JObj float64
       [(py "@timestamp", JStr (py "2025-06-22T13:57:32+00:00")); (py "status", JInt 200);
        (py "request_method", JStr (py "GET")); (py "response_time", @JFloat float64 0.024%float);
        (py "http_user_agent", JStr (py "TestAgent/1.0"))])
  = raise_ KeyError (py "Missing required field: url").
Proof.
  apply (create_log_entry_missing_field (lib := example_lib) _
           [py "@timestamp"; py "status"]
           [py "request_method"; py "response_time"; py "http_user_agent"] (py "url")).
  - reflexivity.
  - repeat constructor.
  - reflexivity.
Defined.

(** X4: [_create_log_entry] returns a record only for a JSON object that
    has the six fields; the record's [url], [request_method] and
    [http_user_agent] are the values of the object as they are, its
    [status] is [int] of the value, its [response_time] is [float] of the
    value and its [timestamp] is the value parsed. *)
Theorem create_log_entry_fields {fo : FloatOps} {lib : PyLib}
    (log_data : json) (entry : LogEntry)
    (Hentry : _create_log_entry log_data = Ok entry) :
  exists (members : dict json) (ts st rt : json),
    log_data = JObj members
    /\ dict_get members (py "@timestamp") = Some ts
    /\ _parse_timestamp ts = Ok (timestamp entry)
    /\ dict_get members (py "status") = Some st
    /\ py_int st = Ok (status entry)
    /\ dict_get members (py "url") = Some (url entry)
    /\ dict_get members (py "request_method") = Some (request_method entry)
    /\ dict_get members (py "response_time") = Some rt
    /\ py_float rt = Ok (response_time entry)
    /\ dict_get members (py "http_user_agent") = Some (http_user_agent entry).
Proof.
  unfold _create_log_entry in Hentry. unfold mbind, result_bind in Hentry.
  destruct (check_required required_fields log_data) as [[]|e]; [|discriminate].
  destruct log_data as [| | | | |items|members]; cbn [getitem] in Hentry;
    try discriminate Hentry.
  exists members. unfold dict_getitem in Hentry.
  destruct (dict_get members (py "@timestamp")) as [ts|]; [|discriminate].
  destruct (dict_get members (py "status")) as [st|]; [|discriminate].
  destruct (py_int st) as [status|] eqn:Hst; [|discriminate].
  destruct (dict_get members (py "url")) as [u|]; [|discriminate].
  destruct (dict_get members (py "request_method")) as [m|]; [|discriminate].
  destruct (dict_get members (py "response_time")) as [rt|]; [|discriminate].
  destruct (py_float rt) as [response|] eqn:Hrt; [|discriminate].
  destruct (dict_get members (py "http_user_agent")) as [ua|]; [|discriminate].
  unfold LogEntry__init__, mbind, mret, result_bind, result_ret in Hentry.
  destruct (_parse_timestamp ts) as [parsed|] eqn:Hts; [|discriminate].
  injection Hentry as <-. exists ts, st, rt. cbn. repeat split; reflexivity || assumption.
Qed.

Lemma create_log_entry_fields_witness :
  exists members,
    example_document "2025-06-22T13:57:32+00:00" (JInt 200) "/api/test1" "GET"
      0.024%float "TestAgent/1.0" = JObj members
    /\ dict_get members (py "url") = Some (url example_entry1).
Proof.
  destruct (create_log_entry_fields (lib := example_lib)
              (example_document "2025-06-22T13:57:32+00:00" (JInt 200) "/api/test1" "GET"
                 0.024%float "TestAgent/1.0") example_entry1 eq_refl)
    as (members & ts & st & rt & H & _ & _ & _ & _ & Hurl & _).
  exists members. split; [exact H | exact Hurl].
Defined.

(** X5: a line that holds JSON [null], a boolean or a number makes the
    test [field in log_data] raise a [TypeError]; no handler of
    [load_log_file] catches it, so it leaves the function: nothing is
    printed and the lines behind it are not read. *)
Theorem load_raises_on_scalar_document {fo : FloatOps} {lib : PyLib}
    (fs : str -> source) (self : LogAnalyzer) (file_path : str)
    (filter_date : option datetime) (w : world)
    (line : str) (rest : list read_event) (v : json)
    (Hopen : fs file_path = Opened (Line line :: rest))
    (Hline : strip isspace line <> [])
    (Hjson : json_loads (strip isspace line) = Ok v)
    (Hscalar : is_scalar v = true) :
  _create_log_entry v = raise_ TypeError []
  /\ load_log_file fs self file_path filter_date w = (w, raise_ TypeError []).
Proof.
  assert (_create_log_entry v = raise_ TypeError []) as Hraise
    by (destruct v; try discriminate Hscalar; reflexivity).
  split; [exact Hraise|].
  unfold load_log_file. rewrite Hopen. cbn [read_lines].
  rewrite load_line_reading. unfold parse_line.
  destruct (strip isspace line) as [|c s]; [congruence|].
  rewrite Hjson. unfold mbind at 1, result_bind at 1. rewrite Hraise. reflexivity.
Qed.

Lemma load_raises_on_scalar_document_witness :
  load_log_file (lib := scalar_lib) scalar_fs example_analyzer (py "scalar.log") None
    example_world
  = (example_world, raise_ TypeError []).
Proof.
  apply (load_raises_on_scalar_document (lib := scalar_lib) scalar_fs example_analyzer
           (py "scalar.log") None example_world (py "null" ++ [newline])
           [Line (example_line1 ++ [newline])] (@JNull float64)).
  - reflexivity.
  - discriminate.
  - reflexivity.
  - reflexivity.
Defined.

(** ** The store only grows *)

Lemma alter_lookup {A : Type} (m : gmap loc A) (l : loc) (x : A) (f : A -> A) :
  m !! l = Some x -> alter f l m = <[l := f x]> m.
Proof. intros H. rewrite <- (insert_id m l x H) at 1. apply alter_insert_eq. Qed.

Section AppendOnly.
Context {fo : FloatOps} {lib : PyLib}.
Implicit Types (w : world) (self : LogAnalyzer).

Lemma grown_nil (l : loc) (store : list LogEntry) w :
  heap w !! l = Some store -> grown l store [] [] w = w.
Proof.
  intros H. unfold grown. rewrite !app_nil_r, (insert_id _ _ _ H). apply world_eta.
Qed.

Lemma grown_grown (l : loc) (store a1 a2 : list LogEntry) (o1 o2 : list output) w :
  grown l (store ++ a1) a2 o2 (grown l store a1 o1 w) = grown l store (a1 ++ a2) (o1 ++ o2) w.
Proof.
  unfold grown. cbn [heap stdout]. rewrite insert_insert_eq, <- !app_assoc. reflexivity.
Qed.

Lemma grown_lookup (l : loc) (store added : list LogEntry) (out : list output) w :
  heap (grown l store added out w) !! l = Some (store ++ added).
Proof. unfold grown. cbn [heap]. apply lookup_insert_eq. Qed.

Lemma load_line_grows self (file_path : str) (filter_date : option datetime)
    (line_num : N) (line : str) w (store : list LogEntry) :
  heap w !! _log_entries self = Some store ->
  exists added out,
    fst (load_line self file_path filter_date line_num line w)
    = grown (_log_entries self) store added out w.
Proof.
  intros Hstore. rewrite load_line_reading.
  assert (forall entry, list_append (_log_entries self) entry w
                        = grown (_log_entries self) store [entry] [] w) as Happ.
  { intros entry. unfold list_append, grown.
    rewrite (alter_lookup _ _ _ _ Hstore), app_nil_r. reflexivity. }
  pose proof (grown_nil _ _ _ Hstore) as Hnil.
  destruct (parse_line line) as [[entry|e]|]; cbn [fst].
  - destruct filter_date as [d|]; [|exists [entry], []; apply Happ].
    destruct (date_eqb (dt_date (timestamp entry)) (dt_date d)).
    + exists [entry], []. apply Happ.
    + exists [], []. symmetry. exact Hnil.
  - destruct (caught_by [JSONDecodeError; KeyError; ValueError] e); cbn [fst].
    + exists [], [Warning line_num file_path e]. unfold print, grown.
      rewrite app_nil_r, (insert_id _ _ _ Hstore). reflexivity.
    + exists [], []. symmetry. exact Hnil.
  - exists [], []. symmetry. exact Hnil.
Qed.

Lemma read_lines_grows self (file_path : str) (filter_date : option datetime)
    (events : list read_event) (line_num : N) w (store : list LogEntry) :
  heap w !! _log_entries self = Some store ->
  exists added out,
    fst (read_lines self file_path filter_date line_num events w)
    = grown (_log_entries self) store added out w.
Proof.
  revert line_num w store. induction events as [|[line|e] events IH];
    intros line_num w store Hstore.
  - exists [], []. symmetry. apply grown_nil, Hstore.
  - cbn [read_lines].
    destruct (load_line_grows self file_path filter_date line_num line w store Hstore)
      as (a1 & o1 & H1).
    destruct (load_line self file_path filter_date line_num line w) as [w' [[]|e]];
      cbn [fst] in *; [|exists a1, o1; exact H1].
    subst w'.
    destruct (IH (line_num + 1)%N _ _ (grown_lookup (_log_entries self) store a1 o1 w))
      as (a2 & o2 & H2).
    exists (a1 ++ a2), (o1 ++ o2). rewrite H2. apply grown_grown.
  - exists [], []. symmetry. apply grown_nil, Hstore.
Qed.

Lemma load_log_file_grows self (fs : str -> source) (file_path : str)
    (filter_date : option datetime) w (store : list LogEntry) :
  heap w !! _log_entries self = Some store ->
  exists added out,
    fst (load_log_file fs self file_path filter_date w)
    = grown (_log_entries self) store added out w.
Proof.
  intros Hstore. unfold load_log_file. destruct (fs file_path) as [e|events].
  - exists [], []. destruct (caught_by [OSError] e); symmetry; apply grown_nil, Hstore.
  - destruct (read_lines_grows self file_path filter_date events 1%N w store Hstore)
      as (added & out & H).
    exists added, out.
    destruct (read_lines self file_path filter_date 1 events w) as [w' [[]|e]];
      cbn [fst] in *; [exact H|].
    destruct (caught_by [OSError] e); exact H.
Qed.

End AppendOnly.

(** X6: whatever the source holds and however the load ends, also with
    an exception, [load_log_file] only appends to the store and only adds
    to what is printed: the items the store held stay in front, in
    order, and no other list of the heap changes. *)
Theorem load_only_appends {fo : FloatOps} {lib : PyLib}
    (fs : str -> source) (self : LogAnalyzer) (file_path : str)
    (filter_date : option datetime) (w : world) (store : list LogEntry)
    (Hstore : heap w !! _log_entries self = Some store) :
  exists added out,
    heap (fst (load_log_file fs self file_path filter_date w)) !! _log_entries self
    = Some (store ++ added)
    /\ stdout (fst (load_log_file fs self file_path filter_date w)) = stdout w ++ out
    /\ forall l, l <> _log_entries self ->
         heap (fst (load_log_file fs self file_path filter_date w)) !! l = heap w !! l.
Proof.
  destruct (load_log_file_grows self fs file_path filter_date w store Hstore)
    as (added & out & H).
  exists added, out. rewrite H. unfold grown. cbn [heap stdout].
  split; [apply lookup_insert_eq|]. split; [reflexivity|].
  intros l Hl. apply lookup_insert_ne. congruence.
Qed.

Lemma load_only_appends_witness :
  exists added,
    heap (fst (load_log_file (lib := example_lib) example_fs example_analyzer (py "null.log")
                 None (with_store 1%positive [example_entry2] example_world)))
    !! 1%positive
    = Some ([example_entry2] ++ added).
Proof.
  destruct (load_only_appends (lib := example_lib) example_fs example_analyzer (py "null.log")
              None (with_store 1%positive [example_entry2] example_world) [example_entry2]
              eq_refl)
    as (added & out & H & _).
  exists added. exact H.
Defined.

(** ** Several loads, [clear] and several analyzers *)

Section StoreFacts.
Context {fo : FloatOps} {lib : PyLib}.
Implicit Types (w : world) (self : LogAnalyzer).

(** A file whose failing lines all fail with a caught exception, read
    into a store. *)
Lemma load_log_file_skips self (fs : str -> source) (file_path : str)
    (filter_date : option datetime) (lines : list str) w (store : list LogEntry) :
  fs file_path = Opened (map Line lines) ->
  Forall (fun line => forall e, parse_line line = Some (Raise e) ->
                                caught_by line_errors e = true) lines ->
  heap w !! _log_entries self = Some store ->
  load_log_file fs self file_path filter_date w
  = (grown (_log_entries self) store (kept filter_date (loaded lines))
       (warnings file_path 1 lines) w, Ok tt).
Proof.
  intros Hopen Hcaught Hstore. unfold load_log_file. rewrite Hopen.
  rewrite (read_lines_skips self file_path filter_date lines Hcaught 1%N w store Hstore).
  reflexivity.
Qed.

Lemma load_log_file_frame self (fs : str -> source) (file_path : str)
    (filter_date : option datetime) w (l : loc) :
  is_Some (heap w !! _log_entries self) -> l <> _log_entries self ->
  heap (fst (load_log_file fs self file_path filter_date w)) !! l = heap w !! l.
Proof.
  intros [store Hstore] Hl.
  destruct (load_log_file_grows self fs file_path filter_date w store Hstore)
    as (added & out & H).
  rewrite H. unfold grown. cbn [heap]. apply lookup_insert_ne. congruence.
Qed.

End StoreFacts.

(** X7: two files loaded one after the other, each with no line that
    fails outside the caught classes, leave in the store what it held, then
    the records of the first file that pass the filter, then those of the
    second; the warnings of the first file come before those of the
    second, and the line numbers start at 1 in each file. *)
Theorem load_two_files {fo : FloatOps} {lib : PyLib}
    (fs : str -> source) (self : LogAnalyzer) (path1 path2 : str)
    (filter_date : option datetime) (w : world)
    (lines1 lines2 : list str) (store : list LogEntry)
    (Hopen1 : fs path1 = Opened (map Line lines1))
    (Hopen2 : fs path2 = Opened (map Line lines2))
    (Hcaught1 : Forall (fun line => forall e, parse_line line = Some (Raise e) ->
                                              caught_by line_errors e = true) lines1)
    (Hcaught2 : Forall (fun line => forall e, parse_line line = Some (Raise e) ->
                                              caught_by line_errors e = true) lines2)
    (Hstore : heap w !! _log_entries self = Some store) :
  let first := load_log_file fs self path1 filter_date w in
  let second := load_log_file fs self path2 filter_date (fst first) in
  snd first = Ok tt
  /\ second
     = (grown (_log_entries self) store
          (kept filter_date (loaded lines1) ++ kept filter_date (loaded lines2))
          (warnings path1 1 lines1 ++ warnings path2 1 lines2) w,
        Ok tt).
Proof.
  cbv zeta.
  rewrite (load_log_file_skips self fs path1 filter_date lines1 w store Hopen1 Hcaught1 Hstore).
  cbn [fst snd]. split; [reflexivity|].
  rewrite (load_log_file_skips self fs path2 filter_date lines2 _ _ Hopen2 Hcaught2
             (grown_lookup _ _ _ _ _)).
  rewrite grown_grown. reflexivity.
Qed.

Lemma load_two_files_witness :
  contents
    (fst (load_log_file (lib := example_lib) example_fs example_analyzer (py "mixed.log") None
            (fst (load_log_file (lib := example_lib) example_fs example_analyzer
                    (py "access.log") None example_world))))
    1%positive
  = [example_entry1; example_entry2; example_entry1; example_entry2].
Proof.
  assert (forall lines : list str,
            Forall (fun line => exists r, parse_line (lib := example_lib) line = r
                                          /\ forall e, r = Some (Raise e) ->
                                                       caught_by line_errors e = true) lines ->
            Forall (fun line => forall e, parse_line (lib := example_lib) line = Some (Raise e) ->
                                          caught_by line_errors e = true) lines) as Hall.
  { intros lines. apply Forall_impl. intros line (r & <- & Hr). exact Hr. }
  pose proof (load_two_files (lib := example_lib) example_fs example_analyzer
                (py "access.log") (py "mixed.log") None example_world
                [example_line1 ++ [newline]; example_line2 ++ [newline]]
                [example_line1 ++ [newline]; py "invalid json line" ++ [newline];
                 example_line2 ++ [newline]] [] eq_refl eq_refl) as H.
  cbv zeta in H. destruct H as [_ H].
  - apply Hall. repeat constructor; eexists; (split; [reflexivity|]); intros e He;
      discriminate He.
  - apply Hall. repeat constructor; eexists; (split; [reflexivity|]); intros e He;
      first [discriminate He | injection He as <-; reflexivity].
  - reflexivity.
  - rewrite H. reflexivity.
Defined.

(** X8: [clear] empties the store and nothing else: a list returned by
    [get_log_entries] before keeps its items, and a load after it leaves
    in the store the records of the file alone. *)
Theorem clear_empties_store {fo : FloatOps} {lib : PyLib}
    (self : LogAnalyzer) (w : world) (store : list LogEntry)
    (Hstore : heap w !! _log_entries self = Some store) :
  let w1 := fst (get_log_entries self w) in
  let copy := snd (get_log_entries self w) in
  let w2 := clear self w1 in
  heap w2 !! _log_entries self = Some []
  /\ heap w2 !! copy = Some store
  /\ (forall l, l <> _log_entries self -> heap w2 !! l = heap w1 !! l)
  /\ stdout w2 = stdout w1
  /\ heap (fst (get_log_entries self w2)) !! snd (get_log_entries self w2) = Some []
  /\ forall (fs : str -> source) (file_path : str) (filter_date : option datetime)
            (lines : list str),
       fs file_path = Opened (map Line lines) ->
       Forall (fun line => forall e, parse_line line = Some (Raise e) ->
                                     caught_by line_errors e = true) lines ->
       heap (fst (load_log_file fs self file_path filter_date w2)) !! _log_entries self
       = Some (kept filter_date (loaded lines)).
Proof.
  cbv zeta. unfold get_log_entries. cbn [fst snd].
  assert (contents w (_log_entries self) = store) as Hc
    by (unfold contents; rewrite Hstore; reflexivity).
  rewrite !Hc. clear Hc.
  set (copy := fresh (dom (heap w))).
  assert (copy <> _log_entries self) as Hne.
  { intros Heq. apply (is_fresh (dom (heap w))). fold copy. rewrite Heq.
    apply elem_of_dom. exists store. exact Hstore. }
  set (w1 := mk_world _ (<[copy := store]> (heap w)) (stdout w)).
  assert (heap (clear self w1) !! _log_entries self = Some []) as H0
    by (unfold clear; cbn [heap]; apply lookup_insert_eq).
  split; [exact H0|]. split; [|split; [|split; [|split]]].
  - unfold clear, w1. cbn [heap]. rewrite lookup_insert_ne by congruence.
    apply lookup_insert_eq.
  - intros l Hl. unfold clear. cbn [heap]. apply lookup_insert_ne. congruence.
  - reflexivity.
  - match goal with |- heap (mk_world _ (<[?c := ?x]> ?h) ?o) !! ?c = _ =>
      change (heap (mk_world _ (<[c := x]> h) o)) with (<[c := x]> h)
    end.
    rewrite lookup_insert_eq. unfold contents. rewrite H0. reflexivity.
  - intros fs file_path filter_date lines Hopen Hcaught.
    rewrite (load_log_file_skips self fs file_path filter_date lines _ [] Hopen Hcaught H0).
    cbn [fst]. rewrite grown_lookup. reflexivity.
Qed.

Lemma clear_empties_store_witness :
  contents
    (clear example_analyzer
       (fst (get_log_entries example_analyzer
               (with_store 1%positive [example_entry1] example_world))))
    (snd (get_log_entries example_analyzer
            (with_store 1%positive [example_entry1] example_world)))
  = [example_entry1].
Proof.
  pose proof (clear_empties_store (lib := example_lib) example_analyzer
                (with_store 1%positive [example_entry1] example_world) [example_entry1]
                eq_refl) as H.
  cbv zeta in H. destruct H as (_ & H & _).
  exact (f_equal (default []) H).
Defined.

(** X9: a new analyzer starts with an empty store of its own: a load
    into it leaves the store of every analyzer made before as it was, and
    a load into one of those leaves the new store empty. *)
Theorem new_analyzer_is_separate {fo : FloatOps} {lib : PyLib}
    (other : LogAnalyzer) (w : world) (store : list LogEntry)
    (Hother : heap w !! _log_entries other = Some store) :
  let w1 := fst (LogAnalyzer__init__ w) in
  let self := snd (LogAnalyzer__init__ w) in
  _log_entries self <> _log_entries other
  /\ heap w1 !! _log_entries self = Some []
  /\ heap w1 !! _log_entries other = Some store
  /\ forall (fs : str -> source) (file_path : str) (filter_date : option datetime),
       heap (fst (load_log_file fs self file_path filter_date w1)) !! _log_entries other
       = Some store
       /\ heap (fst (load_log_file fs other file_path filter_date w1)) !! _log_entries self
          = Some [].
Proof.
  cbv zeta. unfold LogAnalyzer__init__. cbn [fst snd _log_entries].
  set (l := fresh (dom (heap w))).
  assert (l <> _log_entries other) as Hne.
  { intros Heq. apply (is_fresh (dom (heap w))). fold l. rewrite Heq.
    apply elem_of_dom. exists store. exact Hother. }
  set (w1 := mk_world _ (<[l := []]> (heap w)) (stdout w)).
  assert (heap w1 !! l = Some []) as Hself by (unfold w1; cbn [heap]; apply lookup_insert_eq).
  assert (heap w1 !! _log_entries other = Some store) as Hother1.
  { unfold w1. cbn [heap]. rewrite lookup_insert_ne by exact Hne. exact Hother. }
  split; [exact Hne|]. split; [exact Hself|]. split; [exact Hother1|].
  intros fs file_path filter_date. split.
  - rewrite (load_log_file_frame (mk_LogAnalyzer l) fs file_path filter_date w1
               (_log_entries other));
      [exact Hother1 | | cbn [_log_entries]; intros E; apply Hne; symmetry; exact E].
    cbn [_log_entries]. rewrite Hself. eexists. reflexivity.
  - rewrite (load_log_file_frame other fs file_path filter_date w1 l);
      [exact Hself | rewrite Hother1; eexists; reflexivity | exact Hne].
Qed.

Lemma new_analyzer_is_separate_witness :
  heap (fst (load_log_file (lib := example_lib) example_fs
               (snd (LogAnalyzer__init__ example_world)) (py "access.log") None
               (fst (LogAnalyzer__init__ example_world))))
  !! 1%positive
  = Some [].
Proof.
  pose proof (new_analyzer_is_separate (lib := example_lib) example_analyzer example_world []
                eq_refl) as H.
  cbv zeta in H. destruct H as (_ & _ & _ & H).
  exact (proj1 (H example_fs (py "access.log") None)).
Defined.

(** ** More on the report *)

Section ReportFacts.
Context {fo : FloatOps} {lib : PyLib}.

Lemma sum_counts_add (d : dict stats) (k : str) (r : LogEntry) :
  sum_counts (dict_set d k (add_record (default no_stats (dict_get d k)) r))
  = (sum_counts d + 1)%Z.
Proof.
  unfold sum_counts.
  induction d as [|[k0 s0] d IH]; cbn [dict_set dict_get].
  - cbn [default fold_right snd add_record no_stats count]. unfold id. lia.
  - destruct (str_eqb k0 k); cbn [default fold_right snd add_record count].
    + unfold id. lia.
    + rewrite IH. lia.
Qed.

Lemma sum_counts_tally (records : list LogEntry) (d : dict stats) :
  sum_counts (tally d records) = (sum_counts d + Z.of_nat (length records))%Z.
Proof.
  revert d. induction records as [|r rs IH]; intros d.
  - unfold tally. cbn [fold_left length Z.of_nat]. rewrite Z.add_0_r. reflexivity.
  - unfold tally in *. cbn [fold_left length]. rewrite IH, sum_counts_add. lia.
Qed.

Lemma total_count_averaged (d : dict stats) : total_count (averaged d) = sum_counts d.
Proof.
  induction d as [|[k s] d IH]; [reflexivity|].
  unfold total_count, sum_counts in *. cbn [averaged map fold_right snd entry_count].
  unfold averaged in IH. rewrite IH. reflexivity.
Qed.

Lemma total_count_perm (a b : dict report_entry) :
  Permutation a b -> total_count a = total_count b.
Proof.
  unfold total_count. induction 1; cbn [fold_right]; lia.
Qed.

Lemma dict_set_length {V : Type} (d : dict V) (k : str) (v : V) :
  (length (dict_set d k v) <= S (length d))%nat.
Proof.
  induction d as [|[k0 v0] d IH]; cbn [dict_set length]; [lia|].
  destruct (str_eqb k0 k); cbn [length]; lia.
Qed.

Lemma tally_length (records : list LogEntry) (d : dict stats) :
  (length (tally d records) <= length d + length records)%nat.
Proof.
  revert d. induction records as [|r rs IH]; intros d.
  - unfold tally. cbn [fold_left length]. lia.
  - unfold tally in *. cbn [fold_left length].
    etransitivity; [apply IH|].
    pose proof (dict_set_length d (endpoint_of r)
                  (add_record (default no_stats (dict_get d (endpoint_of r))) r)). lia.
Qed.

Lemma get_endpoint_untyped (r : LogEntry) :
  (forall u, url r <> JStr u) -> get_endpoint r = raise_ AttributeError [].
Proof.
  intros H. unfold get_endpoint.
  destruct (url r) as [| | | |s| |] eqn:E; try reflexivity.
  exfalso. exact (H s eq_refl).
Qed.

Lemma for_each_accumulate_untyped (records : list LogEntry) (d : dict stats) :
  Exists (fun r => forall u, url r <> JStr u) records ->
  for_each accumulate records d = raise_ AttributeError [].
Proof.
  revert d. induction records as [|r rs IH]; intros d Hex; [inversion Hex|].
  cbn [for_each]. destruct (get_endpoint r) as [k|e] eqn:Hk.
  - rewrite (accumulate_ok d r k Hk). unfold mbind, result_bind. apply IH.
    inversion Hex as [? ? Hr|]; subst; [|assumption].
    rewrite (get_endpoint_untyped r Hr) in Hk. discriminate.
  - rewrite (accumulate_raise d r e Hk). unfold mbind, result_bind.
    unfold get_endpoint in Hk.
    destruct (url r); try discriminate Hk; injection Hk as <-; reflexivity.
Qed.

End ReportFacts.

(** X10: over records whose [url] is a string, the counts of the report
    add up to the number of records, and the report has no more entries
    than there are records. *)
Theorem generate_total_count {fo : FloatOps} {lib : PyLib} (records : list LogEntry)
    (Htyped : Forall (fun r => exists u, url r = JStr u) records) :
  exists report,
    generate records = Ok report
    /\ total_count report = Z.of_nat (length records)
    /\ (length report <= length records)%nat.
Proof.
  assert (Forall has_endpoint records) as H.
  { eapply Forall_impl; [|exact Htyped]. intros r. apply typed_has_endpoint. }
  exists (sorted item_lt (averaged (tally [] records))).
  split; [apply generate_ok, H|]. split.
  - rewrite (total_count_perm _ _ (sorted_perm item_lt _)), total_count_averaged,
      sum_counts_tally. reflexivity.
  - rewrite (Permutation_length (sorted_perm item_lt _)). unfold averaged.
    rewrite length_map. apply (tally_length records []).
Qed.

Lemma generate_total_count_witness :
  exists report,
    generate (lib := example_lib)
      [@example_record float64 (py "/api/users/1") 0.1%float;
       @example_record float64 (py "/api/posts") 0.2%float;
       @example_record float64 (py "/api/users/2?full=1") 0.3%float] = Ok report
    /\ total_count report = 3%Z.
Proof.
  destruct (generate_total_count (lib := example_lib)
              [@example_record float64 (py "/api/users/1") 0.1%float;
               @example_record float64 (py "/api/posts") 0.2%float;
               @example_record float64 (py "/api/users/2?full=1") 0.3%float])
    as (report & Hgen & Htotal & _).
  - repeat constructor; eexists; reflexivity.
  - exists report. split; [exact Hgen | exact Htotal].
Defined.

(** X11: when the [url] of some record is not a string, [generate]
    raises an [AttributeError] (the [split] of [get_endpoint]) and returns
    no report, whatever the other records are. *)
Theorem generate_raises_on_untyped_url {fo : FloatOps} {lib : PyLib}
    (records : list LogEntry)
    (Huntyped : Exists (fun r => forall u, url r <> JStr u) records) :
  generate records = raise_ AttributeError [].
Proof.
  unfold generate. rewrite (for_each_accumulate_untyped records [] Huntyped). reflexivity.
Qed.

Lemma generate_raises_on_untyped_url_witness :
  generate (lib := example_lib)
    [@example_record float64 (py "/api/users") 0.1%float;
     mk_LogEntry float64 example_instant 200 (JInt 7) (JStr (py "GET")) 0.2%float
       (JStr (py "Agent"))]
  = raise_ AttributeError [].
Proof.
  apply (generate_raises_on_untyped_url (lib := example_lib)).
  apply Exists_cons_tl, Exists_cons_hd. intros u Hu. discriminate Hu.
Defined.

(** ** The shape of an endpoint *)

Lemma takewhile_app_stop (f : codepoint -> bool) (s t : str) (c : codepoint) :
  Forall (fun x => f x = true) s -> f c = false -> takewhile f (s ++ c :: t) = s.
Proof.
  intros Hs Hc. induction Hs as [|x s Hx _ IH]; cbn [app takewhile].
  - rewrite Hc. reflexivity.
  - rewrite Hx, IH. reflexivity.
Qed.

Lemma truncate_at_first_app (c : codepoint) (s t : str) :
  ~ In c s -> Spec.truncate_at_first c (s ++ c :: t) = s.
Proof.
  intros Hs. unfold Spec.truncate_at_first. apply takewhile_app_stop.
  - apply Forall_forall. intros x Hx. apply negb_true_iff, N.eqb_neq. congruence.
  - rewrite N.eqb_refl. reflexivity.
Qed.

Lemma truncate_at_first_none (c : codepoint) (s : str) :
  ~ In c s -> Spec.truncate_at_first c s = s.
Proof.
  unfold Spec.truncate_at_first. induction s as [|x s IH]; [reflexivity|].
  intros Hs. cbn [takewhile].
  assert (N.eqb x c = false) as -> by (apply N.eqb_neq; intros ->; apply Hs; left; reflexivity).
  cbn [negb]. rewrite IH; [reflexivity|]. intros Hin. apply Hs. right. exact Hin.
Qed.

Lemma truncate_at_first_free (c : codepoint) (s : str) :
  ~ In c (Spec.truncate_at_first c s).
Proof.
  unfold Spec.truncate_at_first. induction s as [|x s IH]; cbn [takewhile]; [tauto|].
  destruct (N.eqb x c) eqn:E; cbn [negb]; [tauto|].
  apply N.eqb_neq in E. intros [H|H]; [congruence | exact (IH H)].
Qed.

Lemma drop_trailing_slash_in (c : codepoint) (path : str) :
  In c (Spec.drop_trailing_slash path) -> In c path.
Proof.
  unfold Spec.drop_trailing_slash.
  destruct (rev path) as [|x [|d r]] eqn:E; try tauto.
  destruct (N.eqb x chr_slash); [|tauto].
  intros H. apply in_rev in H. apply in_rev. rewrite E. right. exact H.
Qed.

Lemma dropwhile_in (f : codepoint -> bool) (c : codepoint) (s : str) :
  In c (dropwhile f s) -> In c s.
Proof.
  induction s as [|x s IH]; cbn [dropwhile]; [tauto|].
  destruct (f x); [right; auto | tauto].
Qed.

Section EndpointShape.
Context {fo : FloatOps} {lib : PyLib}.

Lemma get_endpoint_re_sub (ts : datetime) (st : Z) (u : str) (m : json) (rt : F) (ua : json) :
  get_endpoint (mk_LogEntry _ ts st (JStr u) m rt ua)
  = Ok (re_sub_slash_digits
          (Spec.drop_trailing_slash (Spec.truncate_at_first chr_question u))).
Proof.
  unfold get_endpoint. cbn [url]. cbv zeta.
  rewrite item0_split_chr, drop_trailing_slash_code. reflexivity.
Qed.

(** The substitution brings in no character but those of [/...]. *)
Lemma re_sub_in (c : codepoint) (s : str) :
  In c (re_sub_slash_digits s) -> In c s \/ In c (py "/...").
Proof.
  remember (length s) as n eqn:Hn.
  assert (length s <= n)%nat as Hle by lia. clear Hn.
  revert s Hle. induction n as [|n IH]; intros s Hle.
  - destruct s; [cbn; tauto | cbn in Hle; lia].
  - destruct s as [|x t]; [cbn; tauto|].
    cbn [length] in Hle. rewrite re_sub_slash_digits_equation_2.
    destruct (N.eqb x chr_slash && starts_with_digit t).
    + rewrite in_app_iff. intros [H|H]; [right; exact H|].
      apply IH in H; [|pose proof (dropwhile_length re_digit t); lia].
      destruct H as [H|H]; [left; right; exact (dropwhile_in _ _ _ H) | right; exact H].
    + intros [->|H]; [left; left; reflexivity|].
      apply IH in H; [|lia]. destruct H; [left; right; assumption | right; assumption].
Qed.

Lemma starts_with_digit_re_sub (s : str) :
  starts_with_digit (re_sub_slash_digits s) = starts_with_digit s.
Proof.
  destruct s as [|x t]; [reflexivity|].
  rewrite re_sub_slash_digits_equation_2.
  destruct (N.eqb x chr_slash && starts_with_digit t) eqn:E; [|reflexivity].
  apply andb_true_iff in E. destruct E as [E _]. apply N.eqb_eq in E. subst x. reflexivity.
Qed.

(** No [/] of the result has a digit behind it. *)
Lemma re_sub_no_slash_digit (s : str) :
  has_slash_digit re_digit (re_sub_slash_digits s) = false.
Proof.
  remember (length s) as n eqn:Hn.
  assert (length s <= n)%nat as Hle by lia. clear Hn.
  revert s Hle. induction n as [|n IH]; intros s Hle.
  - destruct s; [reflexivity | cbn in Hle; lia].
  - destruct s as [|x t]; [reflexivity|].
    cbn [length] in Hle. rewrite re_sub_slash_digits_equation_2.
    destruct (N.eqb x chr_slash && starts_with_digit t) eqn:E.
    + change (py "/..." ++ re_sub_slash_digits (dropwhile re_digit t))
        with (47 :: 46 :: 46 :: 46 :: re_sub_slash_digits (dropwhile re_digit t))%N.
      cbn [has_slash_digit]. 
      change (re_digit 46%N) with false. cbn [N.eqb Pos.eqb chr_slash andb orb].
      apply IH. pose proof (dropwhile_length re_digit t). lia.
    + cbn [has_slash_digit]. rewrite (IH t) by lia. rewrite orb_false_r.
      fold (starts_with_digit (re_sub_slash_digits t)).
      rewrite starts_with_digit_re_sub. exact E.
Qed.

End EndpointShape.

(** X12: what follows the first [?] of a url has no part in the endpoint:
    a path with no [?] and the same path with a query string behind it
    have the same endpoint. *)
Theorem get_endpoint_ignores_query {fo : FloatOps} {lib : PyLib}
    (ts : datetime) (st : Z) (m : json) (rt : F) (ua : json) (path query : str)
    (Hpath : ~ In chr_question path) :
  get_endpoint (mk_LogEntry _ ts st (JStr (path ++ chr_question :: query)) m rt ua)
  = get_endpoint (mk_LogEntry _ ts st (JStr path) m rt ua).
Proof.
  rewrite !get_endpoint_re_sub.
  rewrite (truncate_at_first_app chr_question path query Hpath).
  rewrite (truncate_at_first_none chr_question path Hpath). reflexivity.
Qed.

Lemma get_endpoint_ignores_query_witness :
  get_endpoint (lib := example_lib)
    (@example_record float64 (py "/api/users?page=1&limit=10") 0.1%float)
  = get_endpoint (lib := example_lib) (@example_record float64 (py "/api/users") 0.1%float).
Proof.
  apply (get_endpoint_ignores_query (lib := example_lib) example_instant 200 (JStr (py "GET"))
           0.1%float (JStr (py "Agent")) (py "/api/users") (py "page=1&limit=10")).
  intros H. repeat (destruct H as [H|H]; [discriminate H|]). exact H.
Defined.

(** X13: the endpoint of a url holds no [?], and no [/] of it has a
    decimal digit right behind it: every such digit run is gone. *)
Theorem get_endpoint_shape {fo : FloatOps} {lib : PyLib}
    (ts : datetime) (st : Z) (m : json) (rt : F) (ua : json) (u : str) :
  exists endpoint,
    get_endpoint (mk_LogEntry _ ts st (JStr u) m rt ua) = Ok endpoint
    /\ ~ In chr_question endpoint
    /\ has_slash_digit re_digit endpoint = false
    /\ forall before_ d after_,
         endpoint = before_ ++ chr_slash :: d :: after_ -> re_digit d = false.
Proof.
  eexists. split; [apply get_endpoint_re_sub|].
  split; [|split; [apply re_sub_no_slash_digit|]].
  - intros H. apply re_sub_in in H. destruct H as [H|H].
    + apply drop_trailing_slash_in in H. exact (truncate_at_first_free _ _ H).
    + repeat (destruct H as [H|H]; [discriminate H|]). exact H.
  - intros before_ d after_ Heq.
    pose proof (re_sub_no_slash_digit
                  (Spec.drop_trailing_slash (Spec.truncate_at_first chr_question u))) as Hno.
    rewrite Heq in Hno. clear Heq.
    induction before_ as [|x b IH]; cbn [app has_slash_digit] in Hno.
    + rewrite N.eqb_refl in Hno. cbn [andb] in Hno. apply orb_false_iff in Hno. tauto.
    + apply orb_false_iff in Hno. tauto.
Qed.

(** ** Offsets of timestamps *)

Lemma split_at_unique (c : codepoint) (a a' b b' : str) :
  ~ In c a -> ~ In c a' -> a ++ c :: b = a' ++ c :: b' -> a = a' /\ b = b'.
Proof.
  revert a'. induction a as [|x a IH]; intros a' Ha Ha' Heq.
  - destruct a' as [|x' a']; cbn [app] in Heq.
    + injection Heq as ->. split; reflexivity.
    + injection Heq as <- _. exfalso. apply Ha'. left. reflexivity.
  - destruct a' as [|x' a']; cbn [app] in Heq.
    + injection Heq as -> _. exfalso. apply Ha. left. reflexivity.
    + injection Heq as <- Heq.
      destruct (IH a') as [-> ->]; [| |exact Heq|split; reflexivity].
      * intros H. apply Ha. right. exact H.
      * intros H. apply Ha'. right. exact H.
Qed.

Lemma contains_chr_in (c : codepoint) (s : str) : contains_chr c s = true <-> In c s.
Proof.
  unfold contains_chr. rewrite existsb_exists. split.
  - intros (x & Hx & E). apply N.eqb_eq in E. subst x. exact Hx.
  - intros H. exists c. split; [exact H | apply N.eqb_refl].
Qed.

(** What the string surgery of [_parse_timestamp] makes of a text with one
    [+]: the part before it, with [Z]. *)
Lemma normalize_offset_drops (s offset : str) :
  ~ In chr_plus s -> ~ In chr_plus offset ->
  Spec.normalize_offset (s ++ chr_plus :: offset) = s ++ py "Z".
Proof.
  intros Hs Ho. unfold Spec.normalize_offset. rewrite strip_suffix_code.
  destruct (endswith (s ++ chr_plus :: offset) (py "+00:00")) eqn:E.
  - apply endswith_true in E.
    change (length (py "+00:00")) with 6%nat in *.
    set (body := slice_to_minus 6 (s ++ chr_plus :: offset)) in *.
    change (py "+00:00") with (chr_plus :: py "00:00") in E.
    apply (f_equal (@rev codepoint)) in E.
    rewrite !rev_app_distr in E. cbn [rev] in E. rewrite <- !app_assoc in E.
    cbn [app] in E.
    apply split_at_unique in E.
    + destruct E as [_ E]. apply (f_equal (@rev codepoint)) in E.
      rewrite !rev_involutive in E. rewrite <- E. reflexivity.
    + intros H. apply Ho. apply in_rev. exact H.
    + intros H. repeat (destruct H as [H|H]; [discriminate H|]). exact H.
  - assert (existsb (N.eqb chr_plus) (s ++ chr_plus :: offset) = true) as ->.
    { apply (proj2 (contains_chr_in chr_plus _)). rewrite in_app_iff. right. left. reflexivity. }
    rewrite (truncate_at_first_app chr_plus s offset Hs). reflexivity.
Qed.

Lemma normalize_offset_plain (s : str) :
  ~ In chr_plus s -> Spec.normalize_offset s = s.
Proof.
  intros Hs. unfold Spec.normalize_offset. rewrite strip_suffix_code.
  destruct (endswith s (py "+00:00")) eqn:E.
  - exfalso. apply endswith_true in E. apply Hs. rewrite E.
    apply in_or_app. right. left. reflexivity.
  - destruct (existsb (N.eqb chr_plus) s) eqn:Ex; [|reflexivity].
    exfalso. apply Hs. apply contains_chr_in. exact Ex.
Qed.

(** X14: the offset that follows a [+] is discarded, not applied: a
    timestamp with one [+] is parsed as the text before the [+] with [Z]
    behind it, so that [...+05:30] gives the instant of [...Z]. *)
Theorem parse_timestamp_drops_offset {fo : FloatOps} {lib : PyLib}
    (s offset : str)
    (Hs : ~ In chr_plus s) (Hoffset : ~ In chr_plus offset) :
  _parse_timestamp (JStr (s ++ chr_plus :: offset)) = _parse_timestamp (JStr (s ++ py "Z")).
Proof.
  rewrite !parse_timestamp_refines. unfold Spec.parse_timestamp.
  rewrite (normalize_offset_drops s offset Hs Hoffset).
  rewrite normalize_offset_plain; [reflexivity|].
  intros H. apply in_app_iff in H. destruct H as [H|[H|[]]]; [exact (Hs H) | discriminate H].
Qed.

Lemma parse_timestamp_drops_offset_witness :
  _parse_timestamp (lib := example_lib) (JStr (py "2025-06-22T13:57:32+05:30"))
  = Ok example_instant.
Proof.
  etransitivity.
  - apply (parse_timestamp_drops_offset (lib := example_lib) (py "2025-06-22T13:57:32")
             (py "05:30")).
    + intros H. repeat (destruct H as [H|H]; [discriminate H|]). exact H.
    + intros H. repeat (destruct H as [H|H]; [discriminate H|]). exact H.
  - reflexivity.
Defined.

(** ** The command line *)

Section MainFacts.
Context {fo : FloatOps} {lib : PyLib} {os : OsLib}.
Implicit Types (fsys : filesystem) (console : list printed) (self : LogAnalyzer).

(** Every class of the model derives from [Exception]. *)
Lemma caught_by_Exception (e : exn) : caught_by [Exception] e = true.
Proof. destruct e as [[] msg]; reflexivity. Qed.

Lemma validate_files_from_valid fsys (file_paths validated : list str) console :
  Forall (fun f => is_valid fsys f = true) file_paths ->
  validate_files_from fsys file_paths validated console
  = (console ++ size_warnings fsys file_paths, inl (validated ++ map path_str file_paths)).
Proof.
  intros H. revert validated console.
  induction H as [|f rest Hf _ IH]; intros validated console.
  - cbn [validate_files_from size_warnings flat_map map]. rewrite !app_nil_r. reflexivity.
  - apply andb_true_iff in Hf. destruct Hf as [He Hf].
    cbn [validate_files_from]. rewrite He, Hf. cbn [negb].
    rewrite IH. unfold size_warnings. cbn [flat_map map].
    destruct (0 <? fs_size fsys (path_str f))%Z; cbn [negb app];
      rewrite <- ?app_assoc; reflexivity.
Qed.

Lemma validate_files_from_invalid fsys (pre post validated : list str) (bad : str) console :
  Forall (fun f => is_valid fsys f = true) pre ->
  is_valid fsys bad = false ->
  validate_files_from fsys (pre ++ bad :: post) validated console
  = (console ++ size_warnings fsys pre ++ [rejection fsys bad], inr 1%Z).
Proof.
  intros H Hbad. revert validated console.
  induction H as [|f rest Hf _ IH]; intros validated console.
  - cbn [app validate_files_from size_warnings flat_map]. unfold is_valid in Hbad.
    unfold rejection. destruct (fs_exists fsys (path_str bad)); cbn [negb]; [|reflexivity].
    cbn [andb] in Hbad. rewrite Hbad. reflexivity.
  - apply andb_true_iff in Hf. destruct Hf as [He Hf].
    cbn [app validate_files_from]. rewrite He, Hf. cbn [negb].
    rewrite IH. unfold size_warnings. cbn [flat_map].
    destruct (0 <? fs_size fsys (path_str f))%Z; cbn [negb app];
      rewrite <- ?app_assoc; reflexivity.
Qed.

Lemma validate_date_parsed (date : option str) (filter_date : option datetime) console :
  parsed_date date = Some filter_date ->
  validate_date date console = (console, inl filter_date).
Proof.
  unfold parsed_date, validate_date. destruct date as [date_str|].
  - destruct (strptime_date date_str); [|discriminate]. intros [= <-]. reflexivity.
  - intros [= <-]. reflexivity.
Qed.

Lemma load_files_holds fsys self (paths : list str) (liness : list (list str))
    (filter_date : option datetime) :
  Forall2 (holds fsys) paths liness ->
  forall (h : gmap loc (list LogEntry)) console (store : list LogEntry),
    h !! _log_entries self = Some store ->
    load_files fsys self paths filter_date h console
    = (<[_log_entries self := store ++ all_records filter_date liness]> h,
       console ++ all_warnings paths liness, None).
Proof.
  induction 1 as [|path lines paths liness [Hopen Hskip] _ IH]; intros h console store Hstore.
  - cbn [load_files all_records flat_map all_warnings].
    rewrite !app_nil_r, (insert_id _ _ _ Hstore). reflexivity.
  - cbn [load_files].
    rewrite (load_log_file_skips self (fs_open fsys) path filter_date lines
               (mk_world _ h []) store Hopen Hskip Hstore).
    cbn [fst snd]. unfold grown. cbn [heap stdout app].
    rewrite (IH _ _ (store ++ kept filter_date (loaded lines))) by apply lookup_insert_eq.
    rewrite insert_insert_eq. unfold all_records. cbn [flat_map all_warnings].
    rewrite <- ?app_assoc. reflexivity.
Qed.

Lemma load_files_fails fsys self (pre post : list str) (liness : list (list str))
    (path : str) (filter_date : option datetime) (out : list output) (e : exn) :
  Forall2 (holds fsys) pre liness ->
  (forall (h : gmap loc (list LogEntry)) (store : list LogEntry),
     h !! _log_entries self = Some store ->
     stdout (fst (load_log_file (fs_open fsys) self path filter_date (mk_world _ h []))) = out
     /\ snd (load_log_file (fs_open fsys) self path filter_date (mk_world _ h [])) = Raise e) ->
  forall (h : gmap loc (list LogEntry)) console (store : list LogEntry),
    h !! _log_entries self = Some store ->
    exists h',
      load_files fsys self (pre ++ path :: post) filter_date h console
      = (h', console ++ all_warnings pre liness ++ map Loader out ++ [LoadError path e],
         Some (Exited 1)).
Proof.
  intros Hpre Hfail.
  induction Hpre as [|p lines pre liness [Hopen Hskip] _ IH]; intros h console store Hstore.
  - cbn [app load_files all_warnings].
    destruct (Hfail h store Hstore) as [Hout Hr]. rewrite Hout, Hr, caught_by_Exception.
    eexists. rewrite <- ?app_assoc. reflexivity.
  - cbn [app load_files].
    rewrite (load_log_file_skips self (fs_open fsys) p filter_date lines
               (mk_world _ h []) store Hopen Hskip Hstore).
    cbn [fst snd]. unfold grown. cbn [heap stdout app all_warnings].
    destruct (IH (<[_log_entries self := store ++ kept filter_date (loaded lines)]> h)
                (console ++ map Loader (warnings p 1 lines))
                (store ++ kept filter_date (loaded lines))) as [h' ->];
      [apply lookup_insert_eq|].
    exists h'. rewrite <- ?app_assoc. reflexivity.
Qed.

(** A run whose files pass the tests and whose date is parsed, and one of
    whose loads raises. *)
Lemma main_failed_load fsys (pre post : list str) (liness : list (list str)) (p report : str)
    (date : option str) (filter_date : option datetime) (out : list output) (e : exn) :
  Forall (fun f => is_valid fsys f = true) (pre ++ p :: post) ->
  parsed_date date = Some filter_date ->
  Forall2 (holds fsys) (map path_str pre) liness ->
  (forall self (h : gmap loc (list LogEntry)) (store : list LogEntry),
     h !! _log_entries self = Some store ->
     stdout (fst (load_log_file (fs_open fsys) self (path_str p) filter_date
                    (mk_world _ h []))) = out
     /\ snd (load_log_file (fs_open fsys) self (path_str p) filter_date (mk_world _ h []))
        = Raise e) ->
  main fsys (pre ++ p :: post) report date
  = (size_warnings fsys (pre ++ p :: post)
     ++ all_warnings (map path_str pre) liness
     ++ map Loader out ++ [LoadError (path_str p) e],
     Exited 1).
Proof.
  intros Hvalid Hdate Hpre Hfail. unfold main, validate_files.
  rewrite (validate_files_from_valid fsys _ [] [] Hvalid). cbn [app].
  rewrite (validate_date_parsed date filter_date _ Hdate).
  rewrite map_app. cbn [map]. unfold LogAnalyzer__init__. cbn [fst snd heap stdout].
  set (l := fresh _). set (self := mk_LogAnalyzer l).
  destruct (load_files_fails fsys self (map path_str pre) (map path_str post) liness
              (path_str p) filter_date out e Hpre (Hfail self)
              (<[l := []]> ∅) (size_warnings fsys (pre ++ p :: post)) [])
    as [h' ->]; [apply lookup_insert_eq|].
  reflexivity.
Qed.

(** A run all of whose files are read to the end. *)
Lemma main_loaded fsys (files : list str) (liness : list (list str))
    (date : option str) (filter_date : option datetime) :
  Forall (fun f => is_valid fsys f = true) files ->
  parsed_date date = Some filter_date ->
  Forall2 (holds fsys) (map path_str files) liness ->
  main fsys files (py "average") date
  = match generate (all_records filter_date liness) with
    | Raise e =>
        (size_warnings fsys files ++ all_warnings (map path_str files) liness
         ++ [Unexpected e], Exited 1)
    | Ok [] =>
        (size_warnings fsys files ++ all_warnings (map path_str files) liness
         ++ [NoData], Returned)
    | Ok report_data =>
        (size_warnings fsys files ++ all_warnings (map path_str files) liness
         ++ report_lines (py "average") filter_date (map path_str files) report_data,
         Returned)
    end.
Proof.
  intros Hvalid Hdate Hfiles. unfold main, validate_files.
  rewrite (validate_files_from_valid fsys _ [] [] Hvalid). cbn [app].
  rewrite (validate_date_parsed date filter_date _ Hdate).
  unfold LogAnalyzer__init__. cbn [fst snd heap stdout].
  set (l := fresh _). set (self := mk_LogAnalyzer l).
  rewrite (load_files_holds fsys self (map path_str files) liness filter_date Hfiles
             (<[l := []]> ∅) (size_warnings fsys files) [])
    by apply lookup_insert_eq.
  cbn [_log_entries self].
  rewrite str_eqb_refl. cbn [app]. unfold get_log_entries, contents. cbn [fst snd heap].
  rewrite lookup_insert_eq. cbn [default]. rewrite lookup_insert_eq. cbn [default].
  unfold id.
  destruct (generate (all_records filter_date liness)) as [[|item report_data]|e].
  - rewrite <- ?app_assoc. reflexivity.
  - unfold report_lines. rewrite <- ?app_assoc. reflexivity.
  - rewrite caught_by_Exception, <- app_assoc. reflexivity.
Qed.

Lemma dict_set_nonempty {V} (d : dict V) (k : str) (v : V) : dict_set d k v <> [].
Proof. destruct d as [|[k' v'] d]; cbn [dict_set]; [|destruct (str_eqb k' k)]; discriminate. Qed.

Lemma tally_nonempty (records : list LogEntry) (d : dict stats) :
  d <> [] -> tally d records <> [].
Proof.
  revert d. induction records as [|r rs IH]; intros d Hd; [exact Hd|].
  unfold tally in *. cbn [fold_left]. apply IH, dict_set_nonempty.
Qed.

Lemma generate_nonempty (records : list LogEntry) :
  Forall has_endpoint records -> records <> [] ->
  exists item report_data, generate records = Ok (item :: report_data).
Proof.
  intros H Hne. rewrite (generate_ok records H).
  destruct (sorted item_lt (averaged (tally [] records))) as [|item report_data] eqn:E;
    [|eauto].
  exfalso. pose proof (sorted_perm item_lt (averaged (tally [] records))) as Hperm.
  rewrite E in Hperm. apply Permutation_nil in Hperm.
  unfold averaged in Hperm. apply map_eq_nil in Hperm.
  destruct records as [|r rs]; [congruence|].
  revert Hperm. unfold tally. cbn [fold_left]. apply tally_nonempty, dict_set_nonempty.
Qed.





End MainFacts.

(** X15: the first path that does not exist, or that is not a regular
    file, ends the run with status 1: its error is the last line printed,
    before it come only the warnings for the empty files in front of it.
    The paths behind it are not tested, the date is not parsed and no file
    is opened. *)
Theorem main_rejects_invalid_path {fo : FloatOps} {lib : PyLib} {os : OsLib}
    (fsys : filesystem) (pre post : list str) (bad report : str) (date : option str)
    (Hpre : Forall (fun f => is_valid fsys f = true) pre)
    (Hbad : is_valid fsys bad = false) :
  main fsys (pre ++ bad :: post) report date
  = (size_warnings fsys pre ++ [rejection fsys bad], Exited 1).
Proof.
  unfold main, validate_files.
  rewrite (validate_files_from_invalid fsys pre post [] bad [] Hpre Hbad). reflexivity.
Qed.

Lemma main_rejects_invalid_path_witness :
  main (lib := example_lib) (os := example_os) example_disk
    [py "empty.log"; py "missing.log"; py "logs"] (py "average") (Some (py "yesterday"))
  = ([EmptyFile (py "empty.log"); FileMissing (py "missing.log")], Exited 1).
Proof.
  apply (main_rejects_invalid_path (lib := example_lib) (os := example_os) example_disk
           [py "empty.log"] [py "logs"] (py "missing.log") (py "average")
           (Some (py "yesterday"))).
  - repeat constructor.
  - reflexivity.
Defined.

(** X16: when every path passes the tests and the date is not of the form
    [%Y-%m-%d], the run ends with status 1 after the error for the date;
    all the files have been tested before, and none is opened. *)
Theorem main_rejects_bad_date {fo : FloatOps} {lib : PyLib} {os : OsLib}
    (fsys : filesystem) (files : list str) (report date_str : str)
    (Hfiles : Forall (fun f => is_valid fsys f = true) files)
    (Hdate : strptime_date date_str = None) :
  main fsys files report (Some date_str)
  = (size_warnings fsys files ++ [BadDate date_str], Exited 1).
Proof.
  unfold main, validate_files.
  rewrite (validate_files_from_valid fsys files [] [] Hfiles). cbn [app].
  unfold validate_date. rewrite Hdate. reflexivity.
Qed.

Lemma main_rejects_bad_date_witness :
  main (lib := example_lib) (os := example_os) example_disk
    [py "access.log"; py "empty.log"] (py "average") (Some (py "22-06-2025"))
  = ([EmptyFile (py "empty.log"); BadDate (py "22-06-2025")], Exited 1).
Proof.
  apply (main_rejects_bad_date (lib := example_lib) (os := example_os) example_disk
           [py "access.log"; py "empty.log"] (py "average") (py "22-06-2025")).
  - repeat constructor.
  - reflexivity.
Defined.

(** X17: a file that passes the tests and then cannot be opened ends the
    run with status 1: after the warnings of the files loaded before it,
    the error with the exception of [load_log_file] is the last line
    printed.  The files behind it are not opened and no report is printed
    for the records already loaded. *)
Theorem main_stops_at_unreadable_file {fo : FloatOps} {lib : PyLib} {os : OsLib}
    (fsys : filesystem) (pre post : list str) (liness : list (list str)) (p report : str)
    (date : option str) (filter_date : option datetime) (e : exn)
    (Hvalid : Forall (fun f => is_valid fsys f = true) (pre ++ p :: post))
    (Hdate : parsed_date date = Some filter_date)
    (Hpre : Forall2 (holds fsys) (map path_str pre) liness)
    (Hopen : fs_open fsys (path_str p) = Unopenable e) :
  main fsys (pre ++ p :: post) report date
  = (size_warnings fsys (pre ++ p :: post)
     ++ all_warnings (map path_str pre) liness
     ++ [LoadError (path_str p) (load_failure (path_str p) e)],
     Exited 1).
Proof.
  apply (main_failed_load fsys pre post liness p report date filter_date [] _ Hvalid Hdate Hpre).
  intros self h store _. unfold load_log_file, load_failure. rewrite Hopen.
  destruct (caught_by [OSError] e); split; reflexivity.
Qed.

Lemma main_stops_at_unreadable_file_witness :
  main (lib := example_lib) (os := example_os) example_disk
    [py "mixed.log"; py "locked.log"; py "access.log"] (py "average") None
  = ([Loader (Warning 2 (py "mixed.log") (mk_exn JSONDecodeError []));
      LoadError (py "locked.log")
        (mk_exn Exception
           (py "Failed to read file locked.log: [Errno 13] Permission denied: 'locked.log'"))],
     Exited 1).
Proof.
  apply (main_stops_at_unreadable_file (lib := example_lib) (os := example_os) example_disk
           [py "mixed.log"] [py "access.log"]
           [[example_line1 ++ [newline]; py "invalid json line" ++ [newline];
             example_line2 ++ [newline]]]
           (py "locked.log") (py "average") None None
           (mk_exn OSError (py "[Errno 13] Permission denied: 'locked.log'"))).
  - repeat constructor.
  - reflexivity.
  - repeat constructor; intros e He.
    + assert (parse_line (lib := example_lib) (example_line1 ++ [newline])
              = Some (Ok example_entry1)) as Hp by reflexivity.
      rewrite Hp in He. discriminate He.
    + assert (parse_line (lib := example_lib) (py "invalid json line" ++ [newline])
              = Some (Raise (mk_exn JSONDecodeError []))) as Hp by reflexivity.
      rewrite Hp in He. injection He as <-. reflexivity.
    + assert (parse_line (lib := example_lib) (example_line2 ++ [newline])
              = Some (Ok example_entry2)) as Hp by reflexivity.
      rewrite Hp in He. discriminate He.
  - reflexivity.
Defined.

(** X18: a line that raises an exception of a class that the handler of
    a line does not catch (the [TypeError] of a [null] status, say) ends
    the whole run with status 1: after the warnings of the files before
    and of the lines before it in its file, the error with that exception
    is the last line printed.  The lines and the files behind it are not
    read, and no report is printed for the records already loaded. *)
Theorem main_stops_at_uncaught_line {fo : FloatOps} {lib : PyLib} {os : OsLib}
    (fsys : filesystem) (pre post : list str) (liness : list (list str)) (p report : str)
    (date : option str) (filter_date : option datetime)
    (before_ : list str) (bad : str) (rest : list read_event) (e : exn)
    (Hvalid : Forall (fun f => is_valid fsys f = true) (pre ++ p :: post))
    (Hdate : parsed_date date = Some filter_date)
    (Hpre : Forall2 (holds fsys) (map path_str pre) liness)
    (Hopen : fs_open fsys (path_str p) = Opened (map Line before_ ++ Line bad :: rest))
    (Hbefore : skippable before_)
    (Hbad : parse_line bad = Some (Raise e))
    (Huncaught : caught_by line_errors e = false) :
  main fsys (pre ++ p :: post) report date
  = (size_warnings fsys (pre ++ p :: post)
     ++ all_warnings (map path_str pre) liness
     ++ map Loader (warnings (path_str p) 1 before_)
     ++ [LoadError (path_str p) (load_failure (path_str p) e)],
     Exited 1).
Proof.
  apply (main_failed_load fsys pre post liness p report date filter_date _ _ Hvalid Hdate Hpre).
  intros self h store Hstore. unfold load_log_file, load_failure. rewrite Hopen.
  rewrite read_lines_app.
  rewrite (read_lines_skips self (path_str p) filter_date before_ Hbefore 1%N
             (mk_world _ h []) store Hstore).
  cbn [read_lines]. rewrite load_line_reading, Hbad.
  change (caught_by [JSONDecodeError; KeyError; ValueError] e) with (caught_by line_errors e).
  rewrite Huncaught.
  destruct (caught_by [OSError] e); split; reflexivity.
Qed.

Lemma main_stops_at_uncaught_line_witness :
  main (lib := example_lib) (os := example_os) example_disk
    [py "empty.log"; py "null.log"; py "access.log"] (py "average") None
  = ([EmptyFile (py "empty.log"); LoadError (py "null.log") (mk_exn TypeError [])], Exited 1).
Proof.
  apply (main_stops_at_uncaught_line (lib := example_lib) (os := example_os) example_disk
           [py "empty.log"] [py "access.log"] [[]] (py "null.log") (py "average") None None
           [] (example_line_null ++ [newline]) [Line (example_line1 ++ [newline])]
           (mk_exn TypeError [])).
  - repeat constructor.
  - reflexivity.
  - repeat constructor.
  - reflexivity.
  - constructor.
  - reflexivity.
  - reflexivity.
Defined.




(** X20: when every file passes the tests and is read to its end, and
    some record passes the filter, all with a string for [url], the run
    returns after printing: the warnings of the tests, then the warnings
    of the loads in the order of the command line, then the report, whose
    table has one row for each entry of what [generate] returns for the
    records of all the files, in that order: the endpoint, the count and
    the mean. *)
Theorem main_prints_report {fo : FloatOps} {lib : PyLib} {os : OsLib}
    (fsys : filesystem) (files : list str) (liness : list (list str))
    (date : option str) (filter_date : option datetime)
    (Hvalid : Forall (fun f => is_valid fsys f = true) files)
    (Hdate : parsed_date date = Some filter_date)
    (Hfiles : Forall2 (holds fsys) (map path_str files) liness)
    (Htyped : Forall (fun r => exists u, url r = JStr u) (all_records filter_date liness))
    (Hsome : all_records filter_date liness <> []) :
  exists report_data,
    generate (all_records filter_date liness) = Ok report_data
    /\ report_data <> []
    /\ main fsys files (py "average") date
       = (size_warnings fsys files
          ++ all_warnings (map path_str files) liness
          ++ [Title (py "average"); Rule]
          ++ match filter_date with Some d => [FilteredBy d] | None => [] end
          ++ [FilesProcessed (map path_name (map path_str files)); Blank;
              Table (map (fun item => (fst item, entry_count (snd item),
                                       avg_response_time (snd item))) report_data);
              Blank],
          Returned).
Proof.
  assert (Forall has_endpoint (all_records filter_date liness)) as H.
  { eapply Forall_impl; [|exact Htyped]. intros r. apply typed_has_endpoint. }
  destruct (generate_nonempty _ H Hsome) as (item & report_data & Hg).
  exists (item :: report_data). split; [exact Hg|]. split; [discriminate|].
  rewrite (main_loaded fsys files liness date filter_date Hvalid Hdate Hfiles), Hg.
  reflexivity.
Qed.

Lemma main_prints_report_witness :
  exists report_data,
    generate (lib := example_lib) [example_entry1; example_entry1]
    = Ok report_data
    /\ report_data <> []
    /\ main (lib := example_lib) (os := example_os) example_disk
         [py "access.log"; py "mixed.log"] (py "average") (Some (py "2025-06-22"))
       = ([Loader (Warning 2 (py "mixed.log") (mk_exn JSONDecodeError []));
           Title (py "average"); Rule;
           FilteredBy (mk_datetime (mk_date 2025 6 22) 0 0 0 0 None);
           FilesProcessed [py "access.log"; py "mixed.log"]; Blank;
           Table (map (fun item => (fst item, entry_count (snd item),
                                    avg_response_time (snd item))) report_data);
           Blank],
          Returned).
Proof.
  assert (all_records (lib := example_lib)
            (Some (mk_datetime (mk_date 2025 6 22) 0 0 0 0 None))
            [[example_line1 ++ [newline]; example_line2 ++ [newline]];
             [example_line1 ++ [newline]; py "invalid json line" ++ [newline];
              example_line2 ++ [newline]]]
          = [example_entry1; example_entry1]) as Hrecords by reflexivity.
  apply (main_prints_report (lib := example_lib) (os := example_os) example_disk
           [py "access.log"; py "mixed.log"]
           [[example_line1 ++ [newline]; example_line2 ++ [newline]];
            [example_line1 ++ [newline]; py "invalid json line" ++ [newline];
             example_line2 ++ [newline]]]
           (Some (py "2025-06-22")) (Some (mk_datetime (mk_date 2025 6 22) 0 0 0 0 None))).
  - repeat constructor.
  - reflexivity.
  - repeat constructor; intros e He.
    + assert (parse_line (lib := example_lib) (example_line1 ++ [newline])
              = Some (Ok example_entry1)) as Hp by reflexivity.
      rewrite Hp in He. discriminate He.
    + assert (parse_line (lib := example_lib) (example_line2 ++ [newline])
              = Some (Ok example_entry2)) as Hp by reflexivity.
      rewrite Hp in He. discriminate He.
    + assert (parse_line (lib := example_lib) (example_line1 ++ [newline])
              = Some (Ok example_entry1)) as Hp by reflexivity.
      rewrite Hp in He. discriminate He.
    + assert (parse_line (lib := example_lib) (py "invalid json line" ++ [newline])
              = Some (Raise (mk_exn JSONDecodeError []))) as Hp by reflexivity.
      rewrite Hp in He. injection He as <-. reflexivity.
    + assert (parse_line (lib := example_lib) (example_line2 ++ [newline])
              = Some (Ok example_entry2)) as Hp by reflexivity.
      rewrite Hp in He. discriminate He.
  - rewrite Hrecords. repeat constructor; eexists; reflexivity.
  - rewrite Hrecords. discriminate.
Defined.

(** X21: when every file passes the tests and is read to its end, and no
    record passes the filter (the files are empty, hold no record, or no
    record has the date asked for), the run prints the warnings and the
    line that no data was found, and returns: no report is printed and
    the status is not 1. *)
Theorem main_no_data {fo : FloatOps} {lib : PyLib} {os : OsLib}
    (fsys : filesystem) (files : list str) (liness : list (list str))
    (date : option str) (filter_date : option datetime)
    (Hvalid : Forall (fun f => is_valid fsys f = true) files)
    (Hdate : parsed_date date = Some filter_date)
    (Hfiles : Forall2 (holds fsys) (map path_str files) liness)
    (Hnone : all_records filter_date liness = []) :
  main fsys files (py "average") date
  = (size_warnings fsys files ++ all_warnings (map path_str files) liness ++ [NoData],
     Returned).
Proof.
  rewrite (main_loaded fsys files liness date filter_date Hvalid Hdate Hfiles), Hnone.
  reflexivity.
Qed.

Lemma main_no_data_witness :
  main (lib := example_lib) (os := example_os) example_disk
    [py "empty.log"] (py "average") (Some (py "2025-06-22"))
  = ([EmptyFile (py "empty.log"); NoData], Returned).
Proof.
  apply (main_no_data (lib := example_lib) (os := example_os) example_disk
           [py "empty.log"] [[]] (Some (py "2025-06-22"))
           (Some (mk_datetime (mk_date 2025 6 22) 0 0 0 0 None))).
  - repeat constructor.
  - reflexivity.
  - repeat constructor.
  - reflexivity.
Defined.

(** X22: a record whose [url] is not a string is loaded without a
    warning, and then ends the run: when every file is read to its end
    and one record that passes the filter has such a [url], [generate]
    raises, the run prints the warnings and the unexpected
    [AttributeError] and ends with status 1; no report is printed for the
    other records. *)
Theorem main_fails_on_untyped_url {fo : FloatOps} {lib : PyLib} {os : OsLib}
    (fsys : filesystem) (files : list str) (liness : list (list str))
    (date : option str) (filter_date : option datetime)
    (Hvalid : Forall (fun f => is_valid fsys f = true) files)
    (Hdate : parsed_date date = Some filter_date)
    (Hfiles : Forall2 (holds fsys) (map path_str files) liness)
    (Huntyped : Exists (fun r => forall u, url r <> JStr u) (all_records filter_date liness)) :
  main fsys files (py "average") date
  = (size_warnings fsys files ++ all_warnings (map path_str files) liness
     ++ [Unexpected (mk_exn AttributeError [])],
     Exited 1).
Proof.
  rewrite (main_loaded fsys files liness date filter_date Hvalid Hdate Hfiles).
  unfold generate. rewrite (for_each_accumulate_untyped _ [] Huntyped). reflexivity.
Qed.

Lemma main_fails_on_untyped_url_witness :
  main (lib := untyped_lib) (os := example_os) untyped_disk
    [py "access.log"] (py "average") None
  = ([Unexpected (mk_exn AttributeError [])], Exited 1).
Proof.
  assert (parse_line (lib := untyped_lib) (example_line_untyped ++ [newline])
          = Some (Ok (mk_LogEntry float64 example_instant 200 (JInt 7) (JStr (py "GET"))
                        0.024%float (JStr (py "TestAgent/1.0"))))) as Hp by reflexivity.
  apply (main_fails_on_untyped_url (lib := untyped_lib) (os := example_os) untyped_disk
           [py "access.log"] [[example_line_untyped ++ [newline]]] None None).
  - repeat constructor.
  - reflexivity.
  - repeat constructor. intros e He. rewrite Hp in He. discriminate He.
  - unfold all_records. cbn [flat_map loaded kept]. rewrite Hp. cbn [app].
    apply Exists_cons_hd. intros u Hu. discriminate Hu.
Defined.
